(** * IP-Analyzer: a shallow embedding of the processing core

    The development follows the three Python modules that make up the
    core of the analyzer:

    - [api_clients.py]: [is_valid_ip], the validation loop of
      [extract_ip_data_with_gemini] and the caching lookup [get_ip_info];
    - [processing.py]: [parse_and_convert_timezone] and the orchestrator
      [process_ip_analysis];
    - [config.py]: the constant [IPINFO_URL].

    Python values that the code handles dynamically (JSON payloads, the
    dictionaries built by [get_ip_info]) are values of [pyval]; the
    dictionaries that are shared by reference (a record returned by
    [get_ip_info] is the very object stored in the cache and in the
    result row) live in a heap and are named by their location.  Library
    calls whose result the code cannot control ([ipaddress], [requests],
    [json], [dateutil], [zoneinfo], [pytz], the file system, the clock,
    the text-understanding service) are fields of environment records;
    a concrete environment is given at the end of the definitions and is
    used to run the model on examples.

    Strings are byte strings; [str.strip] and [str.isspace] are modelled
    on the ASCII range (the ten ASCII characters Python treats as white
    space).  Calls to [logger] have no effect on the values computed and
    are left out; the module-level flag that only gates one log line is
    kept in the store because the code writes it. *)

From Stdlib Require Import ZArith String Ascii List Bool Lia.
From stdpp Require Import base option list gmap strings pretty.

Set Warnings "-register-all".
Local Open Scope Z_scope.

(* ===================================================================== *)
(** ** Python strings *)
(* ===================================================================== *)

Module PyStr.

(** The ASCII characters for which [str.isspace] is true:
    TAB, LF, VT, FF, CR, FS, GS, RS, US and SPACE. *)
Definition is_space (c : ascii) : bool :=
  let n := nat_of_ascii c in
  ((9 <=? n)%nat && (n <=? 13)%nat) || ((28 <=? n)%nat && (n <=? 32)%nat).

Definition is_digit (c : ascii) : bool :=
  let n := nat_of_ascii c in (48 <=? n)%nat && (n <=? 57)%nat.

Fixpoint lstrip (s : string) : string :=
  match s with
  | EmptyString => EmptyString
  | String c r => if is_space c then lstrip r else s
  end.

Definition rstrip (s : string) : string :=
  String.rev (lstrip (String.rev s)).

(** [s.strip()] *)
Definition strip (s : string) : string := rstrip (lstrip s).

Fixpoint all_space (s : string) : bool :=
  match s with
  | EmptyString => true
  | String c r => is_space c && all_space r
  end.

(** [s.isspace()]: false on the empty string. *)
Definition isspace (s : string) : bool :=
  match s with
  | EmptyString => false
  | _ => all_space s
  end.

(** [not s] for a string. *)
Definition is_empty (s : string) : bool :=
  match s with EmptyString => true | _ => false end.

Definition eqb (a b : string) : bool := bool_decide (a = b).

(** [s.startswith(p)] and [s.endswith(p)] *)
Definition startswith (s p : string) : bool := String.prefix p s.
Definition endswith (s p : string) : bool :=
  String.prefix (String.rev p) (String.rev s).

(** [s[n:]] and [s[:-n]] for a literal [n]. *)
Fixpoint drop (n : nat) (s : string) : string :=
  match n, s with
  | O, _ => s
  | S n', String _ r => drop n' r
  | S _, EmptyString => EmptyString
  end.
Definition drop_end (n : nat) (s : string) : string :=
  String.rev (drop n (String.rev s)).

(** [s.replace(a, b)] for one-character [a] and [b]. *)
Fixpoint replace_char (a b : ascii) (s : string) : string :=
  match s with
  | EmptyString => EmptyString
  | String c r =>
      String (if Ascii.eqb c a then b else c) (replace_char a b r)
  end.

Fixpoint drop_while (p : ascii -> bool) (s : string) : string :=
  match s with
  | EmptyString => EmptyString
  | String c r => if p c then drop_while p r else s
  end.

Fixpoint take_while (p : ascii -> bool) (s : string) : string :=
  match s with
  | EmptyString => EmptyString
  | String c r => if p c then String c (take_while p r) else EmptyString
  end.

Definition is_newline (c : ascii) : bool := Ascii.eqb c "010"%char.

(** The regular-expression match on the organisation field, with
    IGNORECASE: the letters A and S, one or more digits, one or more
    white-space characters, then group 2: everything up to the end of
    the line.  The result is group 2, or [None] when there is no match.
    The quantified parts follow each other without overlap, so the
    greedy match is the only one. *)
Definition match_as_org (s : string) : option string :=
  match s with
  | String a (String b r) =>
      if (Ascii.eqb a "A" || Ascii.eqb a "a")%char
         && (Ascii.eqb b "S" || Ascii.eqb b "s")%char
      then
        let after_digits := drop_while is_digit r in
        if bool_decide (after_digits = r) then None
        else
          let after_space := drop_while is_space after_digits in
          if bool_decide (after_space = after_digits) then None
          else Some (take_while (fun c => negb (is_newline c)) after_space)
      else None
  | _ => None
  end.

End PyStr.

(* ===================================================================== *)
(** ** Dynamically typed Python values *)
(* ===================================================================== *)

(** What [json.loads] can produce, which is also all that the records
    built by [get_ip_info] hold.  A float is kept as mantissa and decimal
    exponent; a JSON object keeps its items in insertion order with
    distinct keys. *)
Inductive pyval : Type :=
| PyNone
| PyBool (b : bool)
| PyInt (n : Z)
| PyFloat (mantissa exponent : Z)
| PyStr (s : string)
| PyList (items : list pyval)
| PyDict (items : list (string * pyval)).

Module Py.

(** Truth value of an object, as tested by [if x], [not x] and [x or y]. *)
Definition truthy (v : pyval) : bool :=
  match v with
  | PyNone => false
  | PyBool b => b
  | PyInt n => negb (n =? 0)
  | PyFloat m _ => negb (m =? 0)
  | PyStr s => negb (PyStr.is_empty s)
  | PyList l => match l with [] => false | _ => true end
  | PyDict l => match l with [] => false | _ => true end
  end.

(** [x or d] *)
Definition or_else (x d : pyval) : pyval := if truthy x then x else d.

Fixpoint assoc (k : string) (items : list (string * pyval)) : option pyval :=
  match items with
  | [] => None
  | (k', v) :: r => if PyStr.eqb k k' then Some v else assoc k r
  end.

(** [d.get(k, default)] on the items of a dict. *)
Definition get (items : list (string * pyval)) (k : string) (default : pyval)
  : pyval :=
  match assoc k items with Some v => v | None => default end.

(** [k in d] *)
Definition has_key (items : list (string * pyval)) (k : string) : bool :=
  match assoc k items with Some _ => true | None => false end.

(** [v == "..."] against a string literal. *)
Definition eq_str (v : pyval) (s : string) : bool :=
  match v with PyStr t => PyStr.eqb t s | _ => false end.

Definition is_str (v : pyval) : bool :=
  match v with PyStr _ => true | _ => false end.

End Py.

(* ===================================================================== *)
(** ** The [ipaddress] library *)
(* ===================================================================== *)

(** The object returned by [ipaddress.ip_address], reduced to the five
    properties [get_ip_info] reads. *)
Record ip_obj : Type := mkIpObj {
  is_private : bool;
  is_loopback : bool;
  is_link_local : bool;
  is_multicast : bool;
  is_reserved : bool
}.

(** [ipaddress.ip_address s]: [None] stands for [ValueError]. *)
Record IpLib : Type := mkIpLib {
  ipaddress_ip_address : string -> option ip_obj
}.

(* ===================================================================== *)
(** ** The [requests] library *)
(* ===================================================================== *)

(** What the three calls [requests.get], [raise_for_status] and
    [response.json()] come to.  An exception is named by the first
    [except] clause of [get_ip_info] that catches it. *)
Inductive http_outcome : Type :=
| HttpJson (data : pyval)
| HttpTimeout
| HttpError (status : Z)
| HttpConnectionError
| HttpRequestException
| HttpJSONDecodeError
| HttpOtherException.

(** The answer may differ from one request to the next: it depends on the
    number of requests made before as well as on the URL. *)
Record NetLib : Type := mkNetLib {
  requests_get : nat -> string -> http_outcome
}.

(* ===================================================================== *)
(** ** The store: heap of dictionaries, cache, effects *)
(* ===================================================================== *)

Definition loc := nat.

(** A dictionary with string keys, such as the record of an IP. *)
Abbreviation pydict := (gmap string pyval).

Inductive event : Type :=
| EvProgress (step : string) (percentage : Z)
| EvSleep
| EvHttpGet (url : string).

Record store : Type := mkStore {
  heap : list pydict;                 (* the dictionaries allocated so far *)
  cache : gmap string loc;            (* [ip_info_cache]: IP to reference *)
  trace : list event;                 (* effects, oldest first *)
  token_ipinfo_missing_logged : bool; (* [_token_ipinfo_missing_logged] *)
  clock_reads : nat                   (* calls of [datetime.now] so far *)
}.

Definition is_http_get (e : event) : bool :=
  match e with EvHttpGet _ => true | _ => false end.

Definition is_sleep (e : event) : bool :=
  match e with EvSleep => true | _ => false end.

(** Number of requests sent so far. *)
Definition http_count (t : list event) : nat :=
  length (List.filter is_http_get t).

Definition sleep_count (t : list event) : nat :=
  length (List.filter is_sleep t).

(** A small state monad over the store. *)
Definition M (A : Type) : Type := store -> A * store.

Definition ret {A} (a : A) : M A := fun st => (a, st).
Definition bind {A B} (m : M A) (k : A -> M B) : M B :=
  fun st => let (a, st') := m st in k a st'.

Declare Scope py_scope.
Delimit Scope py_scope with py.
Notation "'do' x <- m ; k" := (bind m (fun x => k))
  (at level 10, x name, m at level 100, k at level 200) : py_scope.
Notation "'run' m ; k" := (bind m (fun _ => k))
  (at level 10, m at level 100, k at level 200) : py_scope.

Module St.

Definition get_cache : M (gmap string loc) := fun st => (cache st, st).

(** [cache[k] = ref] *)
Definition cache_put (k : string) (l : loc) : M unit := fun st =>
  (tt, mkStore (heap st) (<[k := l]> (cache st)) (trace st)
               (token_ipinfo_missing_logged st) (clock_reads st)).

(** A fresh cache object: [ip_info_cache = {}]. *)
Definition cache_new : M unit := fun st =>
  (tt, mkStore (heap st) ∅ (trace st)
               (token_ipinfo_missing_logged st) (clock_reads st)).

(** A dictionary display: a new object, distinct from all others. *)
Definition alloc (d : pydict) : M loc := fun st =>
  (length (heap st),
   mkStore (heap st ++ [d]) (cache st) (trace st)
           (token_ipinfo_missing_logged st) (clock_reads st)).

(** In-place change of the dictionary at [l]. *)
Definition modify (l : loc) (f : pydict -> pydict) : M unit := fun st =>
  (tt, mkStore (alter f l (heap st)) (cache st) (trace st)
               (token_ipinfo_missing_logged st) (clock_reads st)).

(** [d[k] = v] *)
Definition set_item (l : loc) (k : string) (v : pyval) : M unit :=
  modify l (fun d => <[k := v]> d).

(** [d.setdefault(k, v)] *)
Definition setdefault (l : loc) (k : string) (v : pyval) : M unit :=
  modify l (fun d => match d !! k with Some _ => d | None => <[k := v]> d end).

Definition emit (e : event) : M unit := fun st =>
  (tt, mkStore (heap st) (cache st) (trace st ++ [e])
               (token_ipinfo_missing_logged st) (clock_reads st)).

Definition get_logged : M bool :=
  fun st => (token_ipinfo_missing_logged st, st).

Definition set_logged (b : bool) : M unit := fun st =>
  (tt, mkStore (heap st) (cache st) (trace st) b (clock_reads st)).

(** [requests.get(url, ...)] and the decoding of the answer. *)
Definition http_get (net : NetLib) (url : string) : M http_outcome := fun st =>
  (requests_get net (http_count (trace st)) url,
   mkStore (heap st) (cache st) (trace st ++ [EvHttpGet url])
           (token_ipinfo_missing_logged st) (clock_reads st)).

(** [datetime.now()]: the reading number [clock_reads] of the clock. *)
Definition now (clock : nat -> Z) : M Z := fun st =>
  (clock (clock_reads st),
   mkStore (heap st) (cache st) (trace st)
           (token_ipinfo_missing_logged st) (S (clock_reads st))).

Definition empty : store := mkStore [] ∅ [] false 0.

End St.

(* ===================================================================== *)
(** ** [config.py] *)
(* ===================================================================== *)

(** [IPINFO_URL.format(ip=ip, token=token)] *)
Definition IPINFO_URL (ip token : string) : string :=
  "https://ipinfo.io/" +:+ ip +:+ "/json?token=" +:+ token.

(* ===================================================================== *)
(** ** [api_clients.py] *)
(* ===================================================================== *)

Local Open Scope py_scope.

Section ApiClients.

Context (iplib : IpLib) (net : NetLib).

(** [is_valid_ip] (the argument is a string by typing). *)
Definition is_valid_ip (ip_str : string) : bool :=
  if PyStr.is_empty ip_str || PyStr.isspace ip_str then false
  else match ipaddress_ip_address iplib ip_str with
       | Some _ => true
       | None => false
       end.

(** The dictionary display at the head of [get_ip_info]. *)
Definition fresh_result : pydict :=
  <["isp" := PyStr "N/A"]> (<["city" := PyStr "N/A"]>
  (<["region" := PyStr "N/A"]> (<["country" := PyStr "N/A"]>
  (<["hostname" := PyStr "N/A"]> (<["error" := PyNone]> ∅))))).

(** The [if]/[elif] chain on the address properties. *)
Definition ip_type_of (o : ip_obj) : option string :=
  if is_private o then Some "Privada"
  else if is_loopback o then Some "Loopback"
  else if is_link_local o then Some "Link-Local"
  else if is_multicast o then Some "Multicast"
  else if is_reserved o then Some "Reservada"
  else None.

(** The ISP name taken from a decoded answer: the organisation without
    its AS number, else the [isp] field. *)
Definition isp_of_data (items : list (string * pyval)) : pyval :=
  let org_field := Py.get items "org" (PyStr "") in
  let isp_val :=
    match org_field with
    | PyStr s =>
        if PyStr.is_empty s then PyStr "N/A"
        else match PyStr.match_as_org s with
             | Some g2 => PyStr (PyStr.strip g2)
             | None => org_field
             end
    | _ => PyStr "N/A"
    end in
  if negb (Py.truthy isp_val) || Py.eq_str isp_val "N/A"
  then Py.get items "isp" (PyStr "N/A")
  else isp_val.

(** [result.update({...})] after a decoded answer. *)
Definition update_from_data (items : list (string * pyval)) (d : pydict)
  : pydict :=
  let isp_val := isp_of_data items in
  <["isp" := if Py.truthy isp_val then isp_val else PyStr "N/A"]>
  (<["city" := Py.or_else (Py.get items "city" PyNone) (PyStr "N/A")]>
  (<["region" := Py.or_else (Py.get items "region" PyNone) (PyStr "N/A")]>
  (<["country" := Py.or_else (Py.get items "country" PyNone) (PyStr "N/A")]>
  (<["hostname" := Py.or_else (Py.get items "hostname" PyNone) (PyStr "N/A")]>
  (<["error" := PyNone]> d))))).

(** The error tag chosen in the [HTTPError] handler. *)
Definition http_error_tag (status : Z) : string :=
  if (status =? 401) || (status =? 403) then "Token Inválido/Prohibido"
  else if status =? 404 then "No Encontrado (ipinfo)"
  else if status =? 429 then "Límite API Excedido"
  else "HTTP Error " +:+ pretty status.

(** The [try] block around the request, with its [except] clauses. *)
Definition apply_outcome (result : loc) (o : http_outcome) : M unit :=
  match o with
  | HttpJson (PyDict items) => St.modify result (update_from_data items)
  | HttpJson _ =>
      (* [data.get] on something that is not a dict: AttributeError *)
      St.set_item result "error" (PyStr "Error Interno (IPinfo)")
  | HttpTimeout => St.set_item result "error" (PyStr "Timeout IPinfo")
  | HttpError status =>
      St.set_item result "error" (PyStr (http_error_tag status))
  | HttpConnectionError =>
      St.set_item result "error" (PyStr "Error de Conexión")
  | HttpRequestException =>
      St.set_item result "error" (PyStr "Error de Red")
  | HttpJSONDecodeError =>
      St.set_item result "error" (PyStr "Respuesta Inválida")
  | HttpOtherException =>
      St.set_item result "error" (PyStr "Error Interno (IPinfo)")
  end.

Definition geo_keys : list string :=
  ["isp"; "city"; "region"; "country"; "hostname"].

Fixpoint setdefaults (result : loc) (keys : list string) : M unit :=
  match keys with
  | [] => ret tt
  | k :: r => run St.setdefault result k (PyStr "N/A") ; setdefaults result r
  end.

(** [get_ip_info(ip_address, token, cache)]; the cache is the one of the
    store, the result is the reference to the record. *)
Definition get_ip_info (ip : string) (token : string) : M loc :=
  do c <- St.get_cache ;
  match c !! ip with
  | Some l => ret l
  | None =>
      do result <- St.alloc fresh_result ;
      if negb (is_valid_ip ip) then
        run St.set_item result "error" (PyStr "IP Inválida (Formato)") ;
        ret result
      else if PyStr.is_empty token then
        run St.set_item result "error" (PyStr "Token IPinfo Faltante") ;
        do logged <- St.get_logged ;
        run (if negb logged then St.set_logged true else ret tt) ;
        ret result
      else
        match ipaddress_ip_address iplib ip with
        | None =>
            run St.set_item result "error" (PyStr "IP Inválida (Interno)") ;
            ret result
        | Some ip_obj =>
            match ip_type_of ip_obj with
            | Some ip_type =>
                run St.set_item result "error" (PyStr ("IP " +:+ ip_type)) ;
                run St.set_item result "isp" (PyStr ("Red " +:+ ip_type)) ;
                run St.cache_put ip result ;
                ret result
            | None =>
                do o <- St.http_get net (IPINFO_URL ip token) ;
                run apply_outcome result o ;
                run setdefaults result geo_keys ;
                run St.cache_put ip result ;
                ret result
            end
        end
  end.

End ApiClients.

(** *** The extraction adapter *)

(** A candidate: the dictionary with the two keys [ip_address] and
    [timestamp_str] that the adapter appends to [validated_data]. *)
Record candidate : Type := mkCandidate {
  ip_address : string;
  timestamp_str : string
}.

(** Reading an attribute that may be missing, or whose getter raises. *)
Inductive attr_access : Type :=
| AttrMissing
| AttrValue (s : string)
| AttrRaises.

(** The response of [model.generate_content]: the text of each part
    ([None] for a part without a [text] attribute), the [text] accessor,
    and whether [prompt_feedback.block_reason] is set. *)
Record gemini_response : Type := mkGeminiResponse {
  resp_parts : list (option string);
  resp_text : attr_access;
  resp_blocked : bool
}.

Inductive gemini_outcome : Type :=
| GeminiConfigError                 (* [genai.configure] or the model raised *)
| GeminiTimeout                     (* [requests.exceptions.Timeout] *)
| GeminiError                       (* any other exception of the call *)
| GeminiResponse (r : gemini_response).

(** The service (the instruction prompt around the text is constant),
    [json.loads] ([None] for [JSONDecodeError]) and [str] on a value that
    is not a string. *)
Record GenLib : Type := mkGenLib {
  generate_content : string -> string -> gemini_outcome;
  json_loads : string -> option pyval;
  py_str : pyval -> string
}.

Section Extraction.

Context (iplib : IpLib) (gen : GenLib).

(** Loop state: [validated_data], [invalid_items_count], [seen_pairs]. *)
Record loop_state : Type := mkLoop {
  validated_data : list candidate;
  invalid_items_count : nat;
  seen_pairs : gset (string * string)
}.

Definition loop_init : loop_state := mkLoop [] 0 ∅.

Definition skip_invalid (st : loop_state) : loop_state :=
  mkLoop (validated_data st) (S (invalid_items_count st)) (seen_pairs st).

(** The cleaned pair of an element, when the element has the expected
    shape: a dict with both keys and a string under [ip_address]. *)
Definition cleaned_pair (item : pyval) : option (string * string) :=
  match item with
  | PyDict kv =>
      if negb (Py.has_key kv "ip_address")
         || negb (Py.has_key kv "timestamp_str") then None
      else
        match Py.get kv "ip_address" PyNone with
        | PyStr ip_addr_raw =>
            let ts_str :=
              match Py.get kv "timestamp_str" (PyStr "") with
              | PyNone => ""
              | PyStr t => t
              | other => py_str gen other
              end in
            Some (PyStr.replace_char "," "." (PyStr.strip ip_addr_raw),
                  PyStr.strip ts_str)
        | _ => None
        end
  | _ => None
  end.

(** One iteration of the validation loop. *)
Definition validate_item (st : loop_state) (item : pyval) : loop_state :=
  match cleaned_pair item with
  | None => skip_invalid st
  | Some (ip_addr_cleaned, ts_str_cleaned) =>
      if negb (is_valid_ip iplib ip_addr_cleaned) then skip_invalid st
      else
        let pair := (ip_addr_cleaned, ts_str_cleaned) in
        if bool_decide (pair ∈ seen_pairs st) then st
        else mkLoop (validated_data st
                       ++ [mkCandidate ip_addr_cleaned ts_str_cleaned])
                    (invalid_items_count st)
                    ({[ pair ]} ∪ seen_pairs st)
  end.

Definition validate_items (items : list pyval) : loop_state :=
  fold_left validate_item items loop_init.

(** The text of the response. *)
Definition raw_text_of (r : gemini_response) : option string :=
  match resp_parts r with
  | _ :: _ =>
      Some (PyStr.strip
              (fold_right String.append ""
                 (omap (fun p => p) (resp_parts r))))
  | [] =>
      match resp_text r with
      | AttrValue t => Some (PyStr.strip t)
      | AttrMissing => Some ""
      | AttrRaises => None
      end
  end.

(** Removal of a Markdown fence and of the surrounding white space. *)
Definition strip_fences (raw_text : string) : string :=
  let s1 := if PyStr.startswith raw_text "```json"
            then PyStr.drop 7 raw_text else raw_text in
  let s2 := if PyStr.endswith s1 "```" then PyStr.drop_end 3 s1 else s1 in
  PyStr.strip s2.

(** [extract_ip_data_with_gemini(text_content, api_key)]; [None] is the
    fatal outcome. *)
Definition extract_ip_data_with_gemini (text_content api_key : string)
  : option (list candidate) :=
  if PyStr.is_empty api_key then None
  else
    match generate_content gen api_key text_content with
    | GeminiConfigError | GeminiTimeout | GeminiError => None
    | GeminiResponse response =>
        match raw_text_of response with
        | None => None
        | Some raw_text =>
            if PyStr.is_empty raw_text then None
            else
              let potential_json_str := strip_fences raw_text in
              if negb (PyStr.startswith potential_json_str "["
                       && PyStr.endswith potential_json_str "]")
              then None
              else
                match json_loads gen potential_json_str with
                | None => None
                | Some (PyList extracted_data) =>
                    Some (validated_data (validate_items extracted_data))
                | Some _ => None
                end
        end
    end.

End Extraction.

(* ===================================================================== *)
(** ** [datetime], [dateutil], [zoneinfo], [pytz] *)
(* ===================================================================== *)

(** Exception classes, as far as the handlers tell them apart. *)
Inductive py_exn : Type :=
| ExValueError
| ExOverflowError
| ExTypeError
| ExNameError (name : string)
| ExZoneInfoNotFoundError
| ExUnknownTimeZoneError
| ExException.

(** A call either returns or raises. *)
Inductive outcome (A : Type) : Type :=
| Returned (a : A)
| Raised (e : py_exn).
Arguments Returned {A} a.
Arguments Raised {A} e.

(** A [tzinfo] object: [utcoffset] and [tzname] for a wall-clock reading
    (seconds; [utcoffset] may be [None]) and the offset in force at a UTC
    instant, which is what [fromutc] adds. *)
Record tzinfo : Type := mkTz {
  tz_utcoffset : Z -> option Z;
  tz_tzname : Z -> string;
  tz_fromutc : Z -> Z
}.

(** A [datetime]: the wall-clock reading in seconds since
    0001-01-01 00:00:00, the microseconds, and the [tzinfo]. *)
Record datetime : Type := mkDatetime {
  dt_wall : Z;
  dt_micro : Z;
  dt_tzinfo : option tzinfo
}.

Module Datetime.

(** [dateutil.tz.UTC] *)
Definition UTC : tzinfo :=
  mkTz (fun _ => Some 0) (fun _ => "UTC") (fun _ => 0).

(** Seconds from [datetime.min] to the end of year 9999. *)
Definition MAX_WALL : Z := 3652059 * 86400.

Definition in_range (w : Z) : bool := (0 <=? w) && (w <? MAX_WALL).

(** [dt.replace(tzinfo=tz)] *)
Definition replace_tzinfo (dt : datetime) (tz : tzinfo) : datetime :=
  mkDatetime (dt_wall dt) (dt_micro dt) (Some tz).

(** [dt.utcoffset()] *)
Definition utcoffset (dt : datetime) : option Z :=
  match dt_tzinfo dt with
  | None => None
  | Some tz => tz_utcoffset tz (dt_wall dt)
  end.

(** [dt.astimezone(tz)]: a reading without offset is taken as local
    time of the machine; arithmetic leaving the supported years raises
    [OverflowError]. *)
Definition astimezone (local_utcoffset : Z -> Z) (dt : datetime)
    (tz : tzinfo) : outcome datetime :=
  let myoffset :=
    match utcoffset dt with
    | Some o => o
    | None => local_utcoffset (dt_wall dt)
    end in
  let utc := dt_wall dt - myoffset in
  if in_range utc then
    let w := utc + tz_fromutc tz utc in
    if in_range w then Returned (mkDatetime w (dt_micro dt) (Some tz))
    else Raised ExOverflowError
  else Raised ExOverflowError.

(** Civil date of a day number (day 0 is 0001-01-01), proleptic
    Gregorian calendar. *)
Definition civil_from_days (days : Z) : Z * Z * Z :=
  let z := days + 306 in
  let era := z / 146097 in
  let doe := z mod 146097 in
  let yoe := (doe - doe / 1460 + doe / 36524 - doe / 146096) / 365 in
  let doy := doe - (365 * yoe + yoe / 4 - yoe / 100) in
  let mp := (5 * doy + 2) / 153 in
  let d := doy - (153 * mp + 2) / 5 + 1 in
  let m := if mp <? 10 then mp + 3 else mp - 9 in
  let y := yoe + era * 400 + (if m <=? 2 then 1 else 0) in
  (y, m, d).

(** Day number of a civil date. *)
Definition days_from_civil (y m d : Z) : Z :=
  let y' := if m <=? 2 then y - 1 else y in
  let era := y' / 400 in
  let yoe := y' mod 400 in
  let mp := if m <=? 2 then m + 9 else m - 3 in
  let doy := (153 * mp + 2) / 5 + d - 1 in
  let doe := yoe * 365 + yoe / 4 - yoe / 100 + doy in
  era * 146097 + doe - 306.

Definition pad2 (n : Z) : string :=
  if n <? 10 then "0" +:+ pretty n else pretty n.

Definition pad4 (n : Z) : string :=
  if n <? 10 then "000" +:+ pretty n
  else if n <? 100 then "00" +:+ pretty n
  else if n <? 1000 then "0" +:+ pretty n
  else pretty n.

(** [dt.strftime('%Y-%m-%d %H:%M:%S')]; the year is written with four
    digits (below the year 1000 the C library decides on the padding). *)
Definition strftime_YmdHMS (dt : datetime) : string :=
  let '(y, m, d) := civil_from_days (dt_wall dt / 86400) in
  let sod := dt_wall dt mod 86400 in
  pad4 y +:+ "-" +:+ pad2 m +:+ "-" +:+ pad2 d +:+ " "
    +:+ pad2 (sod / 3600) +:+ ":" +:+ pad2 (sod mod 3600 / 60)
    +:+ ":" +:+ pad2 (sod mod 60).

(** The directive [%Z]: the zone name, empty for a naive value. *)
Definition strftime_Z (dt : datetime) : string :=
  match dt_tzinfo dt with
  | None => ""
  | Some tz => tz_tzname tz (dt_wall dt)
  end.

(** The directive [%z]: sign, hours and minutes of the offset (and the
    seconds when there are any), empty without an offset. *)
Definition strftime_z (dt : datetime) : string :=
  match utcoffset dt with
  | None => ""
  | Some o =>
      let a := Z.abs o in
      (if o <? 0 then "-" else "+") +:+ pad2 (a / 3600)
        +:+ pad2 (a mod 3600 / 60)
        +:+ (if a mod 60 =? 0 then "" else pad2 (a mod 60))
  end.

End Datetime.

(** How far the import of an optional library got: the import failed
    (its names are unbound), it succeeded but the initialisation of the
    module switched the library off, or the library is in use. *)
Inductive lib_state : Type :=
| NotImported
| ImportedDisabled
| ImportedEnabled.

(** The module state of [processing.py] after its initialisation, and the
    libraries it calls. *)
Record TzLib : Type := mkTzLib {
  dateutil_available : bool;                 (* [_dateutil_available] *)
  date_parser_parse : string -> outcome datetime;
  zoneinfo_state : lib_state;                (* [_use_zoneinfo] *)
  pytz_state : lib_state;                    (* [pytz] *)
  gmt_zones_incomplete_zi : bool;            (* [_gmt_zones_incomplete_zi] *)
  ZoneInfo : string -> outcome tzinfo;
  pytz_timezone : string -> outcome tzinfo;
  local_utcoffset : Z -> Z                   (* the zone of the machine *)
}.

(* ===================================================================== *)
(** ** [processing.py] *)
(* ===================================================================== *)

Section Normalizer.

Context (tzl : TzLib).

(** [_use_zoneinfo] and the truth value of [pytz]. *)
Definition use_zoneinfo : bool :=
  match zoneinfo_state tzl with ImportedEnabled => true | _ => false end.
Definition pytz_truthy : bool :=
  match pytz_state tzl with ImportedEnabled => true | _ => false end.

(** Whether the names [ZoneInfoNotFoundError] and [UnknownTimeZoneError]
    were bound by the imports at the head of the module. *)
Definition zoneinfo_names_bound : bool :=
  match zoneinfo_state tzl with NotImported => false | _ => true end.
Definition pytz_names_bound : bool :=
  match pytz_state tzl with NotImported => false | _ => true end.

(** The first [try] block: parse, then anchor to UTC. *)
Definition parse_to_utc (timestamp_str : string) : outcome datetime :=
  match date_parser_parse tzl timestamp_str with
  | Raised e => Raised e
  | Returned original_dt =>
      match Datetime.utcoffset original_dt with
      | None => Returned (Datetime.replace_tzinfo original_dt Datetime.UTC)
      | Some _ =>
          Datetime.astimezone (local_utcoffset tzl) original_dt Datetime.UTC
      end
  end.

(** The message of the [except] clause that catches a fault of the
    first block. *)
Definition parse_error_message (e : py_exn) : string :=
  match e with
  | ExValueError | ExOverflowError => "Error Parsing"
  | ExTypeError => "Error Tipo Parsing"
  | _ => "Error Interno (Parseo)"
  end.

(** The choice of the target zone object.  [inl] is the early return of
    the branch without any zone library. *)
Definition resolve_target (utc : datetime) (final_target_tz_str : string)
  : outcome (string + tzinfo) :=
  if gmt_zones_incomplete_zi tzl
     && PyStr.startswith final_target_tz_str "Etc/GMT" && pytz_truthy
  then match pytz_timezone tzl final_target_tz_str with
       | Returned tz => Returned (inr tz)
       | Raised e => Raised e
       end
  else if PyStr.eqb final_target_tz_str "UTC" then Returned (inr Datetime.UTC)
  else if use_zoneinfo
  then match ZoneInfo tzl final_target_tz_str with
       | Returned tz => Returned (inr tz)
       | Raised e => Raised e
       end
  else if pytz_truthy
  then match pytz_timezone tzl final_target_tz_str with
       | Returned tz => Returned (inr tz)
       | Raised e => Raised e
       end
  else Returned (inl (Datetime.strftime_YmdHMS utc +:+ " UTC")).

(** The body of the second [try] block. *)
Definition convert_block (utc : datetime) (final_target_tz_str : string)
  : outcome string :=
  match resolve_target utc final_target_tz_str with
  | Raised e => Raised e
  | Returned (inl formatted) => Returned formatted
  | Returned (inr target_tz_obj) =>
      match Datetime.astimezone (local_utcoffset tzl) utc target_tz_obj with
      | Raised e => Raised e
      | Returned converted_dt =>
          Returned (Datetime.strftime_YmdHMS converted_dt +:+ " "
                      +:+ Datetime.strftime_Z converted_dt
                      +:+ Datetime.strftime_z converted_dt)
      end
  end.

(** The two [except] clauses of the second block.  The first one names
    [ZoneInfoNotFoundError] and [UnknownTimeZoneError]; Python evaluates
    that tuple when an exception reaches the clause, and an unbound name
    there raises [NameError] out of the whole statement. *)
Definition convert_handlers (e : py_exn) : outcome string :=
  if negb zoneinfo_names_bound then Raised (ExNameError "ZoneInfoNotFoundError")
  else if negb pytz_names_bound then Raised (ExNameError "UnknownTimeZoneError")
  else match e with
       | ExZoneInfoNotFoundError | ExUnknownTimeZoneError =>
           Returned "Error TZ Interno"
       | _ => Returned "Error Interno (TZ Conv.)"
       end.

(** [parse_and_convert_timezone(timestamp_str, target_tz_str)] *)
Definition parse_and_convert_timezone (timestamp_str target_tz_str : string)
  : outcome (option datetime * string) :=
  if PyStr.is_empty timestamp_str
     || PyStr.eqb (PyStr.strip timestamp_str) "N/A"
     || PyStr.eqb (PyStr.strip timestamp_str) ""
  then Returned (None, "N/A")
  else if negb (dateutil_available tzl)
  then Returned (None, "Error: Falta Dep.")
  else
    match parse_to_utc timestamp_str with
    | Raised e => Returned (None, parse_error_message e)
    | Returned original_dt_aware_utc =>
        match convert_block original_dt_aware_utc target_tz_str with
        | Returned formatted_converted =>
            Returned (Some original_dt_aware_utc, formatted_converted)
        | Raised e =>
            match convert_handlers e with
            | Returned formatted_converted =>
                Returned (Some original_dt_aware_utc, formatted_converted)
            | Raised e' => Raised e'
            end
        end
    end.

End Normalizer.

(** *** The orchestrator *)

(** The file system, the reader of [file_io.py], the clock and the one
    floating-point expression of the progress computation,
    [int(((idx + 1) / total_ips) * processing_weight)]. *)
Record SysLib : Type := mkSysLib {
  is_file : string -> bool;
  read_input_file : string -> option string;
  path_resolve : string -> string;
  clock : nat -> Z;
  prog_share : nat -> nat -> Z
}.

(** One row of the result list; [ip_info] is the reference returned by
    [get_ip_info]. *)
Record analysis_result : Type := mkResult {
  res_ip_address : string;
  raw_timestamp_str : string;
  original_timestamp_utc : option datetime;
  original_timestamp_utc_str : string;
  converted_timestamp : string;
  ip_info : loc
}.

Record run_metadata : Type := mkMetadata {
  input_file_sha256 : option string;
  analysis_start_time : Z;
  analysis_duration_seconds : Z;
  input_filepath : string;
  target_timezone : string;
  app_version : option string
}.

(** What a call of [process_ip_analysis] comes to: [None], the bare list
    of an early [return []], the dictionary with the two keys
    [analysis_results] and [metadata], or an exception. *)
Inductive run_result : Type :=
| RunNone
| RunList (l : list analysis_result)
| RunReport (analysis_results : list analysis_result) (metadata : run_metadata)
| RunRaised (e : py_exn).

Section Orchestrator.

Context (iplib : IpLib) (net : NetLib) (gen : GenLib) (tzl : TzLib)
        (sys : SysLib).

(** [not key] for an optional credential. *)
Definition missing (key : option string) : bool :=
  match key with
  | None => true
  | Some k => PyStr.is_empty k
  end.

(** [_report_progress]: the percentage is clamped, and the message goes
    to the queue when there is one. *)
Definition report_progress (progress_queue : bool) (step : string) (perc : Z)
  : M unit :=
  if progress_queue then St.emit (EvProgress step (Z.max 0 (Z.min 100 perc)))
  else ret tt.

(** The [finally] clause: the end time is read, and a run that set
    [results_final] reports its completion. *)
Definition finally (progress_queue : bool)
    (results_final : option (list analysis_result)) : M unit :=
  do end_time <- St.now (clock sys) ;
  match results_final with
  | Some _ => report_progress progress_queue "Completado" 100
  | None => ret tt
  end.

(** A [return] from inside the [try]: a progress message, the [finally]
    clause with [results_final] still [None], then the value. *)
Definition leave (progress_queue : bool) (step : string) (r : run_result)
  : M run_result :=
  run report_progress progress_queue step 100 ;
  run finally progress_queue None ;
  ret r.

(** The loop over the candidates, from index [idx]. *)
Fixpoint process_items (progress_queue : bool) (valid_target_tz : string)
    (ipinfo_token : string) (total_ips : nat) (idx : nat)
    (items : list candidate) (processed_results : list analysis_result)
  : M (outcome (list analysis_result)) :=
  match items with
  | [] => ret (Returned processed_results)
  | item :: rest =>
      let current_perc := 30 + prog_share sys idx total_ips in
      let ip := ip_address item in
      let ts_str := timestamp_str item in
      run report_progress progress_queue
            ("Procesando IP " +:+ pretty (S idx) +:+ "/" +:+ pretty total_ips)
            current_perc ;
      run St.emit EvSleep ;
      do info <- get_ip_info iplib net ip ipinfo_token ;
      match parse_and_convert_timezone tzl ts_str valid_target_tz with
      | Raised e => ret (Raised e)
      | Returned (orig_dt_utc, conv_ts_fmt) =>
          let orig_ts_utc_str :=
            match orig_dt_utc with
            | Some dt => Datetime.strftime_YmdHMS dt +:+ " UTC"
            | None => "N/A"
            end in
          process_items progress_queue valid_target_tz ipinfo_token
            total_ips (S idx) rest
            (processed_results
               ++ [mkResult ip ts_str orig_dt_utc orig_ts_utc_str
                            conv_ts_fmt info])
      end
  end.

(** [process_ip_analysis]; the log handler is left out, the progress
    queue is present or not. *)
Definition process_ip_analysis (input_filepath : string)
    (target_timezone : string) (gemini_key ipinfo_token : option string)
    (progress_queue : bool) (input_file_hash app_version : option string)
  : M run_result :=
  do start_time <- St.now (clock sys) ;
  run report_progress progress_queue "Inicio" 0 ;
  if missing gemini_key then leave progress_queue "Error" RunNone
  else if missing ipinfo_token then leave progress_queue "Error" RunNone
  else if negb (is_file sys input_filepath)
  then leave progress_queue "Error" RunNone
  else
    run report_progress progress_queue "Lectura" 5 ;
    match read_input_file sys input_filepath with
    | None => leave progress_queue "Error" RunNone
    | Some text_content =>
        if PyStr.is_empty (PyStr.strip text_content)
        then leave progress_queue "Completado" (RunList [])
        else
          run report_progress progress_queue "Extracción IA" 15 ;
          match extract_ip_data_with_gemini iplib gen text_content
                  (default "" gemini_key) with
          | None => leave progress_queue "Error" RunNone
          | Some [] => leave progress_queue "Completado" (RunList [])
          | Some extracted_data =>
              run report_progress progress_queue "Procesando IPs" 30 ;
              run St.cache_new ;
              do looped <- process_items progress_queue target_timezone
                             (default "" ipinfo_token)
                             (length extracted_data) 0 extracted_data [] ;
              match looped with
              | Raised e =>
                  run finally progress_queue None ;
                  ret (RunRaised e)
              | Returned results_final =>
                  run finally progress_queue (Some results_final) ;
                  do t <- St.now (clock sys) ;
                  ret (RunReport results_final
                         (mkMetadata input_file_hash start_time
                            (t - start_time)
                            (path_resolve sys input_filepath)
                            target_timezone app_version))
              end
          end
    end.

End Orchestrator.

(** *** The zone names of the module initialisation *)

(** The name built for [i] in [range(-14, 15)], both when the zones are
    probed in [zoneinfo] and when they are added to [VALID_TIMEZONES]:
    the f-string puts "+ " before the number when [i <= 0]. *)
Definition etc_gmt_name (i : Z) : string :=
  "Etc/GMT" +:+ (if i <=? 0 then "+ " else "") +:+ pretty (- i).

(* ===================================================================== *)
(** ** [ip_analyzer_gui.py]: the zone sent to the orchestrator *)
(* ===================================================================== *)

Module Gui.

(** [int(s)] for a string of decimal digits. *)
Fixpoint int_of_digits (s : string) (acc : Z) : Z :=
  match s with
  | EmptyString => acc
  | String c r => int_of_digits r (10 * acc + (Z.of_nat (nat_of_ascii c) - 48))
  end.

Fixpoint all_digits (s : string) : bool :=
  match s with
  | EmptyString => true
  | String c r => PyStr.is_digit c && all_digits r
  end.

(** [_map_display_tz_to_backend]: "UTC" is kept; a string that matches
    UTC, a sign and one or two digits as a whole becomes the Etc/GMT zone
    of the opposite sign; anything else is passed on. *)
Definition map_display_tz_to_backend (display_tz : string) : string :=
  if PyStr.eqb display_tz "UTC" then "UTC"
  else
    match display_tz with
    | String "U" (String "T" (String "C" (String sign digits))) =>
        if (Ascii.eqb sign "+" || Ascii.eqb sign "-")
           && (1 <=? String.length digits)%nat
           && (String.length digits <=? 2)%nat
           && all_digits digits
        then
          let offset := int_of_digits digits 0 in
          let backend_sign := if Ascii.eqb sign "+" then "-" else "+" in
          "Etc/GMT" +:+ backend_sign +:+ pretty offset
        else display_tz
    | _ => display_tz
    end.

End Gui.

(* ===================================================================== *)
(** ** [file_io.py]: the rows prepared for display and export *)
(* ===================================================================== *)

(** One flattened row.  The fields copied from the record keep the value
    found there. *)
Record flat_data : Type := mkFlat {
  orden : nat;
  flat_ip_address : string;
  flat_raw_timestamp_str : string;
  timestamp_utc : string;
  timestamp_converted : string;
  flat_isp : pyval;
  flat_city : pyval;
  flat_region : pyval;
  flat_country : pyval;
  flat_hostname : pyval;
  location : string;
  ip_info_error : pyval
}.

Section ExportRows.

(** [str] of a value put in an f-string. *)
Context (py_str : pyval -> string).

Definition format_value (v : pyval) : string :=
  match v with PyStr s => s | _ => py_str v end.

(** [", ".join(parts)]: [TypeError] when a part is not a string. *)
Fixpoint join_comma (parts : list pyval) : outcome string :=
  match parts with
  | [] => Returned ""
  | PyStr s :: rest =>
      match rest with
      | [] => Returned s
      | _ => match join_comma rest with
             | Returned t => Returned (s +:+ ", " +:+ t)
             | Raised e => Raised e
             end
      end
  | _ :: _ => Raised ExTypeError
  end.

(** The body of the loop of [_prepare_export_data], for the row number
    [idx] and the dictionary [info] found under [ip_info]. *)
Definition prepare_row (idx : nat) (result : analysis_result) (info : pydict)
  : outcome flat_data :=
  let ip_error := default PyNone (info !! "error") in
  if Py.truthy ip_error then
    Returned (mkFlat idx (res_ip_address result) (raw_timestamp_str result)
                (original_timestamp_utc_str result)
                (converted_timestamp result)
                (PyStr ("Error: " +:+ format_value ip_error))
                (PyStr "N/A") (PyStr "N/A") (PyStr "N/A") (PyStr "N/A")
                "N/A" ip_error)
  else
    let city := Py.or_else (default PyNone (info !! "city")) (PyStr "N/A") in
    let region := Py.or_else (default PyNone (info !! "region")) (PyStr "N/A") in
    let country :=
      Py.or_else (default PyNone (info !! "country")) (PyStr "N/A") in
    let hostname :=
      Py.or_else (default PyNone (info !! "hostname")) (PyStr "N/A") in
    let isp := Py.or_else (default PyNone (info !! "isp")) (PyStr "N/A") in
    let location_parts :=
      List.filter (fun p => Py.truthy p && negb (Py.eq_str p "N/A"))
        [city; region; country] in
    match (match location_parts with
           | [] => Returned "N/A"
           | _ => join_comma location_parts
           end) with
    | Raised e => Raised e
    | Returned location_str =>
        Returned (mkFlat idx (res_ip_address result) (raw_timestamp_str result)
                    (original_timestamp_utc_str result)
                    (converted_timestamp result)
                    isp city region country hostname location_str PyNone)
    end.

(** The loop of [_prepare_export_data] from the number [idx]; the records
    are read in the heap. *)
Fixpoint prepare_rows (h : list pydict) (idx : nat)
    (results : list analysis_result) : outcome (list flat_data) :=
  match results with
  | [] => Returned []
  | result :: rest =>
      match prepare_row idx result (default ∅ (h !! ip_info result)) with
      | Raised e => Raised e
      | Returned flat =>
          match prepare_rows h (S idx) rest with
          | Raised e => Raised e
          | Returned flats => Returned (flat :: flats)
          end
      end
  end.

(** [_prepare_export_data(results)] *)
Definition prepare_export_data (h : list pydict)
    (results : list analysis_result) : outcome (list flat_data) :=
  prepare_rows h 1 results.

End ExportRows.

(* ===================================================================== *)
(** ** The table of the text report *)
(* ===================================================================== *)

Module PyFmt.

(** [" " * n] *)
Fixpoint spaces (n : nat) : string :=
  match n with
  | O => ""
  | S n => String " " (spaces n)
  end.

Fixpoint take (n : nat) (s : string) : string :=
  match n, s with
  | S n, String c s => String c (take n s)
  | _, _ => ""
  end.

(** [s[:n]]: a negative [n] counts from the end. *)
Definition slice_to (s : string) (n : Z) : string :=
  if n <? 0 then take (Z.to_nat (Z.of_nat (String.length s) + n)) s
  else take (Z.to_nat n) s.

(** [f"{s:<{width}}"]: the text is padded on the right, never cut. *)
Definition ljust (s : string) (width : nat) : string :=
  s +:+ spaces (width - String.length s).

(** [f"{s:^{width}}"]: the smaller half of the padding goes to the left. *)
Definition center (s : string) (width : nat) : string :=
  let pad := (width - String.length s)%nat in
  spaces (pad / 2) +:+ s +:+ spaces (pad - pad / 2).

(** [sep.join(parts)] *)
Fixpoint join (sep : string) (parts : list string) : string :=
  match parts with
  | [] => ""
  | [s] => s
  | s :: rest => s +:+ sep +:+ join sep rest
  end.

End PyFmt.

(** The keys of [headers], in the order of the dictionary. *)
Inductive column : Type :=
| ColOrden
| ColIpAddress
| ColTimestampUtc
| ColTimestampConverted
| ColIsp
| ColLocation
| ColHostname.

Definition header_keys : list column :=
  [ColOrden; ColIpAddress; ColTimestampUtc; ColTimestampConverted; ColIsp;
   ColLocation; ColHostname].

Definition widths (h : column) : nat :=
  match h with
  | ColOrden => 4
  | ColIpAddress => 38
  | ColTimestampUtc => 23
  | ColTimestampConverted => 28
  | ColIsp => 30
  | ColLocation => 30
  | ColHostname => 24
  end%nat.

Definition headers (final_tz_used : string) (h : column) : string :=
  match h with
  | ColOrden => "Nº"
  | ColIpAddress => "IP Address"
  | ColTimestampUtc => "Timestamp (UTC)"
  | ColTimestampConverted => "Timestamp (" +:+ final_tz_used +:+ ")"
  | ColIsp => "ISP / Error"
  | ColLocation => "Ubicación"
  | ColHostname => "Hostname"
  end.

Definition separator : string := " | ".

(** [sum(widths[k] for k in header_keys)
     + (len(headers) - 1) * len(separator)] *)
Definition total_w : nat :=
  (list_sum (widths <$> header_keys)
   + (length header_keys - 1) * String.length separator)%nat.

Section ReportTable.

Context (py_str : pyval -> string).

(** [str(row_dict.get(h_key, 'N/A'))]: every row has the seven keys. *)
Definition row_value (row_dict : flat_data) (h_key : column) : string :=
  match h_key with
  | ColOrden => pretty (orden row_dict)
  | ColIpAddress => flat_ip_address row_dict
  | ColTimestampUtc => timestamp_utc row_dict
  | ColTimestampConverted => timestamp_converted row_dict
  | ColIsp => format_value py_str (flat_isp row_dict)
  | ColLocation => location row_dict
  | ColHostname => format_value py_str (flat_hostname row_dict)
  end.

(** One cell of a row of [format_report]. *)
Definition report_cell (h_key : column) (value : string) : string :=
  let width := widths h_key in
  let truncated :=
    if (width <? String.length value)%nat
    then PyFmt.slice_to value (Z.of_nat width - 3) +:+ "..."
    else value in
  match h_key with
  | ColOrden => PyFmt.center truncated width
  | _ => PyFmt.ljust truncated width
  end.

Definition row_line (row_dict : flat_data) : string :=
  PyFmt.join separator
    ((fun h_key => report_cell h_key (row_value row_dict h_key))
       <$> header_keys).

Definition header_line (final_tz_used : string) : string :=
  PyFmt.join separator
    ((fun h => PyFmt.ljust (headers final_tz_used h) (widths h))
       <$> header_keys).

End ReportTable.

(* ===================================================================== *)
(** ** The command line: what [main_cli] does with the run *)
(* ===================================================================== *)

(** The ways in which [main_cli] goes on after [process_ip_analysis]:
    [sys.exit(1)], the [AttributeError] of [.get] on a list, the message
    that no valid IP was found, the report, or the exception of the run. *)
Inductive cli_end : Type :=
| CliExit (code : Z)
| CliAttributeError
| CliNoValidIps
| CliReported (analysis_results : list analysis_result)
              (analysis_metadata : run_metadata)
| CliRaised (e : py_exn).

Section Cli.

Context (iplib : IpLib) (net : NetLib) (gen : GenLib) (tzl : TzLib)
        (sys : SysLib).

(** [main_cli] from the loaded credentials to the choice between the
    message and the report; the parsing of the arguments and the exports
    are left out. *)
Definition main_cli (input_file timezone : string)
    (gemini_key ipinfo_token : option string) : M cli_end :=
  if missing gemini_key || missing ipinfo_token then ret (CliExit 1)
  else
    do results_wrapper <- process_ip_analysis iplib net gen tzl sys
                            input_file timezone gemini_key ipinfo_token
                            false None None ;
    match results_wrapper with
    | RunRaised e => ret (CliRaised e)
    | RunNone => ret (CliExit 1)
    | RunList _ => ret CliAttributeError
    | RunReport analysis_results analysis_metadata =>
        match analysis_results with
        | [] => ret CliNoValidIps
        | _ => ret (CliReported analysis_results analysis_metadata)
        end
    end.

End Cli.

(* ===================================================================== *)
(** ** A concrete environment *)
(* ===================================================================== *)

(** Instances of the library records on which the model can be run:
    dotted-quad IPv4 addresses with the address ranges of Python 3.11,
    timestamps of the form [YYYY-MM-DD HH:MM:SS] with an optional [ UTC],
    a provider that answers every request, and a service whose answer is
    given. *)
Module Sample.

Fixpoint split_dots (s cur : string) : list string :=
  match s with
  | EmptyString => [String.rev cur]
  | String c r =>
      if Ascii.eqb c "."%char then String.rev cur :: split_dots r ""
      else split_dots r (String c cur)
  end.

Definition digit_val (c : ascii) : Z := Z.of_nat (nat_of_ascii c) - 48.

Fixpoint digits_val (s : string) (acc : Z) : Z :=
  match s with
  | EmptyString => acc
  | String c r => digits_val r (10 * acc + digit_val c)
  end.

Fixpoint all_digits (s : string) : bool :=
  match s with
  | EmptyString => true
  | String c r => PyStr.is_digit c && all_digits r
  end.

(** One octet: one to three digits, no leading zero, at most 255. *)
Definition octet (s : string) : option Z :=
  let n := String.length s in
  if ((1 <=? n)%nat && (n <=? 3)%nat) && all_digits s
     && ((n =? 1)%nat || negb (PyStr.startswith s "0"))
     && (digits_val s 0 <=? 255)
  then Some (digits_val s 0) else None.

Definition ipv4_int (s : string) : option Z :=
  match split_dots s "" with
  | [a; b; c; d] =>
      match octet a, octet b, octet c, octet d with
      | Some a, Some b, Some c, Some d =>
          Some (((a * 256 + b) * 256 + c) * 256 + d)
      | _, _, _, _ => None
      end
  | _ => None
  end.

(** Membership of address [a] in the network [base/len]. *)
Definition in_net (a base : Z) (len : Z) : bool :=
  a / 2 ^ (32 - len) =? base / 2 ^ (32 - len).

Definition v4 (a b c d : Z) : Z := ((a * 256 + b) * 256 + c) * 256 + d.

Definition private_networks : list (Z * Z) :=
  [ (v4 0 0 0 0, 8); (v4 10 0 0 0, 8); (v4 127 0 0 0, 8);
    (v4 169 254 0 0, 16); (v4 172 16 0 0, 12); (v4 192 0 0 0, 29);
    (v4 192 0 0 170, 31); (v4 192 0 2 0, 24); (v4 192 168 0 0, 16);
    (v4 198 18 0 0, 15); (v4 198 51 100 0, 24); (v4 203 0 113 0, 24);
    (v4 240 0 0 0, 4); (v4 255 255 255 255, 32) ].

Definition classify (a : Z) : ip_obj :=
  mkIpObj (existsb (fun n => in_net a (fst n) (snd n)) private_networks)
          (in_net a (v4 127 0 0 0) 8)
          (in_net a (v4 169 254 0 0) 16)
          (in_net a (v4 224 0 0 0) 4)
          (in_net a (v4 240 0 0 0) 4).

Definition iplib : IpLib :=
  mkIpLib (fun s => classify <$> ipv4_int s).

(** The provider answers each request with the same organisation. *)
Definition provider_answer : pyval :=
  PyDict [("org", PyStr "AS15169 Google LLC"); ("city", PyStr "Mountain View");
          ("region", PyStr "California"); ("country", PyStr "US");
          ("hostname", PyStr "dns.google")].

Definition net : NetLib := mkNetLib (fun _ _ => HttpJson provider_answer).

(** A provider whose answer carries a number under [city]. *)
Definition net_numeric_city : NetLib :=
  mkNetLib (fun _ _ => HttpJson (PyDict [("org", PyStr "AS15169 Google LLC");
                                        ("city", PyInt 94043)])).

(** The array of the end-to-end scenario of the specification. *)
Definition scenario_array : pyval :=
  PyList
    [ PyDict [("ip_address", PyStr "8.8.8.8");
              ("timestamp_str", PyStr "2024-03-15 10:30:00 UTC")];
      PyDict [("ip_address", PyStr "8.8.8.8");
              ("timestamp_str", PyStr "2024-03-15 10:30:00 UTC")];
      PyDict [("ip_address", PyStr "192.168.1.1");
              ("timestamp_str", PyStr "")] ].

Definition gen : GenLib :=
  mkGenLib
    (fun _ _ => GeminiResponse (mkGeminiResponse [Some "[...]"] AttrMissing false))
    (fun _ => Some scenario_array)
    (fun _ => "").

(** A service that finds nothing: the empty array. *)
Definition gen_nothing : GenLib :=
  mkGenLib
    (fun _ _ => GeminiResponse (mkGeminiResponse [Some "[]"] AttrMissing false))
    (fun _ => Some (PyList []))
    (fun _ => "").

(** Timestamps [YYYY-MM-DD HH:MM:SS], naive, or aware with [ UTC]. *)
Definition field (s : string) (start len : nat) : option Z :=
  let f := String.substring start len s in
  if all_digits f && (String.length f =? len)%nat
  then Some (digits_val f 0) else None.

Definition parse_iso (s : string) : outcome datetime :=
  let body := String.substring 0 19 s in
  let rest := PyStr.drop 19 s in
  match field body 0 4, field body 5 2, field body 8 2,
        field body 11 2, field body 14 2, field body 17 2 with
  | Some y, Some m, Some d, Some hh, Some mm, Some ss =>
      let wall := Datetime.days_from_civil y m d * 86400
                  + hh * 3600 + mm * 60 + ss in
      if PyStr.eqb rest "" then Returned (mkDatetime wall 0 None)
      else if PyStr.eqb rest " UTC"
      then Returned (mkDatetime wall 0 (Some Datetime.UTC))
      else Raised ExValueError
  | _, _, _, _, _, _ => Raised ExValueError
  end.

(** The zone database knows one zone, at five hours behind UTC. *)
Definition bogota : tzinfo :=
  mkTz (fun _ => Some (-18000)) (fun _ => "-05") (fun _ => -18000).

Definition zone_lookup (not_found : py_exn) (key : string) : outcome tzinfo :=
  if PyStr.eqb key "America/Bogota" then Returned bogota
  else Raised not_found.

(** Both zone libraries installed. *)
Definition tzl : TzLib :=
  mkTzLib true parse_iso ImportedEnabled ImportedEnabled false
          (zone_lookup ExZoneInfoNotFoundError)
          (zone_lookup ExUnknownTimeZoneError)
          (fun _ => 7200).

(** [zoneinfo] in use, [pytz] not installed. *)
Definition tzl_without_pytz : TzLib :=
  mkTzLib true parse_iso ImportedEnabled NotImported false
          (zone_lookup ExZoneInfoNotFoundError)
          (zone_lookup ExUnknownTimeZoneError)
          (fun _ => 7200).

(** A file system with one file, read as [content]. *)
Definition sys (content : string) : SysLib :=
  mkSysLib (fun p => PyStr.eqb p "evidence.txt")
           (fun _ => Some content)
           (fun p => "/case/" +:+ p)
           (fun n => 1000 + Z.of_nat n)
           (fun idx total => Z.of_nat (S idx) * 70 / Z.of_nat total).

End Sample.

(* ===================================================================== *)
(** ** Vocabulary of the properties *)
(* ===================================================================== *)

(** The six keys of a record. *)
Definition six_keys : gset string :=
  {[ "isp"; "city"; "region"; "country"; "hostname"; "error" ]}.

(** A record has exactly the six keys, and none of its five geolocation
    fields is an empty (false) value. *)
Definition record_ok (r : pydict) : Prop :=
  dom r = six_keys /\
  forall k, In k geo_keys -> exists v, r !! k = Some v /\ Py.truthy v = true.

(** The five geolocation fields are non-empty strings. *)
Definition record_text (r : pydict) : Prop :=
  forall k, In k geo_keys -> exists s, r !! k = Some (PyStr s) /\ s <> "".

(** Every record of the cache is allocated and satisfies [P]. *)
Definition store_inv (P : pydict -> Prop) (st : store) : Prop :=
  forall ip l, cache st !! ip = Some l ->
    exists r, heap st !! l = Some r /\ P r.

(** Every reference of the cache points into the heap. *)
Definition cache_allocated (st : store) : Prop :=
  store_inv (fun _ => True) st.

(** The record synthesised for an address of a special range. *)
Definition scope_record (ip_type : string) : pydict :=
  <["isp" := PyStr ("Red " +:+ ip_type)]>
    (<["error" := PyStr ("IP " +:+ ip_type)]> fresh_result).

(** The record returned with nothing but an error tag. *)
Definition error_record (tag : string) : pydict :=
  <["error" := PyStr tag]> fresh_result.

(** The cache holds, for an address of a special range, the record of
    that range. *)
Definition scope_inv (iplib : IpLib) (st : store) : Prop :=
  forall ip l o kind,
    cache st !! ip = Some l ->
    ipaddress_ip_address iplib ip = Some o ->
    ip_type_of o = Some kind ->
    heap st !! l = Some (scope_record kind).

(** The change that [apply_outcome] makes to the record. *)
Definition outcome_update (o : http_outcome) (d : pydict) : pydict :=
  match o with
  | HttpJson (PyDict items) => update_from_data items d
  | HttpJson _ => <["error" := PyStr "Error Interno (IPinfo)"]> d
  | HttpTimeout => <["error" := PyStr "Timeout IPinfo"]> d
  | HttpError status => <["error" := PyStr (http_error_tag status)]> d
  | HttpConnectionError => <["error" := PyStr "Error de Conexión"]> d
  | HttpRequestException => <["error" := PyStr "Error de Red"]> d
  | HttpJSONDecodeError => <["error" := PyStr "Respuesta Inválida"]> d
  | HttpOtherException => <["error" := PyStr "Error Interno (IPinfo)"]> d
  end.

(** The change that [setdefaults] makes to the record. *)
Fixpoint apply_defaults (keys : list string) (d : pydict) : pydict :=
  match keys with
  | [] => d
  | k :: r =>
      apply_defaults r
        (match d !! k with Some _ => d | None => <[k := PyStr "N/A"]> d end)
  end.

(** What a lookup that misses the cache comes to: the record, whether it
    is cached, whether a request was sent, and the new value of the
    logging flag. *)
Record miss : Type := mkMiss {
  miss_record : pydict;
  miss_cached : bool;
  miss_requested : bool;
  miss_logged : bool
}.

Definition miss_of (iplib : IpLib) (net : NetLib) (ip token : string)
    (st : store) : miss :=
  let logged := token_ipinfo_missing_logged st in
  if negb (is_valid_ip iplib ip)
  then mkMiss (error_record "IP Inválida (Formato)") false false logged
  else if PyStr.is_empty token
  then mkMiss (error_record "Token IPinfo Faltante") false false true
  else match ipaddress_ip_address iplib ip with
       | None => mkMiss (error_record "IP Inválida (Interno)") false false logged
       | Some o =>
           match ip_type_of o with
           | Some kind => mkMiss (scope_record kind) true false logged
           | None =>
               mkMiss (apply_defaults geo_keys
                         (outcome_update
                            (requests_get net (http_count (trace st))
                               (IPINFO_URL ip token))
                            fresh_result))
                      true true logged
           end
       end.

Definition store_after_miss (ip token : string) (m : miss) (st : store)
  : store :=
  mkStore (heap st ++ [miss_record m])
          (if miss_cached m then <[ip := length (heap st)]> (cache st)
           else cache st)
          (if miss_requested m
           then trace st ++ [EvHttpGet (IPINFO_URL ip token)] else trace st)
          (miss_logged m) (clock_reads st).

(** A sequence of lookups, as the orchestrator issues them. *)
Fixpoint get_many (iplib : IpLib) (net : NetLib)
    (calls : list (string * string)) : M (list loc) :=
  match calls with
  | [] => ret []
  | (ip, token) :: rest =>
      do l <- get_ip_info iplib net ip token ;
      do ls <- get_many iplib net rest ;
      ret (l :: ls)
  end.

(** The value of a JSON field is a string, or counts as absent. *)
Definition text_or_absent (v : pyval) : bool :=
  Py.is_str v || negb (Py.truthy v).

(** The provider answers with strings (or nothing) under the keys that
    [get_ip_info] copies. *)
Definition text_answers (net : NetLib) : Prop :=
  forall n url items k v,
    requests_get net n url = HttpJson (PyDict items) ->
    In k geo_keys -> Py.assoc k items = Some v -> text_or_absent v = true.

(** The same, for one decoded answer. *)
Definition fields_text (items : list (string * pyval)) : Prop :=
  forall k v, In k geo_keys -> Py.assoc k items = Some v ->
    text_or_absent v = true.

Definition pair_of (c : candidate) : string * string :=
  (ip_address c, timestamp_str c).

Definition row_pair (r : analysis_result) : string * string :=
  (res_ip_address r, raw_timestamp_str r).

(** The invariant of the validation loop after the elements [processed]:
    the candidates kept are pairwise distinct, [seen_pairs] is the set of
    their pairs, and a pair is kept exactly when it is the cleaned pair of
    a well-shaped element with a valid IP. *)
Definition loop_inv (iplib : IpLib) (gen : GenLib) (processed : list pyval)
    (st : loop_state) : Prop :=
  NoDup (pair_of <$> validated_data st)
  /\ (forall p, p ∈ seen_pairs st <-> p ∈ pair_of <$> validated_data st)
  /\ (forall p, p ∈ pair_of <$> validated_data st <->
        exists item, item ∈ processed /\ cleaned_pair gen item = Some p
                     /\ is_valid_ip iplib p.1 = true).

(** The inputs that the normalizer answers with "N/A" at once. *)
Definition blank (timestamp_str : string) : Prop :=
  PyStr.all_space timestamp_str = true \/ PyStr.strip timestamp_str = "N/A".

(** The first [try] block of the normalizer ended in an exception. *)
Definition parsing_failed (tzl : TzLib) (timestamp_str : string) : Prop :=
  exists e, parse_to_utc tzl timestamp_str = Raised e.

(** The cleaned pair of an element that the validation loop does not
    skip: well shaped, with a valid IP. *)
Definition valid_pair (iplib : IpLib) (gen : GenLib) (item : pyval)
  : option (string * string) :=
  match cleaned_pair gen item with
  | Some p => if is_valid_ip iplib p.1 then Some p else None
  | None => None
  end.

(** The first occurrences of a list, in their order, leaving out what is
    in [seen]. *)
Fixpoint first_occurrences (seen : list (string * string))
    (l : list (string * string)) : list (string * string) :=
  match l with
  | [] => []
  | x :: r =>
      if bool_decide (x ∈ seen) then first_occurrences seen r
      else x :: first_occurrences (x :: seen) r
  end.

(** A progress message carries a percentage between 0 and 100. *)
Definition progress_ok (e : event) : Prop :=
  match e with
  | EvProgress _ perc => 0 <= perc <= 100
  | _ => True
  end.

Definition is_progress (e : event) : bool :=
  match e with EvProgress _ _ => true | _ => false end.

(** The events of one turn of the loop of the orchestrator for the
    candidate [item], in their order: the progress messages, then the
    delay, then the request of the lookup when it sends one. *)
Definition turn_events (token : string) (item : candidate)
    (turn : list event) : Prop :=
  exists progress requests,
    turn = progress ++ [EvSleep] ++ requests
    /\ Forall (fun e => is_progress e = true) progress
    /\ (requests = []
        \/ requests = [EvHttpGet (IPINFO_URL (ip_address item) token)]).

(** One primitive effect of a run on the store: a progress message, the
    delay, a reading of the clock, the new cache, or a lookup. *)
Definition store_step (iplib : IpLib) (net : NetLib) (sys : SysLib)
    (st st' : store) : Prop :=
  (exists q step perc, st' = snd (report_progress q step perc st))
  \/ st' = snd (St.emit EvSleep st)
  \/ st' = snd (St.now (clock sys) st)
  \/ st' = snd (St.cache_new st)
  \/ (exists ip token, st' = snd (get_ip_info iplib net ip token st)).

(** The record of a row is well formed and carries neither of the two
    errors that the orchestrator rules out before the loop. *)
Definition row_record_ok (r : pydict) : Prop :=
  record_ok r
  /\ r !! "error" <> Some (PyStr "IP Inválida (Formato)")
  /\ r !! "error" <> Some (PyStr "Token IPinfo Faltante").

(** A non-empty run of decimal digits. *)
Definition digits_only (s : string) : Prop :=
  s <> "" /\ PyStr.drop_while PyStr.is_digit s = "".

(** A name as it can follow the AS number: on one line, not empty, with
    no white space around it, and other than "N/A". *)
Definition plain_name (s : string) : Prop :=
  s <> "" /\ s <> "N/A"
  /\ PyStr.strip s = s
  /\ PyStr.drop_while PyStr.is_space s = s
  /\ PyStr.take_while (fun c => negb (PyStr.is_newline c)) s = s.

(** Checks that are run over all the offsets of one or two digits. *)
Definition check_inverted (h : nat) : bool :=
  String.eqb (Gui.map_display_tz_to_backend ("UTC+" +:+ pretty h))
    ("Etc/GMT-" +:+ pretty h)
  && String.eqb (Gui.map_display_tz_to_backend ("UTC-" +:+ pretty h))
       ("Etc/GMT+" +:+ pretty h).

Definition check_east (h : nat) : bool :=
  (h =? 0)%nat
  || String.eqb (Gui.map_display_tz_to_backend ("UTC+" +:+ pretty h))
       (etc_gmt_name (Z.of_nat h)).

Definition check_west (h : nat) : bool :=
  forallb (fun k => negb (String.eqb (etc_gmt_name (Z.of_nat k - 14))
                            (Gui.map_display_tz_to_backend
                               ("UTC-" +:+ pretty h))))
          (seq 0 29).

(* ===================================================================== *)
(** ** Facts about the store and [get_ip_info] *)
(* ===================================================================== *)

Lemma alter_new {A} (f : A -> A) (h : list A) (d : A) :
  alter f (length h) (h ++ [d]) = h ++ [f d].
Proof.
  replace (length h) with (length h + 0)%nat by lia.
  rewrite alter_app_r. reflexivity.
Qed.

Lemma modify_new l f h d c t b k :
  l = length h ->
  St.modify l f (mkStore (h ++ [d]) c t b k)
  = (tt, mkStore (h ++ [f d]) c t b k).
Proof. intros ->. unfold St.modify. simpl. rewrite alter_new. reflexivity. Qed.

Lemma apply_outcome_modify l o :
  apply_outcome l o = St.modify l (outcome_update o).
Proof. destruct o as [[]| | | | | |]; reflexivity. Qed.

Lemma setdefaults_new keys : forall h d c t b k,
  setdefaults (length h) keys (mkStore (h ++ [d]) c t b k)
  = (tt, mkStore (h ++ [apply_defaults keys d]) c t b k).
Proof.
  induction keys as [|key keys IH]; intros; cbn [setdefaults apply_defaults];
    [reflexivity|].
  unfold bind, St.setdefault.
  rewrite (modify_new (length h) _ h d c t b k eq_refl).
  apply IH.
Qed.

Section GetIpInfo.

Context (iplib : IpLib) (net : NetLib).

Lemma get_ip_info_hit ip token st l :
  cache st !! ip = Some l ->
  get_ip_info iplib net ip token st = (l, st).
Proof.
  intros H. unfold get_ip_info, bind, St.get_cache, ret.
  rewrite H. reflexivity.
Qed.

Lemma get_ip_info_miss ip token st :
  cache st !! ip = None ->
  get_ip_info iplib net ip token st
  = (length (heap st),
     store_after_miss ip token (miss_of iplib net ip token st) st).
Proof.
  intros H. unfold get_ip_info, miss_of, store_after_miss.
  unfold bind at 1. unfold St.get_cache. rewrite H.
  unfold bind at 1. unfold St.alloc at 1.
  destruct st as [h c t b k].
  destruct (is_valid_ip iplib ip);
    [destruct (PyStr.is_empty token);
     [|destruct (ipaddress_ip_address iplib ip) as [o|];
       [destruct (ip_type_of o) as [kind|]|]]|];
    unfold bind, St.set_item, ret, St.get_logged, St.http_get;
    cbn [heap cache trace token_ipinfo_missing_logged clock_reads negb
         miss_record miss_cached miss_requested miss_logged];
    rewrite ?apply_outcome_modify;
    repeat rewrite modify_new by reflexivity;
    rewrite ?setdefaults_new;
    try reflexivity.
  destruct b; reflexivity.
Qed.

End GetIpInfo.

(** *** Facts about records *)

Ltac geo_cases H :=
  cbn [In geo_keys] in H;
  repeat (destruct H as [<-|H]; [|]); [..|destruct H].

Lemma fresh_result_dom : dom fresh_result = six_keys.
Proof.
  unfold fresh_result, six_keys.
  rewrite !dom_insert_L, dom_empty_L. set_solver.
Qed.

Lemma fresh_result_geo k :
  In k geo_keys -> fresh_result !! k = Some (PyStr "N/A").
Proof. intros H. geo_cases H; reflexivity. Qed.

Lemma dom_insert_present (d : pydict) k v :
  k ∈ dom d -> dom (<[k := v]> d) = dom d.
Proof.
  intros H. rewrite dom_insert_L. apply subseteq_union_1_L.
  apply singleton_subseteq_l, H.
Qed.

Lemma error_record_error tag :
  error_record tag !! "error" = Some (PyStr tag).
Proof. unfold error_record. apply lookup_insert_eq. Qed.

Lemma error_record_geo tag k :
  In k geo_keys -> error_record tag !! k = Some (PyStr "N/A").
Proof.
  intros H. unfold error_record.
  rewrite lookup_insert_ne; [apply fresh_result_geo; exact H|].
  geo_cases H; discriminate.
Qed.

Lemma error_record_dom tag : dom (error_record tag) = six_keys.
Proof.
  unfold error_record. rewrite dom_insert_present; [apply fresh_result_dom|].
  rewrite fresh_result_dom. unfold six_keys. set_solver.
Qed.

Lemma scope_record_error kind :
  scope_record kind !! "error" = Some (PyStr ("IP " +:+ kind)).
Proof.
  unfold scope_record. rewrite lookup_insert_ne by discriminate.
  apply lookup_insert_eq.
Qed.

Lemma scope_record_isp kind :
  scope_record kind !! "isp" = Some (PyStr ("Red " +:+ kind)).
Proof. unfold scope_record. apply lookup_insert_eq. Qed.

Lemma scope_record_geo kind k :
  In k geo_keys -> k <> "isp" ->
  scope_record kind !! k = Some (PyStr "N/A").
Proof.
  intros H Hne. unfold scope_record.
  rewrite lookup_insert_ne by congruence.
  rewrite lookup_insert_ne; [apply fresh_result_geo; exact H|].
  geo_cases H; discriminate.
Qed.

Lemma scope_record_dom kind : dom (scope_record kind) = six_keys.
Proof.
  unfold scope_record.
  rewrite !dom_insert_present; rewrite ?dom_insert_present;
    rewrite ?fresh_result_dom; try reflexivity; unfold six_keys; set_solver.
Qed.

Lemma truthy_text s : s <> "" -> Py.truthy (PyStr s) = true.
Proof. destruct s; [congruence|reflexivity]. Qed.

Lemma record_text_ok r : dom r = six_keys -> record_text r -> record_ok r.
Proof.
  intros Hd Ht. split; [exact Hd|].
  intros k Hk. destruct (Ht k Hk) as (s & Hs & Hne).
  exists (PyStr s). split; [exact Hs|]. apply truthy_text, Hne.
Qed.

Lemma error_record_text tag : record_text (error_record tag).
Proof.
  intros k Hk. exists "N/A". split; [apply error_record_geo, Hk|discriminate].
Qed.

Lemma ip_type_of_nonempty o kind : ip_type_of o = Some kind -> kind <> "".
Proof.
  unfold ip_type_of.
  repeat match goal with |- context [if ?b then _ else _] => destruct b end;
    intros [= <-]; discriminate.
Qed.

Lemma scope_record_text kind : record_text (scope_record kind).
Proof.
  intros k Hk. destruct (decide (k = "isp")) as [->|Hne].
  - exists ("Red " +:+ kind). split; [apply scope_record_isp|discriminate].
  - exists "N/A". split; [apply scope_record_geo; assumption|discriminate].
Qed.

(** A value kept by [x or "N/A"] is never false. *)
Lemma or_else_truthy x : Py.truthy (Py.or_else x (PyStr "N/A")) = true.
Proof. unfold Py.or_else. destruct (Py.truthy x) eqn:E; [exact E|reflexivity]. Qed.

Lemma update_from_data_dom items d :
  dom d = six_keys -> dom (update_from_data items d) = six_keys.
Proof.
  intros Hd. unfold update_from_data.
  rewrite !dom_insert_L, Hd. unfold six_keys. set_solver.
Qed.

Lemma update_from_data_truthy items d k :
  In k geo_keys ->
  exists v, update_from_data items d !! k = Some v /\ Py.truthy v = true.
Proof.
  intros H. unfold update_from_data.
  geo_cases H;
    repeat (rewrite lookup_insert_ne by discriminate);
    rewrite lookup_insert_eq; eexists; (split; [reflexivity|]);
    apply or_else_truthy.
Qed.

Lemma apply_defaults_id keys : forall d,
  (forall k, In k keys -> is_Some (d !! k)) -> apply_defaults keys d = d.
Proof.
  induction keys as [|key keys IH]; intros d H; [reflexivity|].
  cbn [apply_defaults]. destruct (H key (or_introl eq_refl)) as [v ->].
  apply IH. intros k Hk. apply H. right. exact Hk.
Qed.

Lemma record_ok_defaults d : record_ok d -> apply_defaults geo_keys d = d.
Proof.
  intros [_ H]. apply apply_defaults_id. intros k Hk.
  destruct (H k Hk) as (v & -> & _). eexists; reflexivity.
Qed.

Lemma record_ok_set_error d v :
  record_ok d -> record_ok (<["error" := v]> d).
Proof.
  intros [Hd Hg]. split.
  - rewrite dom_insert_present; [exact Hd|]. rewrite Hd. unfold six_keys.
    set_solver.
  - intros k Hk. rewrite lookup_insert_ne; [apply Hg, Hk|].
    geo_cases Hk; discriminate.
Qed.

Lemma fresh_result_ok : record_ok fresh_result.
Proof.
  split; [apply fresh_result_dom|]. intros k Hk. exists (PyStr "N/A").
  split; [apply fresh_result_geo, Hk|reflexivity].
Qed.

Lemma outcome_update_ok o : record_ok (outcome_update o fresh_result).
Proof.
  destruct o as [[]| | | | | |]; cbn [outcome_update];
    try (apply record_ok_set_error, fresh_result_ok).
  split; [apply update_from_data_dom, fresh_result_dom|].
  intros k Hk. apply update_from_data_truthy, Hk.
Qed.

Lemma miss_record_ok iplib net ip token st :
  record_ok (miss_record (miss_of iplib net ip token st)).
Proof.
  unfold miss_of.
  destruct (negb (is_valid_ip iplib ip));
    [apply record_ok_set_error, fresh_result_ok|].
  destruct (PyStr.is_empty token);
    [apply record_ok_set_error, fresh_result_ok|].
  destruct (ipaddress_ip_address iplib ip) as [o|];
    [|apply record_ok_set_error, fresh_result_ok].
  destruct (ip_type_of o) as [kind|]; cbn [miss_record].
  - apply record_text_ok; [apply scope_record_dom|apply scope_record_text].
  - rewrite record_ok_defaults; apply outcome_update_ok.
Qed.

(** *** Answers made of strings *)

Lemma or_else_text v :
  text_or_absent v = true ->
  exists s, Py.or_else v (PyStr "N/A") = PyStr s /\ s <> "".
Proof.
  unfold text_or_absent, Py.or_else. intros H.
  destruct (Py.truthy v) eqn:E.
  - destruct v; try discriminate. exists s. split; [reflexivity|].
    destruct s; [discriminate|congruence].
  - exists "N/A". split; [reflexivity|discriminate].
Qed.

Lemma get_text items k :
  fields_text items -> In k geo_keys ->
  text_or_absent (Py.get items k PyNone) = true.
Proof.
  intros H Hk. unfold Py.get. destruct (Py.assoc k items) eqn:E.
  - eapply H; eassumption.
  - reflexivity.
Qed.

Lemma isp_of_data_text items :
  fields_text items ->
  exists s, (if Py.truthy (isp_of_data items) then isp_of_data items
             else PyStr "N/A") = PyStr s /\ s <> "".
Proof.
  intros H.
  assert (Hisp : text_or_absent (Py.get items "isp" (PyStr "N/A")) = true).
  { unfold Py.get. destruct (Py.assoc "isp" items) eqn:E; [|reflexivity].
    eapply H; [|exact E]. left. reflexivity. }
  assert (Hstr : forall t,
    exists s, (if Py.truthy
                    (if negb (Py.truthy (PyStr t)) || Py.eq_str (PyStr t) "N/A"
                     then Py.get items "isp" (PyStr "N/A") else PyStr t)
               then (if negb (Py.truthy (PyStr t)) || Py.eq_str (PyStr t) "N/A"
                     then Py.get items "isp" (PyStr "N/A") else PyStr t)
               else PyStr "N/A") = PyStr s /\ s <> "").
  { intros t.
    destruct (negb (Py.truthy (PyStr t)) || Py.eq_str (PyStr t) "N/A") eqn:E.
    - apply or_else_text, Hisp.
    - apply orb_false_iff in E as [E _]. apply negb_false_iff in E.
      rewrite E. exists t. split; [reflexivity|].
      destruct t; [discriminate|congruence]. }
  unfold isp_of_data.
  destruct (Py.get items "org" (PyStr "")) as [| | | |org| |];
    try apply (Hstr "N/A").
  destruct (PyStr.is_empty org); [apply (Hstr "N/A")|].
  destruct (PyStr.match_as_org org); apply Hstr.
Qed.

Lemma update_from_data_text items d :
  fields_text items -> record_text (update_from_data items d).
Proof.
  intros H k Hk. unfold update_from_data.
  pose proof (isp_of_data_text items H) as Hisp.
  geo_cases Hk;
    repeat (rewrite lookup_insert_ne by discriminate);
    rewrite lookup_insert_eq.
  - destruct Hisp as (s & -> & Hs). exists s. split; [reflexivity|exact Hs].
  - destruct (or_else_text (Py.get items "city" PyNone)) as (s & -> & Hs);
      [apply get_text; [exact H|cbn; tauto]|].
    exists s. split; [reflexivity|exact Hs].
  - destruct (or_else_text (Py.get items "region" PyNone)) as (s & -> & Hs);
      [apply get_text; [exact H|cbn; tauto]|].
    exists s. split; [reflexivity|exact Hs].
  - destruct (or_else_text (Py.get items "country" PyNone)) as (s & -> & Hs);
      [apply get_text; [exact H|cbn; tauto]|].
    exists s. split; [reflexivity|exact Hs].
  - destruct (or_else_text (Py.get items "hostname" PyNone)) as (s & -> & Hs);
      [apply get_text; [exact H|cbn; tauto]|].
    exists s. split; [reflexivity|exact Hs].
Qed.

Lemma record_text_set_error d v :
  record_text d -> record_text (<["error" := v]> d).
Proof.
  intros H k Hk. rewrite lookup_insert_ne; [apply H, Hk|].
  geo_cases Hk; discriminate.
Qed.

Lemma fresh_result_text : record_text fresh_result.
Proof.
  intros k Hk. exists "N/A". split; [apply fresh_result_geo, Hk|discriminate].
Qed.

Lemma miss_record_text iplib net ip token st :
  text_answers net ->
  record_text (miss_record (miss_of iplib net ip token st)).
Proof.
  intros Hnet. unfold miss_of.
  destruct (negb (is_valid_ip iplib ip));
    [apply record_text_set_error, fresh_result_text|].
  destruct (PyStr.is_empty token);
    [apply record_text_set_error, fresh_result_text|].
  destruct (ipaddress_ip_address iplib ip) as [o|];
    [|apply record_text_set_error, fresh_result_text].
  destruct (ip_type_of o) as [kind|]; cbn [miss_record].
  - apply scope_record_text.
  - rewrite record_ok_defaults by apply outcome_update_ok.
    destruct (requests_get net (http_count (trace st)) (IPINFO_URL ip token))
      as [data| | | | | |] eqn:E; cbn [outcome_update];
      try (apply record_text_set_error, fresh_result_text).
    destruct data as [| | | | | |items];
      try (apply record_text_set_error, fresh_result_text).
    apply update_from_data_text. intros k v Hk Hv.
    eapply Hnet; eassumption.
Qed.

(** *** Facts about the store *)

Section StoreFacts.

Context (iplib : IpLib) (net : NetLib).

Lemma store_inv_empty P : store_inv P St.empty.
Proof. intros ip l H. cbn in H. rewrite lookup_empty in H. discriminate. Qed.

Lemma store_after_miss_new ip token m st :
  heap (store_after_miss ip token m st) !! length (heap st)
  = Some (miss_record m).
Proof. cbn [store_after_miss heap]. apply list_lookup_middle. reflexivity. Qed.

Lemma store_after_miss_old ip token m st l r :
  heap st !! l = Some r ->
  heap (store_after_miss ip token m st) !! l = Some r.
Proof. cbn [store_after_miss heap]. apply lookup_app_l_Some. Qed.

Lemma store_after_miss_cache ip token m st ip' l :
  cache (store_after_miss ip token m st) !! ip' = Some l ->
  (ip' = ip /\ l = length (heap st) /\ miss_cached m = true)
  \/ cache st !! ip' = Some l.
Proof.
  cbn [store_after_miss cache]. destruct (miss_cached m); [|tauto].
  destruct (decide (ip = ip')) as [->|Hne].
  - rewrite lookup_insert_eq. intros [= <-]. left. tauto.
  - rewrite lookup_insert_ne by exact Hne. tauto.
Qed.

(** An invariant of the cache is kept by a lookup whose new record
    satisfies it, and the record returned satisfies it. *)
Lemma store_inv_get P ip token st :
  store_inv P st ->
  (cache st !! ip = None -> P (miss_record (miss_of iplib net ip token st))) ->
  (exists r, heap (snd (get_ip_info iplib net ip token st))
               !! fst (get_ip_info iplib net ip token st) = Some r /\ P r)
  /\ store_inv P (snd (get_ip_info iplib net ip token st)).
Proof.
  intros Hinv HP. destruct (cache st !! ip) as [l|] eqn:E.
  - rewrite (get_ip_info_hit _ _ _ _ _ _ E). cbn [fst snd].
    split; [apply (Hinv _ _ E)|exact Hinv].
  - rewrite (get_ip_info_miss _ _ _ _ _ E). cbn [fst snd]. split.
    + eexists. split; [apply store_after_miss_new|apply HP; reflexivity].
    + intros ip' l' H. apply store_after_miss_cache in H as [(-> & -> & _)|H].
      * eexists. split; [apply store_after_miss_new|apply HP; reflexivity].
      * destruct (Hinv _ _ H) as (r & Hr & HPr). exists r.
        split; [apply store_after_miss_old, Hr|exact HPr].
Qed.

(** The cache of the empty store, of a store with a new cache, and of
    every store reached from these by lookups, points into the heap. *)
Lemma cache_allocated_new st :
  cache_allocated (snd (St.cache_new st)).
Proof. intros ip l H. cbn in H. rewrite lookup_empty in H. discriminate. Qed.

Lemma cache_allocated_get ip token st :
  cache_allocated st ->
  cache_allocated (snd (get_ip_info iplib net ip token st)).
Proof.
  intros H. apply (store_inv_get (fun _ => True) ip token st H).
  intros _. exact I.
Qed.

(** A lookup neither drops nor changes what the cache already holds. *)
Lemma get_ip_info_preserves ip token st ip' l' r' :
  cache st !! ip' = Some l' -> heap st !! l' = Some r' ->
  cache (snd (get_ip_info iplib net ip token st)) !! ip' = Some l'
  /\ heap (snd (get_ip_info iplib net ip token st)) !! l' = Some r'.
Proof.
  intros Hc Hh. destruct (cache st !! ip) as [l|] eqn:E.
  - rewrite (get_ip_info_hit _ _ _ _ _ _ E). tauto.
  - rewrite (get_ip_info_miss _ _ _ _ _ E). cbn [snd].
    split; [|apply store_after_miss_old, Hh].
    cbn [store_after_miss cache]. destruct (miss_cached _); [|exact Hc].
    rewrite lookup_insert_ne; [exact Hc|]. congruence.
Qed.

Lemma get_many_preserves calls : forall st ip' l' r',
  cache st !! ip' = Some l' -> heap st !! l' = Some r' ->
  cache (snd (get_many iplib net calls st)) !! ip' = Some l'
  /\ heap (snd (get_many iplib net calls st)) !! l' = Some r'.
Proof.
  induction calls as [|[ip token] calls IH]; intros st ip' l' r' Hc Hh.
  - split; assumption.
  - cbn [get_many]. unfold bind, ret.
    destruct (get_ip_info_preserves ip token st ip' l' r' Hc Hh) as [Hc1 Hh1].
    destruct (get_ip_info iplib net ip token st) as [l st1].
    cbn [snd] in Hc1, Hh1.
    specialize (IH st1 ip' l' r' Hc1 Hh1).
    destruct (get_many iplib net calls st1) as [ls st2]. exact IH.
Qed.

(** A lookup that caches nothing sends no request, and its record does
    not depend on the store. *)
Lemma miss_uncached ip token st st' :
  miss_cached (miss_of iplib net ip token st) = false ->
  miss_requested (miss_of iplib net ip token st) = false
  /\ miss_cached (miss_of iplib net ip token st') = false
  /\ miss_requested (miss_of iplib net ip token st') = false
  /\ miss_record (miss_of iplib net ip token st')
     = miss_record (miss_of iplib net ip token st).
Proof.
  unfold miss_of.
  destruct (negb (is_valid_ip iplib ip)); [cbn; tauto|].
  destruct (PyStr.is_empty token); [cbn; tauto|].
  destruct (ipaddress_ip_address iplib ip) as [o|]; [|cbn; tauto].
  destruct (ip_type_of o); cbn; intros; discriminate.
Qed.

Lemma miss_requested_cached ip token st :
  miss_requested (miss_of iplib net ip token st) = true ->
  miss_cached (miss_of iplib net ip token st) = true.
Proof.
  unfold miss_of.
  repeat match goal with
         | |- context [if ?b then _ else _] => destruct b
         | |- context [match ?x with Some _ => _ | None => _ end] =>
             destruct x
         end; cbn; congruence.
Qed.

(** A lookup that misses the cache puts its record there exactly when the
    IP is valid and the token is not empty. *)
Lemma miss_cached_iff ip token st :
  miss_cached (miss_of iplib net ip token st) = true
  <-> is_valid_ip iplib ip = true /\ PyStr.is_empty token = false.
Proof.
  unfold miss_of, is_valid_ip.
  destruct (PyStr.is_empty ip || PyStr.isspace ip);
    [cbn; split; [discriminate|intros [H _]; discriminate]|].
  destruct (ipaddress_ip_address iplib ip) as [o|];
    [|cbn; split; [discriminate|intros [H _]; discriminate]].
  cbn [negb]. destruct (PyStr.is_empty token);
    [cbn; split; [discriminate|intros [_ H]; discriminate]|].
  destruct (ip_type_of o); cbn; tauto.
Qed.

Lemma http_count_app t e :
  http_count (t ++ [e]) = (http_count t + (if is_http_get e then 1 else 0))%nat.
Proof.
  unfold http_count. rewrite List.filter_app, length_app. cbn [List.filter].
  destruct (is_http_get e); reflexivity.
Qed.

Lemma sleep_count_app t e :
  sleep_count (t ++ [e]) = (sleep_count t + (if is_sleep e then 1 else 0))%nat.
Proof.
  unfold sleep_count. rewrite List.filter_app, length_app. cbn [List.filter].
  destruct (is_sleep e); reflexivity.
Qed.

Lemma scope_inv_empty : scope_inv iplib St.empty.
Proof.
  intros ip l o kind H. cbn in H. rewrite lookup_empty in H. discriminate.
Qed.

(** The cache of a store reached by lookups holds, for the addresses of
    a special range, the record of their range. *)
Lemma scope_inv_get ip token st :
  scope_inv iplib st ->
  scope_inv iplib (snd (get_ip_info iplib net ip token st)).
Proof.
  intros Hinv. destruct (cache st !! ip) as [l|] eqn:E.
  - rewrite (get_ip_info_hit _ _ _ _ _ _ E). exact Hinv.
  - rewrite (get_ip_info_miss _ _ _ _ _ E). cbn [snd].
    intros ip' l' o kind Hc Hlib Hkind.
    apply store_after_miss_cache in Hc as [(-> & -> & Hcached)|Hc].
    + rewrite store_after_miss_new. f_equal. revert Hcached.
      unfold miss_of.
      destruct (negb (is_valid_ip iplib ip)); [cbn; discriminate|].
      destruct (PyStr.is_empty token); [cbn; discriminate|].
      rewrite Hlib, Hkind. reflexivity.
    + apply store_after_miss_old. eapply Hinv; eassumption.
Qed.

End StoreFacts.

(* ===================================================================== *)
(** ** The enrichment cache: [get_ip_info] *)
(* ===================================================================== *)

(** C9.  For a syntactically invalid IP string that is not in the cache,
    [get_ip_info] returns a record whose error is "IP Inválida (Formato)"
    and whose five geolocation fields are "N/A"; the cache is left as it
    was (the record is not inserted) and no request is sent. *)
Theorem invalid_ip_not_cached iplib net ip token st :
  cache st !! ip = None ->
  is_valid_ip iplib ip = false ->
  let '(l, st') := get_ip_info iplib net ip token st in
  (exists r, heap st' !! l = Some r
     /\ r !! "error" = Some (PyStr "IP Inválida (Formato)")
     /\ forall k, In k geo_keys -> r !! k = Some (PyStr "N/A"))
  /\ cache st' = cache st
  /\ trace st' = trace st.
Proof.
  intros Hmiss Hinvalid. rewrite (get_ip_info_miss _ _ _ _ _ Hmiss).
  unfold miss_of. rewrite Hinvalid. cbn [negb].
  split; [|split; reflexivity].
  exists (error_record "IP Inválida (Formato)"). split.
  - apply (store_after_miss_new ip token (mkMiss _ false false _) st).
  - split; [apply error_record_error|apply error_record_geo].
Qed.

Lemma invalid_ip_not_cached_witness :
  let '(l, st') :=
    get_ip_info Sample.iplib Sample.net "999.1.1.1" "token" St.empty in
  (exists r, heap st' !! l = Some r
     /\ r !! "error" = Some (PyStr "IP Inválida (Formato)")
     /\ forall k, In k geo_keys -> r !! k = Some (PyStr "N/A"))
  /\ cache st' = cache St.empty
  /\ trace st' = trace St.empty.
Proof.
  apply (invalid_ip_not_cached Sample.iplib Sample.net "999.1.1.1" "token"
           St.empty); reflexivity.
Defined.

(** C2, as the claim states it, fails when the token is missing: the
    private address 192.168.1.1 looked up with an empty token gets the
    error "Token IPinfo Faltante", not "IP Privada", and nothing is put
    in the cache. *)
Lemma scope_lookup_without_token :
  (is_private <$> ipaddress_ip_address Sample.iplib "192.168.1.1") = Some true
  /\ let '(l, st') :=
       get_ip_info Sample.iplib Sample.net "192.168.1.1" "" St.empty in
     (heap st' !! l) ≫= (fun r => r !! "error")
       = Some (PyStr "Token IPinfo Faltante")
     /\ (heap st' !! l) ≫= (fun r => r !! "error") <> Some (PyStr "IP Privada")
     /\ cache st' !! "192.168.1.1" = None.
Proof.
  split; [reflexivity|]. vm_compute. repeat split; congruence.
Qed.

(** C2, amended.  For an address that [ipaddress] reports as private,
    loopback, link-local, multicast or reserved, and a token that is not
    empty, [get_ip_info] sends no request and returns the record with
    error "IP <kind>" and isp "Red <kind>", where the kind is the first
    that applies among Privada, Loopback, Link-Local, Multicast and
    Reservada; the record is the one stored in the cache under that
    address.  This holds in every store reached by lookups, whether the
    address is met for the first time or again. *)
Theorem scope_fast_path iplib net ip token st o kind :
  PyStr.is_empty token = false ->
  is_valid_ip iplib ip = true ->
  ipaddress_ip_address iplib ip = Some o ->
  ip_type_of o = Some kind ->
  scope_inv iplib st ->
  let '(l, st') := get_ip_info iplib net ip token st in
  trace st' = trace st
  /\ (exists r, heap st' !! l = Some r
        /\ r !! "error" = Some (PyStr ("IP " +:+ kind))
        /\ r !! "isp" = Some (PyStr ("Red " +:+ kind)))
  /\ cache st' !! ip = Some l
  /\ scope_inv iplib st'.
Proof.
  intros Htoken Hvalid Hlib Hkind Hinv.
  pose proof (scope_inv_get iplib net ip token st Hinv) as Hinv'.
  destruct (cache st !! ip) as [l|] eqn:E.
  - rewrite (get_ip_info_hit _ _ _ _ _ _ E) in *. cbn [snd] in Hinv'.
    repeat split; try assumption.
    exists (scope_record kind).
    split; [eapply Hinv; eassumption|].
    split; [apply scope_record_error|apply scope_record_isp].
  - rewrite (get_ip_info_miss _ _ _ _ _ E) in *. cbn [snd] in Hinv'.
    unfold miss_of in *. rewrite Hvalid, Htoken, Hlib, Hkind in *.
    cbn [negb] in *. repeat split; try assumption.
    + exists (scope_record kind).
      split; [apply (store_after_miss_new ip token (mkMiss _ true false _) st)|].
      split; [apply scope_record_error|apply scope_record_isp].
    + cbn [store_after_miss cache miss_cached]. apply lookup_insert_eq.
Qed.

Lemma scope_fast_path_witness :
  let '(l, st') :=
    get_ip_info Sample.iplib Sample.net "192.168.1.1" "token" St.empty in
  trace st' = trace St.empty
  /\ (exists r, heap st' !! l = Some r
        /\ r !! "error" = Some (PyStr ("IP " +:+ "Privada"))
        /\ r !! "isp" = Some (PyStr ("Red " +:+ "Privada")))
  /\ cache st' !! "192.168.1.1" = Some l
  /\ scope_inv Sample.iplib st'.
Proof.
  apply (scope_fast_path Sample.iplib Sample.net "192.168.1.1" "token"
           St.empty (Sample.classify 3232235777) "Privada");
    try reflexivity.
  apply scope_inv_empty.
Defined.

(** C4.  In a store whose cache points into the heap, two calls of
    [get_ip_info] with the same IP return the same record.  The first
    call leaves the IP in the cache, under the reference that it returns,
    exactly when the IP was there already or is valid and looked up with
    a token; the second call then returns the very same object and
    changes nothing, so that it sends no request.  In every case the two
    calls send at most one request; and whatever lookups follow, every
    record that the cache holds after the first call stays in the cache
    under the same reference with the same content. *)
Theorem lookup_twice_identical iplib net ip token st :
  cache_allocated st ->
  let '(l1, st1) := get_ip_info iplib net ip token st in
  let '(l2, st2) := get_ip_info iplib net ip token st1 in
  (exists r, heap st1 !! l1 = Some r /\ heap st2 !! l2 = Some r)
  /\ (cache st1 !! ip = Some l1
      <-> (cache st !! ip <> None
           \/ (is_valid_ip iplib ip = true /\ PyStr.is_empty token = false)))
  /\ (cache st1 !! ip = Some l1 -> l2 = l1 /\ st2 = st1)
  /\ (http_count (trace st2) <= S (http_count (trace st)))%nat
  /\ (forall calls ip' l' r',
        cache st1 !! ip' = Some l' -> heap st1 !! l' = Some r' ->
        let st3 := snd (get_many iplib net calls st1) in
        cache st3 !! ip' = Some l' /\ heap st3 !! l' = Some r').
Proof.
  intros Halloc.
  assert (Hlater : forall st1 calls ip' l' r',
    cache st1 !! ip' = Some l' -> heap st1 !! l' = Some r' ->
    let st3 := snd (get_many iplib net calls st1) in
    cache st3 !! ip' = Some l' /\ heap st3 !! l' = Some r').
  { intros. apply get_many_preserves; assumption. }
  destruct (cache st !! ip) as [l|] eqn:E.
  - rewrite (get_ip_info_hit _ _ _ _ _ _ E).
    rewrite (get_ip_info_hit _ _ _ _ _ _ E).
    destruct (Halloc _ _ E) as (r & Hr & _).
    split; [exists r; tauto|].
    split; [split; [intros _; left; discriminate|intros _; exact E]|].
    split; [tauto|]. split; [lia|apply Hlater].
  - rewrite (get_ip_info_miss _ _ _ _ _ E).
    pose proof (miss_cached_iff iplib net ip token st) as Hiff.
    set (m := miss_of iplib net ip token st) in *.
    set (st1 := store_after_miss ip token m st).
    destruct (miss_cached m) eqn:Hcached.
    + assert (Hc : cache st1 !! ip = Some (length (heap st))).
      { unfold st1. cbn [store_after_miss cache]. rewrite Hcached.
        apply lookup_insert_eq. }
      rewrite (get_ip_info_hit _ _ _ _ _ _ Hc).
      split; [exists (miss_record m); split; apply store_after_miss_new|].
      split; [split; [intros _; right; apply Hiff; reflexivity
                     |intros _; exact Hc]|].
      split; [tauto|]. split; [|apply Hlater].
      unfold st1. cbn [store_after_miss trace].
      destruct (miss_requested m); [rewrite http_count_app; cbn; lia|lia].
    + assert (Hc : cache st1 !! ip = None).
      { unfold st1. cbn [store_after_miss cache]. rewrite Hcached. exact E. }
      rewrite (get_ip_info_miss _ _ _ _ _ Hc).
      destruct (miss_uncached iplib net ip token st st1 Hcached)
        as (Hreq & Hcached1 & Hreq1 & Hrec).
      split.
      { exists (miss_record m). split.
        - apply store_after_miss_new.
        - rewrite store_after_miss_new. f_equal. exact Hrec. }
      split.
      { split.
        - intros H. rewrite Hc in H. discriminate.
        - intros [H|H]; [congruence|]. apply Hiff in H. discriminate. }
      split; [intros H; rewrite Hc in H; discriminate|].
      split; [|apply Hlater].
      change (miss_requested m = false) in Hreq.
      cbn [store_after_miss trace]. rewrite Hreq1. unfold st1.
      cbn [store_after_miss trace]. rewrite Hreq. lia.
Qed.

Lemma lookup_twice_identical_witness :
  let '(l1, st1) :=
    get_ip_info Sample.iplib Sample.net "8.8.8.8" "token" St.empty in
  let '(l2, st2) := get_ip_info Sample.iplib Sample.net "8.8.8.8" "token" st1 in
  cache st1 !! "8.8.8.8" = Some l1
  /\ l2 = l1 /\ st2 = st1
  /\ (exists r, heap st1 !! l1 = Some r /\ heap st2 !! l2 = Some r)
  /\ (http_count (trace st2) <= 1)%nat.
Proof.
  pose proof (lookup_twice_identical Sample.iplib Sample.net "8.8.8.8"
                "token" St.empty (store_inv_empty (fun _ => True))) as H.
  destruct (get_ip_info Sample.iplib Sample.net "8.8.8.8" "token" St.empty)
    as [l1 st1].
  destruct (get_ip_info Sample.iplib Sample.net "8.8.8.8" "token" st1)
    as [l2 st2].
  destruct H as (Hrec & Hcached & Hsame & Hcount & _).
  assert (Hc : cache st1 !! "8.8.8.8" = Some l1).
  { apply Hcached. right. split; reflexivity. }
  destruct (Hsame Hc) as [Hl Hst].
  split; [exact Hc|]. split; [exact Hl|]. split; [exact Hst|].
  split; [exact Hrec|exact Hcount].
Defined.

(** C10, as the claim states it, fails when the provider answers with a
    value that is not a string: a number under [city] is copied into the
    record as it is. *)
Lemma numeric_city_is_kept :
  let '(l, st') :=
    get_ip_info Sample.iplib Sample.net_numeric_city "8.8.8.8" "token"
      St.empty in
  (heap st' !! l) ≫= (fun r => r !! "city") = Some (PyInt 94043)
  /\ ~ (exists s, (heap st' !! l) ≫= (fun r => r !! "city") = Some (PyStr s)).
Proof.
  vm_compute. split; [reflexivity|]. intros [s H]. discriminate.
Qed.

(** C10, amended.  In every store whose cached records are well formed,
    [get_ip_info] returns (it is a total function: each exception of the
    request is caught by one of its handlers) a record that has exactly
    the six keys isp, city, region, country, hostname and error and whose
    five geolocation fields are never empty: each is "N/A" or the value
    that the lookup supplied.  They are non-empty strings whenever the
    provider answers with strings (or nothing) under these keys.  The
    cache keeps both properties. *)
Theorem get_ip_info_record_shape iplib net ip token st :
  store_inv record_ok st ->
  let '(l, st') := get_ip_info iplib net ip token st in
  (exists r, heap st' !! l = Some r /\ record_ok r)
  /\ store_inv record_ok st'
  /\ (text_answers net -> store_inv record_text st ->
      (exists r, heap st' !! l = Some r /\ record_text r)
      /\ store_inv record_text st').
Proof.
  intros Hinv.
  pose proof (store_inv_get iplib net record_ok ip token st Hinv
                (fun _ => miss_record_ok iplib net ip token st)) as Hok.
  pose proof (fun Hnet Htext =>
    store_inv_get iplib net record_text ip token st Htext
      (fun _ => miss_record_text iplib net ip token st Hnet)) as Htxt.
  destruct (get_ip_info iplib net ip token st) as [l st'].
  cbn [fst snd] in Hok, Htxt. destruct Hok as [Hr Hst].
  split; [exact Hr|]. split; [exact Hst|]. exact Htxt.
Qed.

Lemma sample_text_answers : text_answers Sample.net.
Proof.
  intros n url items k v [= <-] Hk Hv.
  geo_cases Hk; vm_compute in Hv; try discriminate;
    injection Hv as <-; reflexivity.
Qed.

Lemma get_ip_info_record_shape_witness :
  let '(l, st') :=
    get_ip_info Sample.iplib Sample.net "8.8.8.8" "token" St.empty in
  (exists r, heap st' !! l = Some r /\ record_ok r)
  /\ store_inv record_ok st'
  /\ (exists r, heap st' !! l = Some r /\ record_text r)
  /\ store_inv record_text st'.
Proof.
  pose proof (get_ip_info_record_shape Sample.iplib Sample.net "8.8.8.8"
                "token" St.empty (store_inv_empty record_ok)) as H.
  destruct (get_ip_info Sample.iplib Sample.net "8.8.8.8" "token" St.empty)
    as [l st'].
  destruct H as (H1 & H2 & H3).
  destruct (H3 sample_text_answers (store_inv_empty record_text)) as [H4 H5].
  repeat split; assumption.
Defined.

(* ===================================================================== *)
(** ** The timestamp normalizer: [parse_and_convert_timezone] *)
(* ===================================================================== *)

(** *** White space *)

Lemma all_space_rev_app s1 : forall s2,
  PyStr.all_space (String.rev_app s1 s2)
  = PyStr.all_space s1 && PyStr.all_space s2.
Proof.
  induction s1 as [|c s1 IH]; intros s2; cbn [String.rev_app PyStr.all_space].
  - reflexivity.
  - rewrite IH. cbn [PyStr.all_space].
    destruct (PyStr.is_space c), (PyStr.all_space s1); reflexivity.
Qed.

Lemma all_space_rev s : PyStr.all_space (String.rev s) = PyStr.all_space s.
Proof.
  unfold String.rev. rewrite all_space_rev_app. cbn [PyStr.all_space].
  apply andb_true_r.
Qed.

Lemma lstrip_all_space s : PyStr.all_space s = true -> PyStr.lstrip s = "".
Proof.
  induction s as [|c s IH]; cbn [PyStr.all_space PyStr.lstrip];
    [reflexivity|].
  intros [Hc Hs]%andb_true_iff. rewrite Hc. apply IH, Hs.
Qed.

Lemma lstrip_empty_all_space s : PyStr.lstrip s = "" -> PyStr.all_space s = true.
Proof.
  induction s as [|c s IH]; cbn [PyStr.all_space PyStr.lstrip];
    [reflexivity|].
  destruct (PyStr.is_space c); [exact IH|discriminate].
Qed.

Lemma rev_app_empty s1 : forall s2, String.rev_app s1 s2 = "" -> s1 = "" /\ s2 = "".
Proof.
  induction s1 as [|c s1 IH]; intros s2; cbn [String.rev_app]; [tauto|].
  intros H. apply IH in H as [_ H]. discriminate.
Qed.

Lemma rev_empty s : String.rev s = "" -> s = "".
Proof. unfold String.rev. intros H. apply rev_app_empty in H. tauto. Qed.

Lemma all_space_lstrip s :
  PyStr.all_space (PyStr.lstrip s) = true -> PyStr.all_space s = true.
Proof.
  induction s as [|c s IH]; cbn [PyStr.lstrip]; [tauto|].
  destruct (PyStr.is_space c) eqn:Ec; [|tauto].
  intros H. cbn [PyStr.all_space]. rewrite Ec. apply IH, H.
Qed.

(** A string is made of white space exactly when stripping it leaves
    nothing. *)
Lemma all_space_strip s : PyStr.all_space s = true <-> PyStr.strip s = "".
Proof.
  unfold PyStr.strip, PyStr.rstrip. split.
  - intros H. rewrite (lstrip_all_space s H). reflexivity.
  - intros H. apply rev_empty, lstrip_empty_all_space in H.
    rewrite all_space_rev in H. apply all_space_lstrip, H.
Qed.

Lemma eqb_true a b : PyStr.eqb a b = true <-> a = b.
Proof. unfold PyStr.eqb. apply bool_decide_eq_true. Qed.

Lemma is_empty_true s : PyStr.is_empty s = true <-> s = "".
Proof. destruct s; cbn; split; congruence. Qed.

Section NormalizerFacts.

Context (tzl : TzLib).

(** The guard at the head of the function is the test for a blank
    input. *)
Lemma guard_blank s :
  PyStr.is_empty s || PyStr.eqb (PyStr.strip s) "N/A"
    || PyStr.eqb (PyStr.strip s) "" = true
  <-> blank s.
Proof.
  unfold blank. rewrite !orb_true_iff, !eqb_true, is_empty_true.
  rewrite all_space_strip. split.
  - intros [[->|H]|H]; [left; reflexivity|right; exact H|left; exact H].
  - intros [H|H]; [right; exact H|left; right; exact H].
Qed.

Lemma guard_not_blank s :
  ~ blank s ->
  PyStr.is_empty s || PyStr.eqb (PyStr.strip s) "N/A"
    || PyStr.eqb (PyStr.strip s) "" = false.
Proof.
  intros H. apply not_true_is_false. intros G. apply H, guard_blank, G.
Qed.

(** With both exception names bound, the function returns on every
    input. *)
Lemma normalizer_returns s tz :
  zoneinfo_names_bound tzl = true -> pytz_names_bound tzl = true ->
  exists r, parse_and_convert_timezone tzl s tz = Returned r.
Proof.
  intros Hz Hp. unfold parse_and_convert_timezone.
  destruct (_ || _ || _); [eexists; reflexivity|].
  destruct (negb _); [eexists; reflexivity|].
  destruct (parse_to_utc tzl s) as [utc|e]; [|eexists; reflexivity].
  destruct (convert_block tzl utc tz) as [f|e]; [eexists; reflexivity|].
  unfold convert_handlers. rewrite Hz, Hp. cbn [negb].
  destruct e; eexists; reflexivity.
Qed.

(** With both exception names bound, a fault of the conversion keeps the
    instant: this is what the two handlers are written for. *)
Lemma instant_kept_when_names_bound s tz utc e :
  zoneinfo_names_bound tzl = true -> pytz_names_bound tzl = true ->
  dateutil_available tzl = true -> ~ blank s ->
  parse_to_utc tzl s = Returned utc ->
  convert_block tzl utc tz = Raised e ->
  parse_and_convert_timezone tzl s tz
  = Returned (Some utc,
              match e with
              | ExZoneInfoNotFoundError | ExUnknownTimeZoneError =>
                  "Error TZ Interno"
              | _ => "Error Interno (TZ Conv.)"
              end).
Proof.
  intros Hz Hp Hd Hb Hparse Hconv. unfold parse_and_convert_timezone.
  rewrite (guard_not_blank s Hb), Hd, Hparse, Hconv. cbn [negb].
  unfold convert_handlers. rewrite Hz, Hp. cbn [negb].
  destruct e; reflexivity.
Qed.

End NormalizerFacts.

(** C7.  [parse_and_convert_timezone] returns [(None, "N/A")] for every
    input made of white space only (the empty string included) or that
    trims to "N/A".  When the date-parsing dependency is available, a
    blank input or a failure of the parsing block makes the function
    return with the instant [None], and whenever the function returns,
    the instant is [None] exactly in these two cases. *)
Theorem instant_none_iff tzl timestamp_str target_tz_str :
  (blank timestamp_str ->
   parse_and_convert_timezone tzl timestamp_str target_tz_str
   = Returned (None, "N/A"))
  /\ (dateutil_available tzl = true ->
      (blank timestamp_str \/ parsing_failed tzl timestamp_str ->
       exists msg,
         parse_and_convert_timezone tzl timestamp_str target_tz_str
         = Returned (None, msg))
      /\ (forall inst msg,
            parse_and_convert_timezone tzl timestamp_str target_tz_str
            = Returned (inst, msg) ->
            inst = None <-> blank timestamp_str \/ parsing_failed tzl timestamp_str)).
Proof.
  assert (Hblank : blank timestamp_str ->
    parse_and_convert_timezone tzl timestamp_str target_tz_str
    = Returned (None, "N/A")).
  { intros H. unfold parse_and_convert_timezone.
    apply guard_blank in H. rewrite H. reflexivity. }
  split; [exact Hblank|]. intros Hd. split.
  - intros [H|[e He]]; [eexists; apply Hblank, H|].
    unfold parse_and_convert_timezone.
    destruct (_ || _ || _); [eexists; reflexivity|].
    rewrite Hd, He. eexists. reflexivity.
  - intros inst msg. unfold parse_and_convert_timezone.
    destruct (_ || _ || _) eqn:G.
    + intros [= <- <-]. split; [|reflexivity].
      intros _. left. apply guard_blank, G.
    + assert (Hnb : ~ blank timestamp_str).
      { intros H. apply guard_blank in H. congruence. }
      rewrite Hd. cbn [negb].
      destruct (parse_to_utc tzl timestamp_str) as [utc|e] eqn:Hparse.
      * assert (Hnf : ~ parsing_failed tzl timestamp_str).
        { intros [e He]. unfold parsing_failed in *. congruence. }
        destruct (convert_block tzl utc target_tz_str) as [f|e].
        -- intros [= <- <-]. split; [discriminate|tauto].
        -- destruct (convert_handlers tzl e); [|discriminate].
           intros [= <- <-]. split; [discriminate|tauto].
      * intros [= <- <-]. split; [|reflexivity].
        intros _. right. exists e. exact Hparse.
Qed.

Lemma instant_none_iff_witness :
  parse_and_convert_timezone Sample.tzl "   " "UTC" = Returned (None, "N/A")
  /\ (exists msg,
        parse_and_convert_timezone Sample.tzl "yesterday" "UTC"
        = Returned (None, msg))
  /\ (forall inst msg,
        parse_and_convert_timezone Sample.tzl "2024-03-15 10:30:00" "UTC"
        = Returned (inst, msg) ->
        inst = None <->
        blank "2024-03-15 10:30:00"
        \/ parsing_failed Sample.tzl "2024-03-15 10:30:00").
Proof.
  split; [|split].
  - apply (proj1 (instant_none_iff Sample.tzl "   " "UTC")).
    left. reflexivity.
  - apply (proj1 (proj2 (instant_none_iff Sample.tzl "yesterday" "UTC")
                    eq_refl)).
    right. exists ExValueError. reflexivity.
  - apply (proj2 (proj2 (instant_none_iff Sample.tzl "2024-03-15 10:30:00"
                           "UTC") eq_refl)).
Defined.

(** C8.  A timestamp that parses to a value without a timezone offset is
    anchored to UTC: the instant returned is the parsed reading with the
    zone UTC, whatever the local zone of the machine, and rendering it
    with the target "UTC" gives the date and time of the parsed reading,
    followed by " UTC+0000". *)
Theorem naive_timestamp_is_utc tzl timestamp_str original_dt :
  dateutil_available tzl = true ->
  ~ blank timestamp_str ->
  date_parser_parse tzl timestamp_str = Returned original_dt ->
  Datetime.utcoffset original_dt = None ->
  Datetime.in_range (dt_wall original_dt) = true ->
  parse_and_convert_timezone tzl timestamp_str "UTC"
  = Returned (Some (Datetime.replace_tzinfo original_dt Datetime.UTC),
              Datetime.strftime_YmdHMS original_dt +:+ " UTC+0000").
Proof.
  intros Hd Hb Hparse Hnaive Hrange. unfold parse_and_convert_timezone.
  rewrite (guard_not_blank timestamp_str Hb), Hd. cbn [negb].
  unfold parse_to_utc. rewrite Hparse, Hnaive.
  unfold convert_block, resolve_target.
  replace (PyStr.startswith "UTC" "Etc/GMT") with false by reflexivity.
  rewrite andb_false_r. cbn [andb].
  replace (PyStr.eqb "UTC" "UTC") with true by reflexivity.
  unfold Datetime.astimezone.
  cbn [Datetime.utcoffset Datetime.replace_tzinfo dt_tzinfo dt_wall
       Datetime.UTC tz_utcoffset tz_fromutc dt_micro].
  rewrite Z.sub_0_r, Hrange, Z.add_0_r, Hrange.
  unfold Datetime.strftime_YmdHMS, Datetime.strftime_Z, Datetime.strftime_z,
         Datetime.utcoffset.
  cbn [dt_wall dt_tzinfo tz_tzname tz_utcoffset].
  reflexivity.
Qed.

Lemma naive_timestamp_is_utc_witness :
  parse_and_convert_timezone Sample.tzl "2024-03-15 10:30:00" "UTC"
  = Returned (Some (Datetime.replace_tzinfo
                      (mkDatetime 63846095400 0 None) Datetime.UTC),
              "2024-03-15 10:30:00" +:+ " UTC+0000").
Proof.
  apply (naive_timestamp_is_utc Sample.tzl "2024-03-15 10:30:00"
           (mkDatetime 63846095400 0 None)); try reflexivity.
  intros [H|H]; vm_compute in H; discriminate.
Defined.

(** C5.  The claim holds when both zone libraries could be imported
    ([instant_kept_when_names_bound]), but not in an installation without
    [pytz]: the first handler of the conversion block names
    [UnknownTimeZoneError], which is then unbound, so that an unknown
    zone ends in a [NameError] that leaves the function, and the instant
    parsed before is lost; the exception goes through the orchestrator,
    which has no handler for it. *)
Theorem instant_lost_without_pytz :
  (exists utc,
     parse_to_utc Sample.tzl_without_pytz "2024-03-15 10:30:00" = Returned utc
     /\ convert_block Sample.tzl_without_pytz utc "Marte/Olimpo"
        = Raised ExZoneInfoNotFoundError)
  /\ parse_and_convert_timezone Sample.tzl_without_pytz
       "2024-03-15 10:30:00" "Marte/Olimpo"
     = Raised (ExNameError "UnknownTimeZoneError")
  /\ parse_and_convert_timezone Sample.tzl
       "2024-03-15 10:30:00" "Marte/Olimpo"
     = Returned (Some (mkDatetime 63846095400 0 (Some Datetime.UTC)),
                 "Error TZ Interno").
Proof.
  split; [|split; reflexivity].
  eexists. split; reflexivity.
Qed.

(* ===================================================================== *)
(** ** The extraction adapter: validation and deduplication *)
(* ===================================================================== *)

Section ExtractionFacts.

Context (iplib : IpLib) (gen : GenLib).

Lemma loop_inv_init : loop_inv iplib gen [] loop_init.
Proof.
  split; [constructor|]. split.
  - intros p. cbn. set_solver.
  - intros p. cbn. split; [intros H; inversion H|].
    intros (item & H & _). inversion H.
Qed.

(** An element that adds nothing leaves the invariant, when its pair is
    not a new valid one. *)
Lemma loop_inv_same processed st st' item :
  validated_data st' = validated_data st ->
  seen_pairs st' = seen_pairs st ->
  (forall p, cleaned_pair gen item = Some p ->
     is_valid_ip iplib p.1 = true -> p ∈ pair_of <$> validated_data st) ->
  loop_inv iplib gen processed st ->
  loop_inv iplib gen (processed ++ [item]) st'.
Proof.
  intros Hv Hs Hitem (Hnd & Hseen & Hmem). unfold loop_inv.
  rewrite Hv, Hs. split; [exact Hnd|]. split; [exact Hseen|].
  intros p. rewrite Hmem. split.
  - intros (it & Hin & Hc & Hval). exists it.
    split; [apply elem_of_app; left; exact Hin|tauto].
  - intros (it & Hin & Hc & Hval).
    apply elem_of_app in Hin as [Hin|Hin%list_elem_of_singleton].
    + exists it. tauto.
    + subst it. apply Hmem, Hitem; assumption.
Qed.

Lemma loop_inv_step processed st item :
  loop_inv iplib gen processed st ->
  loop_inv iplib gen (processed ++ [item]) (validate_item iplib gen st item).
Proof.
  intros Hinv. unfold validate_item.
  destruct (cleaned_pair gen item) as [[ip ts]|] eqn:Hc.
  2:{ apply (loop_inv_same processed st); try reflexivity; [|exact Hinv].
      intros p Hp. congruence. }
  destruct (is_valid_ip iplib ip) eqn:Hval; cbn [negb].
  2:{ apply (loop_inv_same processed st); try reflexivity; [|exact Hinv].
      intros p Hp Hv. rewrite Hc in Hp. injection Hp as <-.
      cbn in Hv. congruence. }
  destruct (bool_decide ((ip, ts) ∈ seen_pairs st)) eqn:Hseen.
  { apply bool_decide_eq_true in Hseen.
    apply (loop_inv_same processed st); try reflexivity; [|exact Hinv].
    intros p Hp _. rewrite Hc in Hp. injection Hp as <-.
    destruct Hinv as (_ & Hs & _). apply Hs, Hseen. }
  apply bool_decide_eq_false in Hseen.
  destruct Hinv as (Hnd & Hs & Hmem).
  assert (Hnew : (ip, ts) ∉ pair_of <$> validated_data st).
  { intros H. apply Hseen, Hs, H. }
  unfold loop_inv. cbn [validated_data seen_pairs].
  rewrite fmap_app. cbn [fmap list_fmap pair_of ip_address timestamp_str].
  split; [|split].
  - apply NoDup_app. split; [exact Hnd|]. split; [|apply NoDup_singleton].
    intros p Hp Hp'%list_elem_of_singleton. subst p. exact (Hnew Hp).
  - intros p. rewrite elem_of_union, elem_of_singleton, elem_of_app,
      list_elem_of_singleton, Hs. tauto.
  - intros p. rewrite elem_of_app, list_elem_of_singleton, Hmem. split.
    + intros [(it & Hin & Hit)| ->].
      * exists it. split; [apply elem_of_app; left; exact Hin|exact Hit].
      * exists item. split; [apply elem_of_app; right; constructor|].
        split; [exact Hc|exact Hval].
    + intros (it & Hin & Hcp & Hv).
      apply elem_of_app in Hin as [Hin|Hin%list_elem_of_singleton].
      * left. exists it. tauto.
      * subst it. right. unfold pair_of. cbn. congruence.
Qed.

Lemma loop_inv_fold items : forall processed st,
  loop_inv iplib gen processed st ->
  loop_inv iplib gen (processed ++ items)
    (fold_left (validate_item iplib gen) items st).
Proof.
  induction items as [|item items IH]; intros processed st Hinv.
  - rewrite app_nil_r. exact Hinv.
  - cbn [fold_left].
    replace (processed ++ item :: items)
      with ((processed ++ [item]) ++ items)
      by (rewrite <- app_assoc; reflexivity).
    apply IH, loop_inv_step, Hinv.
Qed.

Lemma validate_items_inv items :
  loop_inv iplib gen items (validate_items iplib gen items).
Proof. apply (loop_inv_fold items [] loop_init), loop_inv_init. Qed.

(** What the adapter returns, when it returns a list, is the outcome of
    the validation loop on some decoded array. *)
Lemma extract_is_validated text key cands :
  extract_ip_data_with_gemini iplib gen text key = Some cands ->
  exists items, cands = validated_data (validate_items iplib gen items).
Proof.
  unfold extract_ip_data_with_gemini.
  destruct (PyStr.is_empty key); [discriminate|].
  destruct (generate_content gen key text) as [| | |response];
    try discriminate.
  destruct (raw_text_of response) as [raw|]; [|discriminate].
  destruct (PyStr.is_empty raw); [discriminate|].
  destruct (negb _); [discriminate|].
  destruct (json_loads gen (strip_fences raw)) as [[| | | | |items|]|];
    try discriminate.
  intros [= <-]. exists items. reflexivity.
Qed.

End ExtractionFacts.

(* ===================================================================== *)
(** ** The orchestrator: [process_ip_analysis] *)
(* ===================================================================== *)

Section OrchestratorFacts.

Context (iplib : IpLib) (net : NetLib) (gen : GenLib) (tzl : TzLib)
        (sys : SysLib).

Lemma report_progress_counts q step perc st :
  sleep_count (trace (snd (report_progress q step perc st)))
  = sleep_count (trace st)
  /\ http_count (trace (snd (report_progress q step perc st)))
     = http_count (trace st).
Proof.
  unfold report_progress, St.emit, ret. destruct q; cbn [snd trace];
    [|tauto].
  rewrite sleep_count_app, http_count_app. cbn. lia.
Qed.

Lemma get_ip_info_counts ip token st :
  sleep_count (trace (snd (get_ip_info iplib net ip token st)))
  = sleep_count (trace st)
  /\ (http_count (trace (snd (get_ip_info iplib net ip token st)))
      <= S (http_count (trace st)))%nat.
Proof.
  destruct (cache st !! ip) as [l|] eqn:E.
  - rewrite (get_ip_info_hit _ _ _ _ _ _ E). cbn [snd]. lia.
  - rewrite (get_ip_info_miss _ _ _ _ _ E).
    cbn [snd store_after_miss trace]. destruct (miss_requested _); [|lia].
    rewrite sleep_count_app, http_count_app. cbn. lia.
Qed.

(** The loop: rows, delays and requests. *)
Lemma process_items_spec q tz token total items : forall idx acc st,
  match process_items iplib net tzl sys q tz token total idx items acc st with
  | (Returned rs, st') =>
      row_pair <$> rs = (row_pair <$> acc) ++ (pair_of <$> items)
      /\ sleep_count (trace st')
         = (sleep_count (trace st) + length items)%nat
      /\ (http_count (trace st')
          <= http_count (trace st) + length items)%nat
  | (Raised _, st') =>
      (sleep_count (trace st) < sleep_count (trace st')
       <= sleep_count (trace st) + length items)%nat
  end.
Proof.
  induction items as [|item items IH]; intros idx acc st.
  - cbn. rewrite app_nil_r. split; [reflexivity|lia].
  - cbn [process_items]. unfold bind.
    pose proof (report_progress_counts q
      ("Procesando IP " +:+ pretty (S idx) +:+ "/" +:+ pretty total)
      (30 + prog_share sys idx total) st) as [Hs1 Hh1].
    destruct (report_progress q _ _ st) as [[] st1]. cbn [snd] in Hs1, Hh1.
    unfold St.emit at 1.
    set (st2 := mkStore (heap st1) (cache st1) (trace st1 ++ [EvSleep])
                  (token_ipinfo_missing_logged st1) (clock_reads st1)).
    assert (Hs2 : sleep_count (trace st2) = S (sleep_count (trace st))).
    { unfold st2. cbn [trace]. rewrite sleep_count_app. cbn. lia. }
    assert (Hh2 : http_count (trace st2) = http_count (trace st)).
    { unfold st2. cbn [trace]. rewrite http_count_app. cbn. lia. }
    pose proof (get_ip_info_counts (ip_address item) token st2) as [Hs3 Hh3].
    destruct (get_ip_info iplib net (ip_address item) token st2)
      as [info st3]. cbn [snd] in Hs3, Hh3.
    destruct (parse_and_convert_timezone tzl (timestamp_str item) tz)
      as [[orig conv]|e].
    + specialize (IH (S idx)
        (acc ++ [mkResult (ip_address item) (timestamp_str item) orig
                   match orig with
                   | Some dt => Datetime.strftime_YmdHMS dt +:+ " UTC"
                   | None => "N/A"
                   end conv info]) st3).
      destruct (process_items _ _ _ _ _ _ _ _ _ _ _ _) as [[rs|e] st'].
      * destruct IH as (Hrows & Hs & Hh). cbn [length]. split; [|lia].
        rewrite Hrows, fmap_app, <- app_assoc. reflexivity.
      * cbn [length]. lia.
    + unfold ret. cbn [length]. lia.
Qed.

Lemma report_progress_trace q step perc st :
  exists progress,
    trace (snd (report_progress q step perc st)) = trace st ++ progress
    /\ Forall (fun e => is_progress e = true) progress.
Proof.
  unfold report_progress, St.emit, ret. destruct q; cbn [snd trace].
  - eexists. split; [reflexivity|]. repeat constructor.
  - exists []. rewrite app_nil_r. split; [reflexivity|constructor].
Qed.

Lemma get_ip_info_trace ip token st :
  exists requests,
    trace (snd (get_ip_info iplib net ip token st)) = trace st ++ requests
    /\ (requests = [] \/ requests = [EvHttpGet (IPINFO_URL ip token)]).
Proof.
  destruct (cache st !! ip) as [l|] eqn:E.
  - rewrite (get_ip_info_hit _ _ _ _ _ _ E). exists [].
    rewrite app_nil_r. tauto.
  - rewrite (get_ip_info_miss _ _ _ _ _ E).
    cbn [snd store_after_miss trace]. destruct (miss_requested _).
    + eexists. split; [reflexivity|tauto].
    + exists []. rewrite app_nil_r. tauto.
Qed.

(** The trace of the loop, turn by turn: in the turn of every candidate
    reached, the delay stands before the request of its lookup. *)
Lemma process_items_turns q tz token total items : forall idx acc st,
  match process_items iplib net tzl sys q tz token total idx items acc st with
  | (Returned _, st') =>
      exists turns,
        trace st' = trace st ++ concat turns
        /\ Forall2 (turn_events token) items turns
  | (Raised _, st') =>
      exists n turns,
        (0 < n <= length items)%nat
        /\ trace st' = trace st ++ concat turns
        /\ Forall2 (turn_events token) (take n items) turns
  end.
Proof.
  induction items as [|item items IH]; intros idx acc st.
  - cbn. exists []. cbn. rewrite app_nil_r. split; [reflexivity|constructor].
  - cbn [process_items]. unfold bind.
    destruct (report_progress_trace q
      ("Procesando IP " +:+ pretty (S idx) +:+ "/" +:+ pretty total)
      (30 + prog_share sys idx total) st) as (progress & Hp & Hprog).
    destruct (report_progress q _ _ st) as [[] st1]. cbn [snd] in Hp.
    unfold St.emit at 1.
    set (st2 := mkStore (heap st1) (cache st1) (trace st1 ++ [EvSleep])
                  (token_ipinfo_missing_logged st1) (clock_reads st1)).
    destruct (get_ip_info_trace (ip_address item) token st2)
      as (requests & Hr & Hreq).
    destruct (get_ip_info iplib net (ip_address item) token st2)
      as [info st3]. cbn [snd] in Hr.
    assert (Hturn : turn_events token item
                      (progress ++ [EvSleep] ++ requests)).
    { exists progress, requests. split; [reflexivity|]. split; assumption. }
    assert (Htr : trace st3 = trace st ++ (progress ++ [EvSleep] ++ requests)).
    { rewrite Hr. unfold st2. cbn [trace]. rewrite Hp.
      rewrite <- !app_assoc. reflexivity. }
    destruct (parse_and_convert_timezone tzl (timestamp_str item) tz)
      as [[orig conv]|e].
    + specialize (IH (S idx)
        (acc ++ [mkResult (ip_address item) (timestamp_str item) orig
                   match orig with
                   | Some dt => Datetime.strftime_YmdHMS dt +:+ " UTC"
                   | None => "N/A"
                   end conv info]) st3).
      destruct (process_items _ _ _ _ _ _ _ _ _ _ _ _) as [[rs|e] st'].
      * destruct IH as (turns & Ht & Hf).
        exists ((progress ++ [EvSleep] ++ requests) :: turns).
        split; [|constructor; assumption].
        cbn [concat]. rewrite Ht, Htr, <- app_assoc. reflexivity.
      * destruct IH as (n & turns & Hn & Ht & Hf).
        exists (S n), ((progress ++ [EvSleep] ++ requests) :: turns).
        split; [cbn [length]; lia|].
        split; [|cbn [take]; constructor; assumption].
        cbn [concat]. rewrite Ht, Htr, <- app_assoc. reflexivity.
    + unfold ret. exists 1%nat, [progress ++ [EvSleep] ++ requests].
      split; [cbn [length]; lia|].
      split; [cbn [concat]; rewrite app_nil_r; exact Htr|].
      cbn [take]. constructor; [exact Hturn|]. rewrite take_0. constructor.
Qed.

Lemma report_progress_store q step perc st :
  heap (snd (report_progress q step perc st)) = heap st
  /\ cache (snd (report_progress q step perc st)) = cache st.
Proof. unfold report_progress, St.emit, ret. destruct q; split; reflexivity. Qed.

(** The loop neither drops nor changes a record that the cache holds: the
    rows built earlier keep pointing at the same content. *)
Lemma process_items_preserves q tz token total items :
  forall idx acc st ip' l' r',
  cache st !! ip' = Some l' -> heap st !! l' = Some r' ->
  let st' := snd (process_items iplib net tzl sys q tz token total idx items
                    acc st) in
  cache st' !! ip' = Some l' /\ heap st' !! l' = Some r'.
Proof.
  induction items as [|item items IH]; intros idx acc st ip' l' r' Hc Hh.
  - split; assumption.
  - cbn [process_items]. unfold bind.
    pose proof (report_progress_store q
      ("Procesando IP " +:+ pretty (S idx) +:+ "/" +:+ pretty total)
      (30 + prog_share sys idx total) st) as [Hh1 Hc1].
    destruct (report_progress q _ _ st) as [[] st1]. cbn [snd] in Hh1, Hc1.
    unfold St.emit.
    set (st2 := mkStore (heap st1) (cache st1) (trace st1 ++ [EvSleep])
                  (token_ipinfo_missing_logged st1) (clock_reads st1)).
    assert (Hc2 : cache st2 !! ip' = Some l') by (cbn; rewrite Hc1; exact Hc).
    assert (Hh2 : heap st2 !! l' = Some r') by (cbn; rewrite Hh1; exact Hh).
    pose proof (get_ip_info_preserves iplib net (ip_address item) token st2
                  ip' l' r' Hc2 Hh2) as [Hc3 Hh3].
    destruct (get_ip_info iplib net (ip_address item) token st2)
      as [info st3]. cbn [snd] in Hc3, Hh3.
    destruct (parse_and_convert_timezone tzl (timestamp_str item) tz)
      as [[orig conv]|e].
    + apply IH; assumption.
    + split; assumption.
Qed.

(** With both exception names bound, the loop comes to its end. *)
Lemma process_items_returns q tz token total items : forall idx acc st,
  zoneinfo_names_bound tzl = true -> pytz_names_bound tzl = true ->
  exists rs,
    fst (process_items iplib net tzl sys q tz token total idx items acc st)
    = Returned rs.
Proof.
  induction items as [|item items IH]; intros idx acc st Hz Hp.
  - eexists. reflexivity.
  - cbn [process_items]. unfold bind.
    destruct (report_progress q _ _ st) as [[] st1].
    destruct (St.emit EvSleep st1) as [[] st2].
    destruct (get_ip_info iplib net (ip_address item) token st2)
      as [info st3].
    destruct (normalizer_returns tzl (timestamp_str item) tz Hz Hp)
      as [[orig conv] ->].
    apply IH; assumption.
Qed.

Lemma leave_fst q step r st : fst (leave sys q step r st) = r.
Proof.
  unfold leave, bind, ret, finally.
  destruct (report_progress q step 100 st) as [[] st1].
  destruct (St.now (clock sys) st1) as [t st2]. reflexivity.
Qed.

(** A run that ends with the dictionary went through the reader, the
    adapter and the loop. *)
Lemma run_report_inv path tz key token q hash version st rs md :
  fst (process_ip_analysis iplib net gen tzl sys path tz key token q hash
         version st) = RunReport rs md ->
  exists text cands st0 st1,
    read_input_file sys path = Some text
    /\ extract_ip_data_with_gemini iplib gen text (default "" key)
       = Some cands
    /\ process_items iplib net tzl sys q tz (default "" token)
         (length cands) 0 cands [] st0 = (Returned rs, st1).
Proof.
  unfold process_ip_analysis, bind.
  destruct (St.now (clock sys) st) as [start st1].
  destruct (report_progress q "Inicio" 0 st1) as [[] st2].
  destruct (missing key); [rewrite leave_fst; discriminate|].
  destruct (missing token); [rewrite leave_fst; discriminate|].
  destruct (negb _); [rewrite leave_fst; discriminate|].
  destruct (report_progress q "Lectura" 5 st2) as [[] st3].
  destruct (read_input_file sys path) as [text|];
    [|rewrite leave_fst; discriminate].
  destruct (PyStr.is_empty _); [rewrite leave_fst; discriminate|].
  destruct (report_progress q "Extracción IA" 15 st3) as [[] st4].
  destruct (extract_ip_data_with_gemini iplib gen text (default "" key))
    as [[|c cands]|] eqn:Hex; try (rewrite leave_fst; discriminate).
  destruct (report_progress q "Procesando IPs" 30 st4) as [[] st5].
  destruct (St.cache_new st5) as [[] st6].
  destruct (process_items _ _ _ _ _ _ _ _ _ _ _ _) as [[results|e] st7] eqn:Hloop.
  - destruct (finally sys q (Some results) st7) as [[] st8].
    destruct (St.now (clock sys) st8) as [t st9]. cbn [fst ret].
    intros [= <- <-]. exists text, (c :: cands), st6, st7.
    split; [reflexivity|]. split; [exact Hex|exact Hloop].
  - destruct (finally sys q None st7) as [[] st8]. cbn. discriminate.
Qed.

(** A blank file ends the run with the bare empty list. *)
Lemma blank_file_bare_list path tz key token q hash version st text :
  missing key = false -> missing token = false ->
  is_file sys path = true ->
  read_input_file sys path = Some text ->
  PyStr.strip text = "" ->
  fst (process_ip_analysis iplib net gen tzl sys path tz key token q hash
         version st) = RunList [].
Proof.
  intros Hk Ht Hf Hr Hs. unfold process_ip_analysis, bind.
  destruct (St.now (clock sys) st) as [start st1].
  destruct (report_progress q "Inicio" 0 st1) as [[] st2].
  rewrite Hk, Ht, Hf. cbn [negb].
  destruct (report_progress q "Lectura" 5 st2) as [[] st3].
  rewrite Hr, Hs. cbn [PyStr.is_empty]. apply leave_fst.
Qed.

(** So does an extraction that yields no candidate. *)
Lemma no_candidate_bare_list path tz key token q hash version st text :
  missing key = false -> missing token = false ->
  is_file sys path = true ->
  read_input_file sys path = Some text ->
  PyStr.strip text <> "" ->
  extract_ip_data_with_gemini iplib gen text (default "" key) = Some [] ->
  fst (process_ip_analysis iplib net gen tzl sys path tz key token q hash
         version st) = RunList [].
Proof.
  intros Hk Ht Hf Hr Hs He. unfold process_ip_analysis, bind.
  destruct (St.now (clock sys) st) as [start st1].
  destruct (report_progress q "Inicio" 0 st1) as [[] st2].
  rewrite Hk, Ht, Hf. cbn [negb].
  destruct (report_progress q "Lectura" 5 st2) as [[] st3].
  rewrite Hr. destruct (PyStr.strip text); [congruence|].
  cbn [PyStr.is_empty].
  destruct (report_progress q "Extracción IA" 15 st3) as [[] st4].
  rewrite He. apply leave_fst.
Qed.

End OrchestratorFacts.

(** C1.  With both credentials and an existing file, an empty file makes
    [process_ip_analysis] return the bare list of its early [return []]:
    not [None], but not the dictionary with the results and the run
    metadata either, which only the end of the function builds.  The same
    happens when the extraction yields no candidate
    ([blank_file_bare_list], [no_candidate_bare_list] for every
    environment). *)
Theorem empty_file_returns_bare_list :
  fst (process_ip_analysis Sample.iplib Sample.net Sample.gen Sample.tzl
         (Sample.sys "") "evidence.txt" "UTC" (Some "key") (Some "token")
         true (Some "sha256") (Some "1.0") St.empty)
  = RunList []
  /\ fst (process_ip_analysis Sample.iplib Sample.net Sample.gen_nothing
            Sample.tzl (Sample.sys "no address here") "evidence.txt" "UTC"
            (Some "key") (Some "token") true (Some "sha256") (Some "1.0")
            St.empty)
     = RunList []
  /\ (forall md,
        fst (process_ip_analysis Sample.iplib Sample.net Sample.gen Sample.tzl
               (Sample.sys "") "evidence.txt" "UTC" (Some "key")
               (Some "token") true (Some "sha256") (Some "1.0") St.empty)
        <> RunReport [] md).
Proof.
  split; [|split].
  - apply blank_file_bare_list with (text := ""); reflexivity.
  - apply no_candidate_bare_list with (text := "no address here");
      try reflexivity. discriminate.
  - intros md.
    rewrite (blank_file_bare_list Sample.iplib Sample.net Sample.gen
               Sample.tzl (Sample.sys "") "evidence.txt" "UTC" (Some "key")
               (Some "token") true (Some "sha256") (Some "1.0") St.empty "");
      try reflexivity.
    discriminate.
Qed.

(** C3, as the claim states it, fails: the delay comes before every
    lookup.  A single candidate with a private address is answered
    without any request, and the trace still holds one delay; two
    candidates with the same public address send one request and are
    delayed twice. *)
Lemma delay_without_request :
  (let st' := snd (process_items Sample.iplib Sample.net Sample.tzl
                     (Sample.sys "") true "UTC" "token" 1 0
                     [mkCandidate "192.168.1.1" ""] [] St.empty) in
   http_count (trace st') = 0%nat /\ sleep_count (trace st') = 1%nat)
  /\ (let st' := snd (process_items Sample.iplib Sample.net Sample.tzl
                        (Sample.sys "") true "UTC" "token" 2 0
                        [mkCandidate "8.8.8.8" "2024-03-15 10:30:00";
                         mkCandidate "8.8.8.8" "2024-03-15 10:31:00"]
                        [] St.empty) in
      http_count (trace st') = 1%nat /\ sleep_count (trace st') = 2%nat).
Proof. vm_compute. repeat split. Qed.

(** C3, amended.  The loop of the orchestrator applies the fixed delay
    once for every candidate, before the lookup of its IP, whether the
    lookup then sends a request, finds the IP in the cache or classifies
    it by its range.  The events that the loop adds to the trace are, turn
    by turn and in the order of the candidates, the progress messages of
    the candidate, then the delay, then the request for its IP if the
    lookup sends one: so the delay of a candidate stands before its
    request, and when the loop returns the trace holds as many new delays
    as there are candidates and at most as many new requests.  When the
    loop is left by an exception, the same holds of the candidates
    reached. *)
Theorem delay_for_every_candidate iplib net tzl sys q tz token total idx
    items acc st :
  match process_items iplib net tzl sys q tz token total idx items acc st with
  | (Returned rs, st') =>
      (exists turns,
         trace st' = trace st ++ concat turns
         /\ Forall2 (turn_events token) items turns)
      /\ sleep_count (trace st') = (sleep_count (trace st) + length items)%nat
      /\ (http_count (trace st') <= http_count (trace st) + length items)%nat
  | (Raised _, st') =>
      (exists n turns,
         (0 < n <= length items)%nat
         /\ trace st' = trace st ++ concat turns
         /\ Forall2 (turn_events token) (take n items) turns)
      /\ (sleep_count (trace st) < sleep_count (trace st')
          <= sleep_count (trace st) + length items)%nat
  end.
Proof.
  pose proof (process_items_spec iplib net tzl sys q tz token total items
                idx acc st) as H.
  pose proof (process_items_turns iplib net tzl sys q tz token total items
                idx acc st) as Ht.
  destruct (process_items _ _ _ _ _ _ _ _ _ _ _ _) as [[rs|e] st'].
  - split; [exact Ht|tauto].
  - split; [exact Ht|exact H].
Qed.

(** C6.  The candidates that the validation loop keeps are pairwise
    distinct as (cleaned IP, cleaned timestamp) pairs, and a pair is among
    them exactly when it is the cleaned pair of some well-shaped element
    with a valid IP: two elements with the same cleaned pair give one
    candidate, the same IP with two different timestamps gives two.  The
    result list of a run that ends with its report has one row for each
    candidate of the adapter, in the same order, so its (IP, timestamp)
    pairs are pairwise distinct as well. *)
Theorem candidates_deduplicated iplib gen :
  (forall items,
     let out := pair_of <$> validated_data (validate_items iplib gen items) in
     NoDup out
     /\ forall ip ts,
          (ip, ts) ∈ out <->
          exists item, item ∈ items /\ cleaned_pair gen item = Some (ip, ts)
                       /\ is_valid_ip iplib ip = true)
  /\ (forall net tzl sys path tz key token q hash version st rs md,
        fst (process_ip_analysis iplib net gen tzl sys path tz key token q
               hash version st) = RunReport rs md ->
        exists text cands,
          read_input_file sys path = Some text
          /\ extract_ip_data_with_gemini iplib gen text (default "" key)
             = Some cands
          /\ row_pair <$> rs = pair_of <$> cands
          /\ NoDup (row_pair <$> rs)).
Proof.
  split.
  - intros items out.
    destruct (validate_items_inv iplib gen items) as (Hnd & _ & Hmem).
    split; [exact Hnd|]. intros ip ts. apply (Hmem (ip, ts)).
  - intros net tzl sys path tz key token q hash version st rs md Hrun.
    apply run_report_inv in Hrun
      as (text & cands & st0 & st1 & Hread & Hex & Hloop).
    exists text, cands. split; [exact Hread|]. split; [exact Hex|].
    pose proof (process_items_spec iplib net tzl sys q tz (default "" token)
                  (length cands) cands 0 [] st0) as Hspec.
    rewrite Hloop in Hspec. destruct Hspec as (Hrows & _).
    cbn in Hrows. split; [exact Hrows|]. rewrite Hrows.
    apply extract_is_validated in Hex as [items ->].
    apply (validate_items_inv iplib gen items).
Qed.

Lemma candidates_deduplicated_witness :
  exists rs md,
    fst (process_ip_analysis Sample.iplib Sample.net Sample.gen Sample.tzl
           (Sample.sys "log text") "evidence.txt" "UTC" (Some "key")
           (Some "token") true (Some "sha256") (Some "1.0") St.empty)
    = RunReport rs md
    /\ row_pair <$> rs
       = [("8.8.8.8", "2024-03-15 10:30:00 UTC"); ("192.168.1.1", "")]
    /\ NoDup (row_pair <$> rs).
Proof.
  assert (H : exists rs md,
    fst (process_ip_analysis Sample.iplib Sample.net Sample.gen Sample.tzl
           (Sample.sys "log text") "evidence.txt" "UTC" (Some "key")
           (Some "token") true (Some "sha256") (Some "1.0") St.empty)
    = RunReport rs md) by (vm_compute; eauto).
  destruct H as (rs & md & H). exists rs, md.
  destruct (proj2 (candidates_deduplicated Sample.iplib Sample.gen)
              Sample.net Sample.tzl (Sample.sys "log text") "evidence.txt"
              "UTC" (Some "key") (Some "token") true (Some "sha256")
              (Some "1.0") St.empty rs md H)
    as (text & cands & _ & _ & _ & Hnd).
  split; [exact H|]. split; [|exact Hnd].
  clear Hnd. vm_compute in H. injection H as <- <-. reflexivity.
Defined.

(* ===================================================================== *)
(** ** Further properties of the adapter *)
(* ===================================================================== *)

Section ExtractionOrder.

Context (iplib : IpLib) (gen : GenLib).

Lemma validate_item_valid st item p :
  valid_pair iplib gen item = Some p ->
  validate_item iplib gen st item
  = if bool_decide (p ∈ seen_pairs st) then st
    else mkLoop (validated_data st ++ [mkCandidate p.1 p.2])
                (invalid_items_count st) ({[ p ]} ∪ seen_pairs st).
Proof.
  unfold valid_pair, validate_item.
  destruct (cleaned_pair gen item) as [[ip ts]|]; [|discriminate].
  cbn [fst]. destruct (is_valid_ip iplib ip); [|discriminate].
  intros [= <-]. reflexivity.
Qed.

Lemma validate_item_skipped st item :
  valid_pair iplib gen item = None ->
  validate_item iplib gen st item = skip_invalid st.
Proof.
  unfold valid_pair, validate_item.
  destruct (cleaned_pair gen item) as [[ip ts]|]; [|reflexivity].
  cbn [fst]. destruct (is_valid_ip iplib ip); [discriminate|reflexivity].
Qed.

Lemma validate_fold_order items : forall st seen,
  (forall p, p ∈ seen_pairs st <-> p ∈ seen) ->
  pair_of <$> validated_data (fold_left (validate_item iplib gen) items st)
  = (pair_of <$> validated_data st)
      ++ first_occurrences seen (omap (valid_pair iplib gen) items).
Proof.
  induction items as [|item items IH]; intros st seen Hseen.
  - cbn. rewrite app_nil_r. reflexivity.
  - cbn [fold_left omap list_omap].
    destruct (valid_pair iplib gen item) as [p|] eqn:Hp.
    + rewrite (validate_item_valid st item p Hp). cbn [first_occurrences].
      destruct (bool_decide (p ∈ seen_pairs st)) eqn:Hin.
      * apply bool_decide_eq_true in Hin.
        rewrite (bool_decide_eq_true_2 (p ∈ seen)) by (apply Hseen, Hin).
        apply IH, Hseen.
      * apply bool_decide_eq_false in Hin.
        rewrite (bool_decide_eq_false_2 (p ∈ seen))
          by (intros H; apply Hin, Hseen, H).
        rewrite (IH _ (p :: seen)).
        -- cbn [validated_data]. rewrite fmap_app, <- app_assoc.
           destruct p as [ip ts]. reflexivity.
        -- intros q. cbn [seen_pairs].
           rewrite elem_of_union, elem_of_singleton, elem_of_cons, Hseen.
           tauto.
    + rewrite (validate_item_skipped st item Hp).
      apply (IH (skip_invalid st) seen), Hseen.
Qed.

End ExtractionOrder.

(** X1.  The validation loop keeps the evidence in the order of the
    decoded array: its candidates are the cleaned pairs of the elements
    that are well shaped and have a valid IP, each at its first
    occurrence. *)
Theorem extraction_keeps_first_occurrences iplib gen items :
  pair_of <$> validated_data (validate_items iplib gen items)
  = first_occurrences [] (omap (valid_pair iplib gen) items).
Proof.
  unfold validate_items.
  rewrite (validate_fold_order iplib gen items loop_init []).
  - reflexivity.
  - intros p. cbn. set_solver.
Qed.

(* ===================================================================== *)
(** ** Further properties of the orchestrator *)
(* ===================================================================== *)

Section RunFacts.

Context (iplib : IpLib) (net : NetLib) (gen : GenLib) (tzl : TzLib)
        (sys : SysLib).

(** What a [return] from inside the [try] does to the store. *)
Lemma leave_store q step r st :
  leave sys q step r st
  = (r, mkStore (heap st) (cache st)
          (trace st ++ (if q then [EvProgress step 100] else []))
          (token_ipinfo_missing_logged st) (S (clock_reads st))).
Proof.
  unfold leave, bind, ret, finally, report_progress, St.emit, St.now.
  destruct q; cbn; [reflexivity|]. rewrite app_nil_r. reflexivity.
Qed.

End RunFacts.



Section Reachability.

Context (iplib : IpLib) (net : NetLib) (gen : GenLib) (tzl : TzLib)
        (sys : SysLib).

Abbreviation steps := (rtc (store_step iplib net sys)).

Lemma step_report q step perc st :
  steps st (snd (report_progress q step perc st)).
Proof. apply rtc_once. left. eauto. Qed.

Lemma step_now st : steps st (snd (St.now (clock sys) st)).
Proof. apply rtc_once. right. right. left. reflexivity. Qed.

Lemma step_leave q step r st : steps st (snd (leave sys q step r st)).
Proof. rewrite leave_store. cbn [snd].
  eapply rtc_trans; [apply (step_report q step 100 st)|].
  eapply rtc_trans; [apply step_now|].
  unfold report_progress, St.emit, St.now, ret.
  destruct q; cbn; [apply rtc_refl|]. rewrite app_nil_r. apply rtc_refl.
Qed.

Lemma step_finally q results st : steps st (snd (finally sys q results st)).
Proof.
  unfold finally, bind, ret.
  pose proof (step_now st) as H1.
  destruct (St.now (clock sys) st) as [t st1]. cbn [snd] in H1.
  destruct results; [|exact H1].
  eapply rtc_trans; [exact H1|apply step_report].
Qed.

Lemma step_process_items q tz token total items : forall idx acc st,
  steps st (snd (process_items iplib net tzl sys q tz token total idx items
                   acc st)).
Proof.
  induction items as [|item items IH]; intros idx acc st.
  - apply rtc_refl.
  - cbn [process_items]. unfold bind.
    pose proof (step_report q
      ("Procesando IP " +:+ pretty (S idx) +:+ "/" +:+ pretty total)
      (30 + prog_share sys idx total) st) as H1.
    destruct (report_progress q _ _ st) as [[] st1]. cbn [snd] in H1.
    assert (H2 : steps st1 (snd (St.emit EvSleep st1))).
    { apply rtc_once. right. left. reflexivity. }
    destruct (St.emit EvSleep st1) as [[] st2]. cbn [snd] in H2.
    assert (H3 : steps st2
                   (snd (get_ip_info iplib net (ip_address item) token st2))).
    { apply rtc_once. do 4 right. eauto. }
    destruct (get_ip_info iplib net (ip_address item) token st2)
      as [info st3]. cbn [snd] in H3.
    destruct (parse_and_convert_timezone tzl (timestamp_str item) tz)
      as [[orig conv]|e].
    + eapply rtc_trans; [exact H1|]. eapply rtc_trans; [exact H2|]. eapply rtc_trans; [exact H3|].
      apply IH.
    + cbn [snd ret]. eapply rtc_trans; [exact H1|]. eapply rtc_trans; [exact H2|exact H3].
Qed.

(** The store at the end of a run is reached from the initial one by the
    primitive effects. *)
Lemma step_run path tz key token q hash version st :
  steps st (snd (process_ip_analysis iplib net gen tzl sys path tz key token
                   q hash version st)).
Proof.
  unfold process_ip_analysis, bind.
  pose proof (step_now st) as H1.
  destruct (St.now (clock sys) st) as [start st1]. cbn [snd] in H1.
  pose proof (step_report q "Inicio" 0 st1) as H2.
  destruct (report_progress q "Inicio" 0 st1) as [[] st2]. cbn [snd] in H2.
  eapply rtc_trans; [exact H1|]. eapply rtc_trans; [exact H2|]. clear H1 H2 st st1.
  destruct (missing key); [apply step_leave|].
  destruct (missing token); [apply step_leave|].
  destruct (negb _); [apply step_leave|].
  pose proof (step_report q "Lectura" 5 st2) as H3.
  destruct (report_progress q "Lectura" 5 st2) as [[] st3]. cbn [snd] in H3.
  eapply rtc_trans; [exact H3|]. clear H3 st2.
  destruct (read_input_file sys path) as [text|]; [|apply step_leave].
  destruct (PyStr.is_empty _); [apply step_leave|].
  pose proof (step_report q "Extracción IA" 15 st3) as H4.
  destruct (report_progress q "Extracción IA" 15 st3) as [[] st4].
  cbn [snd] in H4. eapply rtc_trans; [exact H4|]. clear H4 st3.
  destruct (extract_ip_data_with_gemini iplib gen text (default "" key))
    as [[|c cands]|]; try apply step_leave.
  pose proof (step_report q "Procesando IPs" 30 st4) as H5.
  destruct (report_progress q "Procesando IPs" 30 st4) as [[] st5].
  cbn [snd] in H5. eapply rtc_trans; [exact H5|]. clear H5 st4.
  assert (H6 : steps st5 (snd (St.cache_new st5))).
  { apply rtc_once. do 3 right. left. reflexivity. }
  destruct (St.cache_new st5) as [[] st6]. cbn [snd] in H6.
  eapply rtc_trans; [exact H6|]. clear H6 st5.
  pose proof (step_process_items q tz (default "" token)
                (length (c :: cands)) (c :: cands) 0 [] st6) as H7.
  destruct (process_items _ _ _ _ _ _ _ _ _ _ _ _) as [[results|e] st7].
  - cbn [snd] in H7. eapply rtc_trans; [exact H7|].
    pose proof (step_finally q (Some results) st7) as H8.
    destruct (finally sys q (Some results) st7) as [[] st8]. cbn [snd] in H8.
    eapply rtc_trans; [exact H8|].
    pose proof (step_now st8) as H9.
    destruct (St.now (clock sys) st8) as [t st9]. exact H9.
  - cbn [snd] in H7. eapply rtc_trans; [exact H7|].
    pose proof (step_finally q None st7) as H8.
    destruct (finally sys q None st7) as [[] st8]. exact H8.
Qed.

(** What one effect can do to the trace and to the heap. *)
Lemma store_step_progress st st' :
  store_step iplib net sys st st' ->
  Forall progress_ok (trace st) -> Forall progress_ok (trace st').
Proof.
  intros [(q & step & perc & ->)|[->|[->|[->|(ip & token & ->)]]]] H.
  - unfold report_progress, St.emit, ret. destruct q; cbn; [|exact H].
    apply Forall_app. split; [exact H|]. constructor; [|constructor].
    cbn. lia.
  - cbn. apply Forall_app. split; [exact H|]. repeat constructor.
  - exact H.
  - exact H.
  - destruct (cache st !! ip) as [l|] eqn:E.
    + rewrite (get_ip_info_hit _ _ _ _ _ _ E). exact H.
    + rewrite (get_ip_info_miss _ _ _ _ _ E). cbn [snd store_after_miss trace].
      destruct (miss_requested _); [|exact H].
      apply Forall_app. split; [exact H|]. repeat constructor.
Qed.

Lemma store_step_heap st st' l r :
  store_step iplib net sys st st' ->
  heap st !! l = Some r -> heap st' !! l = Some r.
Proof.
  intros [(q & step & perc & ->)|[->|[->|[->|(ip & token & ->)]]]] H;
    try exact H.
  - unfold report_progress, St.emit, ret. destruct q; exact H.
  - destruct (cache st !! ip) as [l0|] eqn:E.
    + rewrite (get_ip_info_hit _ _ _ _ _ _ E). exact H.
    + rewrite (get_ip_info_miss _ _ _ _ _ E). cbn [snd].
      apply store_after_miss_old, H.
Qed.

Lemma steps_progress st st' :
  steps st st' ->
  Forall progress_ok (trace st) -> Forall progress_ok (trace st').
Proof.
  induction 1 as [|x y z Hxy _ IH]; [tauto|].
  intros H. apply IH. eapply store_step_progress; eassumption.
Qed.

Lemma steps_heap st st' l r :
  steps st st' -> heap st !! l = Some r -> heap st' !! l = Some r.
Proof.
  induction 1 as [|x y z Hxy _ IH]; [tauto|].
  intros H. apply IH. eapply store_step_heap; eassumption.
Qed.

End Reachability.

(** X3.  Every progress message of a run carries a percentage between 0
    and 100, whatever the progress computation of the loop yields. *)
Theorem progress_within_bounds iplib net gen tzl sys path tz key token q
    hash version st :
  Forall progress_ok (trace st) ->
  Forall progress_ok
    (trace (snd (process_ip_analysis iplib net gen tzl sys path tz key token
                   q hash version st))).
Proof.
  apply (steps_progress iplib net sys), step_run.
Qed.

Lemma progress_within_bounds_witness :
  Forall progress_ok
    (trace (snd (process_ip_analysis Sample.iplib Sample.net Sample.gen
                   Sample.tzl (Sample.sys "log text") "evidence.txt" "UTC"
                   (Some "key") (Some "token") true None None St.empty))).
Proof.
  apply (progress_within_bounds Sample.iplib Sample.net Sample.gen
           Sample.tzl (Sample.sys "log text") "evidence.txt" "UTC"
           (Some "key") (Some "token") true None None St.empty).
  constructor.
Defined.

(** X4.  Nothing in a run changes or removes a dictionary once it is
    allocated: a record that exists before the run, or at any point of
    it, is found unchanged under the same reference at the end, whether
    the run returns or raises. *)
Theorem run_never_mutates_records iplib net gen tzl sys path tz key token q
    hash version st l r :
  heap st !! l = Some r ->
  heap (snd (process_ip_analysis iplib net gen tzl sys path tz key token q
               hash version st)) !! l = Some r.
Proof.
  apply (steps_heap iplib net sys), step_run.
Qed.

Lemma run_never_mutates_records_witness :
  heap (snd (process_ip_analysis Sample.iplib Sample.net Sample.gen
               Sample.tzl (Sample.sys "log text") "evidence.txt" "UTC"
               (Some "key") (Some "token") true None None
               (mkStore [fresh_result] ∅ [] false 0))) !! 0%nat
  = Some fresh_result.
Proof.
  apply (run_never_mutates_records Sample.iplib Sample.net Sample.gen
           Sample.tzl (Sample.sys "log text") "evidence.txt" "UTC"
           (Some "key") (Some "token") true None None
           (mkStore [fresh_result] ∅ [] false 0) 0%nat fresh_result).
  reflexivity.
Defined.

Section RunEnd.

Context (iplib : IpLib) (net : NetLib) (gen : GenLib) (tzl : TzLib)
        (sys : SysLib).

Lemma leave_last step r st :
  last (trace (snd (leave sys true step r st))) = Some (EvProgress step 100)
  /\ fst (leave sys true step r st) = r.
Proof. rewrite leave_store. cbn [fst snd trace]. rewrite last_snoc. tauto. Qed.

Lemma finally_store q results st :
  finally sys q results st
  = (tt, mkStore (heap st) (cache st)
           (trace st ++ (match results with
                         | Some _ => if q then [EvProgress "Completado" 100]
                                     else []
                         | None => []
                         end))
           (token_ipinfo_missing_logged st) (S (clock_reads st))).
Proof.
  unfold finally, bind, ret, report_progress, St.emit, St.now.
  destruct results, q; cbn; rewrite ?app_nil_r; reflexivity.
Qed.

End RunEnd.

(** X5.  With a progress queue, every run that returns ends its progress
    messages at 100 per cent: with the step "Error" when it returns
    [None], with the step "Completado" when it returns a list or the
    report. *)
Theorem run_ends_at_100 iplib net gen tzl sys path tz key token hash
    version st :
  let '(r, st') :=
    process_ip_analysis iplib net gen tzl sys path tz key token true hash
      version st in
  match r with
  | RunNone => last (trace st') = Some (EvProgress "Error" 100)
  | RunList _ | RunReport _ _ =>
      last (trace st') = Some (EvProgress "Completado" 100)
  | RunRaised _ => True
  end.
Proof.
  assert (Hleave_none : forall st0,
    let '(r, st') := leave sys true "Error" RunNone st0 in
    match r with
    | RunNone => last (trace st') = Some (EvProgress "Error" 100)
    | RunList _ | RunReport _ _ =>
        last (trace st') = Some (EvProgress "Completado" 100)
    | RunRaised _ => True
    end).
  { intros st0. rewrite leave_store. cbn [trace]. apply last_snoc. }
  assert (Hleave_list : forall st0,
    let '(r, st') := leave sys true "Completado" (RunList []) st0 in
    match r with
    | RunNone => last (trace st') = Some (EvProgress "Error" 100)
    | RunList _ | RunReport _ _ =>
        last (trace st') = Some (EvProgress "Completado" 100)
    | RunRaised _ => True
    end).
  { intros st0. rewrite leave_store. cbn [trace]. apply last_snoc. }
  unfold process_ip_analysis, bind.
  destruct (St.now (clock sys) st) as [start st1].
  destruct (report_progress true "Inicio" 0 st1) as [[] st2].
  destruct (missing key); [apply Hleave_none|].
  destruct (missing token); [apply Hleave_none|].
  destruct (negb _); [apply Hleave_none|].
  destruct (report_progress true "Lectura" 5 st2) as [[] st3].
  destruct (read_input_file sys path) as [text|]; [|apply Hleave_none].
  destruct (PyStr.is_empty _); [apply Hleave_list|].
  destruct (report_progress true "Extracción IA" 15 st3) as [[] st4].
  destruct (extract_ip_data_with_gemini iplib gen text (default "" key))
    as [[|c cands]|]; [apply Hleave_list| |apply Hleave_none].
  destruct (report_progress true "Procesando IPs" 30 st4) as [[] st5].
  destruct (St.cache_new st5) as [[] st6].
  destruct (process_items _ _ _ _ _ _ _ _ _ _ _ _) as [[results|e] st7].
  - rewrite finally_store. unfold St.now, ret. cbn [trace].
    apply last_snoc.
  - rewrite finally_store. exact I.
Qed.

Section RowRecords.

Context (iplib : IpLib) (net : NetLib) (gen : GenLib) (tzl : TzLib)
        (sys : SysLib).

Lemma ip_type_of_cases o kind :
  ip_type_of o = Some kind ->
  kind = "Privada" \/ kind = "Loopback" \/ kind = "Link-Local"
  \/ kind = "Multicast" \/ kind = "Reservada".
Proof.
  unfold ip_type_of.
  repeat match goal with |- context [if ?b then _ else _] => destruct b end;
    intros [= <-]; tauto.
Qed.

Lemma outcome_update_error o :
  exists v, outcome_update o fresh_result !! "error" = Some v
    /\ v <> PyStr "IP Inválida (Formato)"
    /\ v <> PyStr "Token IPinfo Faltante".
Proof.
  destruct o as [data| |status| | | |]; cbn [outcome_update].
  - destruct data as [| | | | | |items];
      try (eexists; split; [apply lookup_insert_eq|split; discriminate]).
    exists PyNone. split; [|split; discriminate]. unfold update_from_data.
    repeat (rewrite lookup_insert_ne by discriminate).
    apply lookup_insert_eq.
  - eexists; split; [apply lookup_insert_eq|split; discriminate].
  - eexists; split; [apply lookup_insert_eq|]. unfold http_error_tag.
    destruct (_ || _); [split; discriminate|].
    destruct (status =? 404); [split; discriminate|].
    destruct (status =? 429); [split; discriminate|].
    unfold String.append. split; discriminate.
  - eexists; split; [apply lookup_insert_eq|split; discriminate].
  - eexists; split; [apply lookup_insert_eq|split; discriminate].
  - eexists; split; [apply lookup_insert_eq|split; discriminate].
  - eexists; split; [apply lookup_insert_eq|split; discriminate].
Qed.

(** The record made for a valid IP with a token at hand. *)
Lemma miss_row_record_ok ip token st :
  is_valid_ip iplib ip = true -> PyStr.is_empty token = false ->
  row_record_ok (miss_record (miss_of iplib net ip token st)).
Proof.
  intros Hvalid Htoken. split; [apply miss_record_ok|].
  unfold miss_of. rewrite Hvalid, Htoken. cbn [negb].
  destruct (ipaddress_ip_address iplib ip) as [o|]; cbn [miss_record].
  2:{ rewrite error_record_error. split; discriminate. }
  destruct (ip_type_of o) as [kind|] eqn:Hkind; cbn [miss_record].
  - rewrite scope_record_error.
    destruct (ip_type_of_cases o kind Hkind) as [->|[->|[->|[->| ->]]]];
      split; discriminate.
  - rewrite record_ok_defaults by apply outcome_update_ok.
    destruct (outcome_update_error
                (requests_get net (http_count (trace st))
                   (IPINFO_URL ip token))) as (v & -> & H1 & H2).
    split; congruence.
Qed.

Lemma store_inv_same P st st' :
  heap st' = heap st -> cache st' = cache st ->
  store_inv P st -> store_inv P st'.
Proof. intros Hh Hc H ip l. rewrite Hh, Hc. apply H. Qed.

Lemma get_ip_info_heap ip token st l r :
  heap st !! l = Some r ->
  heap (snd (get_ip_info iplib net ip token st)) !! l = Some r.
Proof.
  apply (store_step_heap iplib net sys). do 4 right. eauto.
Qed.

(** The rows of the loop point at records made for valid IPs. *)
Lemma process_items_rows q tz token total items : forall idx acc st rs st',
  PyStr.is_empty token = false ->
  store_inv row_record_ok st ->
  (forall c, c ∈ items -> is_valid_ip iplib (ip_address c) = true) ->
  (forall row, row ∈ acc ->
     exists r, heap st !! ip_info row = Some r /\ row_record_ok r) ->
  process_items iplib net tzl sys q tz token total idx items acc st
  = (Returned rs, st') ->
  forall row, row ∈ rs ->
    exists r, heap st' !! ip_info row = Some r /\ row_record_ok r.
Proof.
  induction items as [|item items IH];
    intros idx acc st rs st' Htoken Hinv Hvalid Hacc.
  - cbn. intros [= <- <-]. exact Hacc.
  - cbn [process_items]. unfold bind.
    pose proof (report_progress_store q
      ("Procesando IP " +:+ pretty (S idx) +:+ "/" +:+ pretty total)
      (30 + prog_share sys idx total) st) as [Hh1 Hc1].
    destruct (report_progress q _ _ st) as [[] st1]. cbn [snd] in Hh1, Hc1.
    unfold St.emit.
    set (st2 := mkStore (heap st1) (cache st1) (trace st1 ++ [EvSleep])
                  (token_ipinfo_missing_logged st1) (clock_reads st1)).
    assert (Hinv2 : store_inv row_record_ok st2).
    { apply (store_inv_same _ st); [exact Hh1|exact Hc1|exact Hinv]. }
    assert (Hitem : is_valid_ip iplib (ip_address item) = true).
    { apply Hvalid. constructor. }
    pose proof (store_inv_get iplib net row_record_ok (ip_address item) token
                  st2 Hinv2
                  (fun _ => miss_row_record_ok (ip_address item) token st2
                              Hitem Htoken)) as [Hinfo Hinv3].
    pose proof (fun l r => get_ip_info_heap (ip_address item) token st2 l r)
      as Hmono.
    destruct (get_ip_info iplib net (ip_address item) token st2)
      as [info st3]. cbn [fst snd] in Hinfo, Hinv3, Hmono.
    destruct (parse_and_convert_timezone tzl (timestamp_str item) tz)
      as [[orig conv]|e]; [|discriminate].
    apply IH; try assumption.
    + intros c Hc. apply Hvalid. right. exact Hc.
    + intros row [Hrow|Hrow%list_elem_of_singleton]%elem_of_app.
      * destruct (Hacc row Hrow) as (r & Hr & Hok). exists r.
        split; [|exact Hok]. apply Hmono. cbn [heap st2]. rewrite Hh1.
        exact Hr.
      * subst row. exact Hinfo.
Qed.

(** A run that ends with the report: the loop started with an empty
    cache, and nothing after the loop touches the heap. *)
Lemma run_report_store path tz key token q hash version st rs md st' :
  process_ip_analysis iplib net gen tzl sys path tz key token q hash
    version st = (RunReport rs md, st') ->
  exists text cands st0 st1,
    missing token = false
    /\ extract_ip_data_with_gemini iplib gen text (default "" key)
       = Some cands
    /\ cache st0 = ∅
    /\ process_items iplib net tzl sys q tz (default "" token)
         (length cands) 0 cands [] st0 = (Returned rs, st1)
    /\ heap st' = heap st1.
Proof.
  unfold process_ip_analysis, bind.
  destruct (St.now (clock sys) st) as [start st1].
  destruct (report_progress q "Inicio" 0 st1) as [[] st2].
  destruct (missing key); [rewrite leave_store; discriminate|].
  destruct (missing token) eqn:Htoken; [rewrite leave_store; discriminate|].
  destruct (negb _); [rewrite leave_store; discriminate|].
  destruct (report_progress q "Lectura" 5 st2) as [[] st3].
  destruct (read_input_file sys path) as [text|];
    [|rewrite leave_store; discriminate].
  destruct (PyStr.is_empty _); [rewrite leave_store; discriminate|].
  destruct (report_progress q "Extracción IA" 15 st3) as [[] st4].
  destruct (extract_ip_data_with_gemini iplib gen text (default "" key))
    as [[|c cands]|] eqn:Hex; try (rewrite leave_store; discriminate).
  destruct (report_progress q "Procesando IPs" 30 st4) as [[] st5].
  unfold St.cache_new.
  destruct (process_items _ _ _ _ _ _ _ _ _ _ _ _) as [[results|e] st7]
    eqn:Hloop.
  - rewrite finally_store. unfold St.now, ret.
    intros [= <- <- <-]. eexists text, (c :: cands), _, st7.
    split; [reflexivity|]. split; [exact Hex|].
    split; [|split; [exact Hloop|reflexivity]]. reflexivity.
  - rewrite finally_store. discriminate.
Qed.

End RowRecords.

(** X6.  In the report of a run, every row points at a record that
    exists, has the six keys with non-empty geolocation fields, and
    carries neither the error "IP Inválida (Formato)" nor "Token IPinfo
    Faltante": the adapter hands over valid IPs only, and the run does
    not reach the loop without a token. *)
Theorem report_rows_are_enriched iplib net gen tzl sys path tz key token q
    hash version st rs md st' :
  process_ip_analysis iplib net gen tzl sys path tz key token q hash version
    st = (RunReport rs md, st') ->
  forall row, row ∈ rs ->
    exists r, heap st' !! ip_info row = Some r /\ row_record_ok r.
Proof.
  intros Hrun.
  apply run_report_store in Hrun
    as (text & cands & st0 & st1 & Htoken & Hex & Hcache & Hloop & Hheap).
  rewrite Hheap.
  apply (process_items_rows iplib net tzl sys q tz (default "" token)
           (length cands) cands 0 [] st0 rs st1).
  - destruct token as [t|]; [exact Htoken|discriminate].
  - intros ip l H. rewrite Hcache, lookup_empty in H. discriminate.
  - apply extract_is_validated in Hex as [items ->].
    destruct (validate_items_inv iplib gen items) as (_ & _ & Hmem).
    intros c Hc.
    assert (Hp : pair_of c ∈ pair_of <$> validated_data
                                (validate_items iplib gen items)).
    { apply list_elem_of_fmap. exists c. tauto. }
    apply Hmem in Hp as (item & _ & _ & Hv). exact Hv.
  - intros row Hrow. inversion Hrow.
  - exact Hloop.
Qed.

Lemma report_rows_are_enriched_witness :
  exists rs md st',
    process_ip_analysis Sample.iplib Sample.net Sample.gen Sample.tzl
      (Sample.sys "log text") "evidence.txt" "UTC" (Some "key")
      (Some "token") true None None St.empty = (RunReport rs md, st')
    /\ length rs = 2%nat
    /\ forall row, row ∈ rs ->
         exists r, heap st' !! ip_info row = Some r /\ row_record_ok r.
Proof.
  destruct (process_ip_analysis Sample.iplib Sample.net Sample.gen Sample.tzl
              (Sample.sys "log text") "evidence.txt" "UTC" (Some "key")
              (Some "token") true None None St.empty) as [r st'] eqn:E.
  assert (H : exists rs md, r = RunReport rs md /\ length rs = 2%nat).
  { vm_compute in E. injection E as <- _. eexists. eexists.
    split; reflexivity. }
  destruct H as (rs & md & -> & Hlen). exists rs, md, st'.
  split; [reflexivity|]. split; [exact Hlen|].
  exact (report_rows_are_enriched Sample.iplib Sample.net Sample.gen
           Sample.tzl (Sample.sys "log text") "evidence.txt" "UTC"
           (Some "key") (Some "token") true None None St.empty rs md st' E).
Defined.

(* ===================================================================== *)
(** ** Further properties of [get_ip_info] *)
(* ===================================================================== *)

Lemma outcome_update_error_none o :
  outcome_update o fresh_result !! "error" = Some PyNone
  <-> exists items, o = HttpJson (PyDict items).
Proof.
  split.
  - destruct o as [data| |status| | | |]; cbn [outcome_update];
      try (rewrite lookup_insert_eq; discriminate).
    destruct data as [| | | | | |items];
      try (rewrite lookup_insert_eq; discriminate).
    intros _. eauto.
  - intros [items ->]. cbn [outcome_update]. unfold update_from_data.
    repeat (rewrite lookup_insert_ne by discriminate).
    apply lookup_insert_eq.
Qed.

(** X7.  The first lookup of a valid public IP with a token sends exactly
    one request, to the URL of that IP and token, and its record is put
    in the cache whatever the answer: the record of a failed request is
    cached like a successful one.  The error of the record is [None]
    exactly when the request returned a JSON object. *)
Theorem public_lookup_is_cached iplib net ip token st o :
  cache st !! ip = None ->
  is_valid_ip iplib ip = true ->
  PyStr.is_empty token = false ->
  ipaddress_ip_address iplib ip = Some o ->
  ip_type_of o = None ->
  let '(l, st') := get_ip_info iplib net ip token st in
  trace st' = trace st ++ [EvHttpGet (IPINFO_URL ip token)]
  /\ cache st' = <[ip := l]> (cache st)
  /\ exists r, heap st' !! l = Some r
       /\ record_ok r
       /\ (r !! "error" = Some PyNone <->
           exists items,
             requests_get net (http_count (trace st)) (IPINFO_URL ip token)
             = HttpJson (PyDict items)).
Proof.
  intros Hmiss Hvalid Htoken Hlib Hkind.
  rewrite (get_ip_info_miss _ _ _ _ _ Hmiss).
  pose proof (miss_record_ok iplib net ip token st) as Hok.
  revert Hok. unfold miss_of. rewrite Hvalid, Htoken, Hlib, Hkind.
  cbn [negb miss_record store_after_miss miss_cached miss_requested trace
       cache heap]. intros Hok.
  split; [reflexivity|]. split; [reflexivity|].
  eexists. split; [apply list_lookup_middle; reflexivity|].
  split; [exact Hok|].
  rewrite record_ok_defaults by apply outcome_update_ok.
  apply outcome_update_error_none.
Qed.

Lemma public_lookup_is_cached_witness :
  let '(l, st') :=
    get_ip_info Sample.iplib (mkNetLib (fun _ _ => HttpTimeout)) "8.8.8.8"
      "token" St.empty in
  trace st' = trace St.empty ++ [EvHttpGet (IPINFO_URL "8.8.8.8" "token")]
  /\ cache st' = <["8.8.8.8" := l]> (cache St.empty)
  /\ exists r, heap st' !! l = Some r
       /\ record_ok r
       /\ (r !! "error" = Some PyNone <->
           exists items, HttpTimeout = HttpJson (PyDict items)).
Proof.
  apply (public_lookup_is_cached Sample.iplib (mkNetLib (fun _ _ => HttpTimeout))
           "8.8.8.8" "token" St.empty (Sample.classify 134744072));
    reflexivity.
Defined.

(** X8.  Without a token, the first lookup of a valid IP ends before the
    scope classification and before any request: the record has the error
    "Token IPinfo Faltante" and "N/A" in its five geolocation fields, it
    is not put in the cache, and the flag that silences the repeated log
    line is set. *)
Theorem missing_token_lookup iplib net ip st :
  cache st !! ip = None ->
  is_valid_ip iplib ip = true ->
  let '(l, st') := get_ip_info iplib net ip "" st in
  (exists r, heap st' !! l = Some r
     /\ r !! "error" = Some (PyStr "Token IPinfo Faltante")
     /\ forall k, In k geo_keys -> r !! k = Some (PyStr "N/A"))
  /\ cache st' = cache st
  /\ trace st' = trace st
  /\ token_ipinfo_missing_logged st' = true.
Proof.
  intros Hmiss Hvalid. rewrite (get_ip_info_miss _ _ _ _ _ Hmiss).
  unfold miss_of. rewrite Hvalid. cbn [negb PyStr.is_empty].
  split; [|repeat split].
  exists (error_record "Token IPinfo Faltante"). split.
  - apply (store_after_miss_new ip "" (mkMiss _ false false _) st).
  - split; [apply error_record_error|apply error_record_geo].
Qed.

Lemma missing_token_lookup_witness :
  let '(l, st') := get_ip_info Sample.iplib Sample.net "8.8.8.8" "" St.empty in
  (exists r, heap st' !! l = Some r
     /\ r !! "error" = Some (PyStr "Token IPinfo Faltante")
     /\ forall k, In k geo_keys -> r !! k = Some (PyStr "N/A"))
  /\ cache st' = cache St.empty
  /\ trace st' = trace St.empty
  /\ token_ipinfo_missing_logged st' = true.
Proof.
  apply (missing_token_lookup Sample.iplib Sample.net "8.8.8.8" St.empty);
    reflexivity.
Defined.

(* ===================================================================== *)
(** ** Further properties of the normalizer *)
(* ===================================================================== *)

(** X9.  When neither [zoneinfo] nor [pytz] can be used, every target
    zone other than "UTC" is ignored: the function returns the instant
    with its UTC rendering followed by " UTC". *)
Theorem no_zone_library_renders_utc tzl timestamp_str target_tz_str utc :
  dateutil_available tzl = true ->
  ~ blank timestamp_str ->
  parse_to_utc tzl timestamp_str = Returned utc ->
  use_zoneinfo tzl = false ->
  pytz_truthy tzl = false ->
  target_tz_str <> "UTC" ->
  parse_and_convert_timezone tzl timestamp_str target_tz_str
  = Returned (Some utc, Datetime.strftime_YmdHMS utc +:+ " UTC").
Proof.
  intros Hd Hb Hparse Hz Hp Htz. unfold parse_and_convert_timezone.
  rewrite (guard_not_blank timestamp_str Hb), Hd, Hparse. cbn [negb].
  unfold convert_block, resolve_target. rewrite Hz, Hp, andb_false_r.
  rewrite (bool_decide_eq_false_2 _ Htz : PyStr.eqb target_tz_str "UTC" = false).
  reflexivity.
Qed.

Lemma no_zone_library_renders_utc_witness :
  parse_and_convert_timezone
    (mkTzLib true Sample.parse_iso NotImported NotImported false
       (Sample.zone_lookup ExZoneInfoNotFoundError)
       (Sample.zone_lookup ExUnknownTimeZoneError) (fun _ => 7200))
    "2024-03-15 10:30:00" "America/Bogota"
  = Returned (Some (mkDatetime 63846095400 0 (Some Datetime.UTC)),
              Datetime.strftime_YmdHMS
                (mkDatetime 63846095400 0 (Some Datetime.UTC)) +:+ " UTC").
Proof.
  apply no_zone_library_renders_utc; try reflexivity.
  - intros [H|H]; vm_compute in H; discriminate.
  - discriminate.
Defined.

(** X10.  A timestamp that parses to a value with an offset is converted,
    not relabelled: the instant is the reading minus the offset, in UTC.
    Rendered in a zone that has the same offset at that instant, it shows
    the date and time of the original reading again. *)
Theorem aware_timestamp_round_trip tzl timestamp_str target_tz_str original_dt
    offset target :
  dateutil_available tzl = true ->
  ~ blank timestamp_str ->
  date_parser_parse tzl timestamp_str = Returned original_dt ->
  Datetime.utcoffset original_dt = Some offset ->
  Datetime.in_range (dt_wall original_dt - offset) = true ->
  Datetime.in_range (dt_wall original_dt) = true ->
  let utc := mkDatetime (dt_wall original_dt - offset) (dt_micro original_dt)
               (Some Datetime.UTC) in
  resolve_target tzl utc target_tz_str = Returned (inr target) ->
  tz_fromutc target (dt_wall original_dt - offset) = offset ->
  exists suffix,
    parse_and_convert_timezone tzl timestamp_str target_tz_str
    = Returned (Some utc, Datetime.strftime_YmdHMS original_dt +:+ suffix).
Proof.
  intros Hd Hb Hparse Hoff Hr1 Hr2 utc Hres Hsame.
  assert (Hutc : parse_to_utc tzl timestamp_str = Returned utc).
  { unfold parse_to_utc. rewrite Hparse, Hoff. unfold Datetime.astimezone.
    rewrite Hoff, Hr1. cbn [Datetime.UTC tz_fromutc].
    rewrite Z.add_0_r, Hr1. reflexivity. }
  assert (Hconv : convert_block tzl utc target_tz_str
    = Returned (Datetime.strftime_YmdHMS original_dt +:+ " "
                  +:+ Datetime.strftime_Z
                        (mkDatetime (dt_wall original_dt)
                           (dt_micro original_dt) (Some target))
                  +:+ Datetime.strftime_z
                        (mkDatetime (dt_wall original_dt)
                           (dt_micro original_dt) (Some target)))).
  { unfold convert_block. rewrite Hres. unfold Datetime.astimezone.
    assert (Hu : Datetime.utcoffset utc = Some 0) by reflexivity.
    rewrite Hu.
    replace (dt_wall utc - 0) with (dt_wall original_dt - offset)
      by (cbn; lia).
    rewrite Hr1, Hsame.
    replace (dt_wall original_dt - offset + offset)
      with (dt_wall original_dt) by lia.
    rewrite Hr2. reflexivity. }
  unfold parse_and_convert_timezone.
  rewrite (guard_not_blank timestamp_str Hb), Hd, Hutc, Hconv. cbn [negb].
  eexists. reflexivity.
Qed.

Lemma aware_timestamp_round_trip_witness :
  let tzl :=
    mkTzLib true
      (fun _ => Returned (mkDatetime 63846095400 0 (Some Sample.bogota)))
      ImportedEnabled ImportedEnabled false
      (Sample.zone_lookup ExZoneInfoNotFoundError)
      (Sample.zone_lookup ExUnknownTimeZoneError) (fun _ => 7200) in
  exists suffix,
    parse_and_convert_timezone tzl "Mar 15 2024 10:30:00 -0500"
      "America/Bogota"
    = Returned (Some (mkDatetime (63846095400 - -18000) 0 (Some Datetime.UTC)),
                "2024-03-15 10:30:00" +:+ suffix).
Proof.
  intros tzl.
  apply (aware_timestamp_round_trip tzl "Mar 15 2024 10:30:00 -0500"
           "America/Bogota" (mkDatetime 63846095400 0 (Some Sample.bogota))
           (-18000) Sample.bogota); try reflexivity.
  intros [H|H]; vm_compute in H; discriminate.
Defined.

(* ===================================================================== *)
(** ** Strings: the organisation field and the Markdown fence *)
(* ===================================================================== *)

Lemma append_cons c s t : String c s +:+ t = String c (s +:+ t).
Proof. reflexivity. Qed.

Lemma append_nil_r s : s +:+ "" = s.
Proof. induction s as [|c s IH]; [reflexivity|]. rewrite append_cons, IH. reflexivity. Qed.

Lemma append_assoc s t u : (s +:+ t) +:+ u = s +:+ (t +:+ u).
Proof.
  induction s as [|c s IH]; [reflexivity|].
  rewrite !append_cons, IH. reflexivity.
Qed.

Lemma length_append s t :
  String.length (s +:+ t) = (String.length s + String.length t)%nat.
Proof.
  induction s as [|c s IH]; [reflexivity|].
  rewrite append_cons. cbn [String.length]. rewrite IH. reflexivity.
Qed.

Lemma append_longer s t : s <> "" -> s +:+ t <> t.
Proof.
  intros Hs H. apply (f_equal String.length) in H.
  rewrite length_append in H. destruct s; [congruence|]. cbn in H. lia.
Qed.

Lemma rev_app_append s : forall t, String.rev_app s t = String.rev s +:+ t.
Proof.
  unfold String.rev. induction s as [|c s IH]; intros t; [reflexivity|].
  cbn [String.rev_app]. rewrite IH, (IH (String c "")), append_assoc.
  reflexivity.
Qed.

Lemma rev_append s t : String.rev (s +:+ t) = String.rev t +:+ String.rev s.
Proof.
  induction s as [|c s IH].
  - cbn. rewrite append_nil_r. reflexivity.
  - rewrite append_cons. unfold String.rev at 1 3. cbn [String.rev_app].
    rewrite !rev_app_append, IH, append_assoc. reflexivity.
Qed.

Lemma rev_involutive s : String.rev (String.rev s) = s.
Proof.
  induction s as [|c s IH]; [reflexivity|].
  unfold String.rev at 2. cbn [String.rev_app].
  rewrite rev_app_append, rev_append, IH. reflexivity.
Qed.

Lemma prefix_append p s : String.prefix p (p +:+ s) = true.
Proof.
  induction p as [|c p IH]; [destruct s; reflexivity|].
  rewrite append_cons. cbn [String.prefix].
  destruct (ascii_dec c c); [exact IH|congruence].
Qed.

Lemma drop_append p s : PyStr.drop (String.length p) (p +:+ s) = s.
Proof.
  induction p as [|c p IH]; [reflexivity|].
  rewrite append_cons. exact IH.
Qed.

Lemma drop_while_append p a b :
  PyStr.drop_while p a = "" -> PyStr.drop_while p b = b ->
  PyStr.drop_while p (a +:+ b) = b.
Proof.
  intros Ha Hb. induction a as [|c a IH]; [exact Hb|].
  rewrite append_cons. cbn [PyStr.drop_while] in *.
  destruct (p c); [apply IH, Ha|discriminate].
Qed.

(** The match on the organisation field "AS<digits> <name>". *)
Lemma match_as_org_name a s digits name :
  (a = "A" \/ a = "a")%char -> (s = "S" \/ s = "s")%char ->
  digits_only digits -> plain_name name ->
  PyStr.match_as_org (String a (String s (digits +:+ " " +:+ name)))
  = Some name.
Proof.
  intros Ha Hs [Hd1 Hd2] (Hn1 & Hn2 & Hn3 & Hn4 & Hn5).
  unfold PyStr.match_as_org.
  replace ((Ascii.eqb a "A" || Ascii.eqb a "a")
           && (Ascii.eqb s "S" || Ascii.eqb s "s"))%char with true
    by (destruct Ha as [-> | ->], Hs as [-> | ->]; reflexivity).
  assert (Hdigits : PyStr.drop_while PyStr.is_digit (digits +:+ " " +:+ name)
                    = " " +:+ name).
  { apply drop_while_append; [exact Hd2|reflexivity]. }
  rewrite Hdigits.
  rewrite (bool_decide_eq_false_2 (" " +:+ name = digits +:+ " " +:+ name))
    by (intros H; symmetry in H; revert H; apply append_longer, Hd1).
  assert (Hspace : PyStr.drop_while PyStr.is_space (" " +:+ name) = name).
  { rewrite append_cons. cbn [PyStr.drop_while].
    replace (PyStr.is_space " ") with true by reflexivity. exact Hn4. }
  rewrite Hspace.
  rewrite (bool_decide_eq_false_2 (name = " " +:+ name))
    by (intros H; symmetry in H; revert H; apply append_longer; discriminate).
  rewrite Hn5. reflexivity.
Qed.

(** X11.  An organisation field of the form "AS<digits> <name>", in
    either case of the two letters, gives the name without the AS number
    as the ISP of the record, whatever the answer holds under [isp]. *)
Theorem as_number_is_stripped items tag digits name d :
  In tag ["AS"; "as"; "As"; "aS"] ->
  digits_only digits -> plain_name name ->
  Py.assoc "org" items = Some (PyStr (tag +:+ digits +:+ " " +:+ name)) ->
  update_from_data items d !! "isp" = Some (PyStr name).
Proof.
  intros Htag Hd Hn Horg. unfold update_from_data.
  rewrite lookup_insert_eq. f_equal.
  assert (Hisp : isp_of_data items = PyStr name).
  { unfold isp_of_data, Py.get. rewrite Horg.
    assert (Hm : PyStr.match_as_org (tag +:+ digits +:+ " " +:+ name)
                 = Some name).
    { cbn [In] in Htag.
      destruct Htag as [<-|[<-|[<-|[<-|[]]]]];
        rewrite !append_cons; apply match_as_org_name; auto. }
    rewrite Hm.
    destruct Hn as (Hn1 & Hn2 & Hn3 & _).
    replace (PyStr.is_empty (tag +:+ digits +:+ " " +:+ name)) with false.
    2:{ cbn [In] in Htag. destruct Htag as [<-|[<-|[<-|[<-|[]]]]];
          reflexivity. }
    rewrite Hn3. cbn [Py.truthy Py.eq_str].
    destruct name as [|c name]; [congruence|]. cbn [PyStr.is_empty negb orb].
    rewrite (bool_decide_eq_false_2 _ Hn2 : PyStr.eqb (String c name) "N/A"
                                            = false).
    reflexivity. }
  rewrite Hisp. destruct Hn as (Hn1 & _).
  destruct name; [congruence|reflexivity].
Qed.

Lemma as_number_is_stripped_witness :
  update_from_data
    [("org", PyStr ("AS" +:+ "15169" +:+ " " +:+ "Google LLC"));
     ("isp", PyStr "ignored")] fresh_result !! "isp"
  = Some (PyStr "Google LLC").
Proof.
  apply (as_number_is_stripped _ "AS" "15169" "Google LLC").
  - left. reflexivity.
  - split; [discriminate|reflexivity].
  - repeat split; try discriminate; reflexivity.
  - reflexivity.
Defined.

(** X12.  A response wrapped in a Markdown fence is read like the bare
    text: once the fence with its [json] tag is removed, what is left is
    the stripped body. *)
Theorem fenced_response_is_unwrapped body :
  strip_fences ("```json" +:+ body +:+ "```") = PyStr.strip body.
Proof.
  unfold strip_fences, PyStr.startswith.
  rewrite prefix_append.
  change 7%nat with (String.length "```json"). rewrite drop_append.
  unfold PyStr.endswith. rewrite rev_append.
  change (String.rev "```") with "```". rewrite prefix_append.
  unfold PyStr.drop_end. rewrite rev_append.
  change (String.rev "```") with "```".
  change 3%nat with (String.length "```"). rewrite drop_append.
  rewrite rev_involutive. reflexivity.
Qed.

(* ===================================================================== *)
(** ** The zone chosen in the GUI *)
(* ===================================================================== *)

Lemma forallb_below (P : nat -> bool) n :
  forallb P (seq 0 n) = true -> forall k, (k < n)%nat -> P k = true.
Proof.
  intros H k Hk. rewrite forallb_forall in H. apply H, in_seq. lia.
Qed.

Lemma check_inverted_all : forallb check_inverted (seq 0 100) = true.
Proof. vm_compute. reflexivity. Qed.

Lemma check_east_all : forallb check_east (seq 0 15) = true.
Proof. vm_compute. reflexivity. Qed.

Lemma check_west_all : forallb check_west (seq 0 100) = true.
Proof. vm_compute. reflexivity. Qed.

(** X13.  The GUI inverts the sign of a fixed offset before it calls the
    orchestrator: "UTC+h" is sent as "Etc/GMT-h" and "UTC-h" as
    "Etc/GMT+h", for every offset of one or two digits (the POSIX
    spelling of these zones). *)
Theorem display_offset_is_inverted (h : nat) :
  (h < 100)%nat ->
  Gui.map_display_tz_to_backend ("UTC+" +:+ pretty h) = "Etc/GMT-" +:+ pretty h
  /\ Gui.map_display_tz_to_backend ("UTC-" +:+ pretty h)
     = "Etc/GMT+" +:+ pretty h.
Proof.
  intros Hh.
  pose proof (forallb_below check_inverted 100 check_inverted_all h Hh) as H.
  unfold check_inverted in H. apply andb_true_iff in H as [H1 H2].
  apply String.eqb_eq in H1. apply String.eqb_eq in H2. split; assumption.
Qed.

Lemma display_offset_is_inverted_witness :
  Gui.map_display_tz_to_backend ("UTC+" +:+ pretty 5%nat)
  = "Etc/GMT-" +:+ pretty 5%nat
  /\ Gui.map_display_tz_to_backend ("UTC-" +:+ pretty 5%nat)
     = "Etc/GMT+" +:+ pretty 5%nat.
Proof. apply (display_offset_is_inverted 5). lia. Defined.

(** X14.  The zone names that the module initialisation builds for
    [range(-14, 15)] agree with the GUI for the offsets east of
    Greenwich only: "UTC+h" is sent as the name built for [h], but the
    names built for [i <= 0] are spelled with a blank (as in
    "Etc/GMT+ 5"), so the name sent for "UTC-h" is none of the names
    built. *)
Theorem built_zone_names_and_gui :
  (forall h : nat, (1 <= h <= 14)%nat ->
     Gui.map_display_tz_to_backend ("UTC+" +:+ pretty h)
     = etc_gmt_name (Z.of_nat h))
  /\ (forall (h : nat) (i : Z), (h < 100)%nat -> -14 <= i <= 14 ->
        etc_gmt_name i <> Gui.map_display_tz_to_backend ("UTC-" +:+ pretty h)).
Proof.
  split.
  - intros h Hh.
    assert (Hlt : (h < 15)%nat) by lia.
    pose proof (forallb_below check_east 15 check_east_all h Hlt) as H.
    unfold check_east in H. apply orb_true_iff in H as [H|H].
    + apply Nat.eqb_eq in H. lia.
    + apply String.eqb_eq, H.
  - intros h i Hh Hi.
    pose proof (forallb_below check_west 100 check_west_all h Hh) as H.
    unfold check_west in H.
    assert (Hk : (Z.to_nat (i + 14) < 29)%nat) by lia.
    pose proof (forallb_below _ 29 H (Z.to_nat (i + 14)) Hk) as H'.
    cbv beta in H'.
    replace (Z.of_nat (Z.to_nat (i + 14)) - 14) with i in H' by lia.
    apply negb_true_iff, String.eqb_neq in H'. exact H'.
Qed.

Lemma built_zone_names_and_gui_witness :
  Gui.map_display_tz_to_backend ("UTC+" +:+ pretty 5%nat) = etc_gmt_name 5
  /\ etc_gmt_name (-5)
     <> Gui.map_display_tz_to_backend ("UTC-" +:+ pretty 5%nat).
Proof.
  split.
  - apply (proj1 built_zone_names_and_gui 5%nat). lia.
  - apply (proj2 built_zone_names_and_gui 5%nat (-5)); lia.
Defined.

(* ===================================================================== *)
(** ** The rows prepared for display and export *)
(* ===================================================================== *)

Section ExportFacts.

Context (py_str : pyval -> string).

Lemma prepare_row_copies idx result info flat :
  prepare_row py_str idx result info = Returned flat ->
  orden flat = idx
  /\ flat_ip_address flat = res_ip_address result
  /\ flat_raw_timestamp_str flat = raw_timestamp_str result
  /\ timestamp_utc flat = original_timestamp_utc_str result
  /\ timestamp_converted flat = converted_timestamp result.
Proof.
  unfold prepare_row. destruct (Py.truthy _).
  - intros [= <-]. repeat split.
  - destruct (match List.filter _ _ with [] => _ | _ => _ end);
      [|discriminate].
    intros [= <-]. repeat split.
Qed.

Lemma prepare_rows_numbered h results : forall idx flats,
  prepare_rows py_str h idx results = Returned flats ->
  length flats = length results
  /\ forall k flat, flats !! k = Some flat ->
       orden flat = (idx + k)%nat
       /\ exists result, results !! k = Some result
            /\ flat_ip_address flat = res_ip_address result
            /\ flat_raw_timestamp_str flat = raw_timestamp_str result
            /\ timestamp_utc flat = original_timestamp_utc_str result
            /\ timestamp_converted flat = converted_timestamp result.
Proof.
  induction results as [|result results IH]; intros idx flats.
  - cbn. intros [= <-]. split; [reflexivity|]. intros k flat H. inversion H.
  - cbn [prepare_rows].
    destruct (prepare_row py_str idx result _) as [flat0|e] eqn:Hrow;
      [|discriminate].
    destruct (prepare_rows py_str h (S idx) results) as [flats0|e] eqn:Hrows;
      [|discriminate].
    intros [= <-]. destruct (IH _ _ Hrows) as [Hlen Hk].
    split; [cbn; rewrite Hlen; reflexivity|].
    intros [|k] flat Hflat.
    + cbn in Hflat. injection Hflat as <-.
      destruct (prepare_row_copies _ _ _ _ Hrow) as (H0 & H1 & H2 & H3 & H4).
      split; [lia|]. exists result. repeat split; assumption.
    + cbn in Hflat. destruct (Hk k flat Hflat) as [Ho Hr].
      split; [lia|exact Hr].
Qed.

Lemma join_comma_strings parts :
  Forall (fun p => Py.is_str p = true) parts ->
  exists s, join_comma parts = Returned s.
Proof.
  induction 1 as [|p parts Hp _ IH]; [eexists; reflexivity|].
  destruct p; try discriminate. cbn [join_comma].
  destruct parts as [|q parts]; [eexists; reflexivity|].
  destruct IH as [t ->]. eexists. reflexivity.
Qed.

Lemma prepare_row_text idx result info :
  record_text info -> exists flat, prepare_row py_str idx result info
                                   = Returned flat.
Proof.
  intros Htext. unfold prepare_row.
  destruct (Py.truthy _); [eexists; reflexivity|].
  destruct (Htext "city" ltac:(cbn; tauto)) as (c & -> & Hc).
  destruct (Htext "region" ltac:(cbn; tauto)) as (r & -> & Hr).
  destruct (Htext "country" ltac:(cbn; tauto)) as (n & -> & Hn).
  cbn [from_option id].
  assert (Hor : forall s, s <> "" ->
            Py.or_else (PyStr s) (PyStr "N/A") = PyStr s).
  { intros s Hs. unfold Py.or_else. rewrite (truthy_text s Hs). reflexivity. }
  rewrite (Hor c Hc), (Hor r Hr), (Hor n Hn).
  set (parts := List.filter _ _).
  assert (Hparts : Forall (fun p => Py.is_str p = true) parts).
  { apply Forall_forall. intros p Hp. apply list_elem_of_In in Hp.
    apply List.filter_In in Hp as [Hp _].
    cbn [In] in Hp. destruct Hp as [<-|[<-|[<-|[]]]]; reflexivity. }
  destruct (join_comma_strings parts Hparts) as [s Hs].
  destruct parts; [eexists; reflexivity|]. rewrite Hs. eexists. reflexivity.
Qed.

Lemma prepare_rows_text h results : forall idx,
  (forall row, row ∈ results ->
     exists r, h !! ip_info row = Some r /\ record_text r) ->
  exists flats, prepare_rows py_str h idx results = Returned flats.
Proof.
  induction results as [|result results IH]; intros idx Hrows.
  - eexists. reflexivity.
  - cbn [prepare_rows].
    destruct (Hrows result ltac:(constructor)) as (r & -> & Hr).
    cbn [from_option id].
    destruct (prepare_row_text idx result r Hr) as [flat ->].
    destruct (IH (S idx)) as [flats ->].
    + intros row Hrow. apply Hrows. right. exact Hrow.
    + eexists. reflexivity.
Qed.

End ExportFacts.

(** X15.  The rows prepared for display and export follow the results
    one for one: when the preparation returns, it returns as many rows as
    there are results, numbered from 1 in their order, each with the IP
    and the three timestamp strings of its result. *)
Theorem export_rows_follow_results py_str h results flats :
  prepare_export_data py_str h results = Returned flats ->
  length flats = length results
  /\ forall k flat, flats !! k = Some flat ->
       orden flat = S k
       /\ exists result, results !! k = Some result
            /\ flat_ip_address flat = res_ip_address result
            /\ flat_raw_timestamp_str flat = raw_timestamp_str result
            /\ timestamp_utc flat = original_timestamp_utc_str result
            /\ timestamp_converted flat = converted_timestamp result.
Proof.
  intros H. apply prepare_rows_numbered in H as [Hlen Hk].
  split; [exact Hlen|]. intros k flat Hf. destruct (Hk k flat Hf) as [Ho Hr].
  split; [lia|exact Hr].
Qed.

(** X16.  For a record with an error, the prepared row shows the error in
    place of the ISP and no geolocation at all, whatever the record holds
    in its other fields: for an address of a special range the ISP
    "Red <kind>" set by [get_ip_info] is replaced by "Error: IP <kind>". *)
Theorem export_row_of_error py_str idx result info e :
  info !! "error" = Some (PyStr e) -> e <> "" ->
  prepare_row py_str idx result info
  = Returned (mkFlat idx (res_ip_address result) (raw_timestamp_str result)
                (original_timestamp_utc_str result)
                (converted_timestamp result)
                (PyStr ("Error: " +:+ e))
                (PyStr "N/A") (PyStr "N/A") (PyStr "N/A") (PyStr "N/A")
                "N/A" (PyStr e)).
Proof.
  intros He Hne. unfold prepare_row. rewrite He. cbn [from_option id].
  rewrite (truthy_text e Hne). reflexivity.
Qed.

Lemma export_row_of_error_witness :
  prepare_row (fun _ => "") 2%nat
    (mkResult "192.168.1.1" "" None "N/A" "N/A" 1%nat) (scope_record "Privada")
  = Returned (mkFlat 2%nat "192.168.1.1" "" "N/A" "N/A"
                (PyStr ("Error: " +:+ "IP Privada"))
                (PyStr "N/A") (PyStr "N/A") (PyStr "N/A") (PyStr "N/A")
                "N/A" (PyStr "IP Privada")).
Proof.
  apply (export_row_of_error (fun _ => "") 2%nat
           (mkResult "192.168.1.1" "" None "N/A" "N/A" 1%nat)
           (scope_record "Privada") "IP Privada").
  - apply scope_record_error.
  - discriminate.
Defined.

Lemma export_rows_follow_results_witness :
  exists flats,
    prepare_export_data (fun _ => "") [scope_record "Privada"]
      [mkResult "192.168.1.1" "" None "N/A" "N/A" 0%nat] = Returned flats
    /\ length flats = 1%nat.
Proof.
  eexists. split; [reflexivity|].
  apply (export_rows_follow_results (fun _ => "") [scope_record "Privada"]
           [mkResult "192.168.1.1" "" None "N/A" "N/A" 0%nat]).
  reflexivity.
Defined.

Section RowsOfText.

Context (iplib : IpLib) (net : NetLib) (gen : GenLib) (tzl : TzLib)
        (sys : SysLib).

(** The rows of the loop point at records that satisfy [P], when every
    record made by a lookup does. *)
Lemma process_items_rows_of (P : pydict -> Prop) q tz token total items :
  (forall ip st, P (miss_record (miss_of iplib net ip token st))) ->
  forall idx acc st rs st',
  store_inv P st ->
  (forall row, row ∈ acc -> exists r, heap st !! ip_info row = Some r /\ P r) ->
  process_items iplib net tzl sys q tz token total idx items acc st
  = (Returned rs, st') ->
  forall row, row ∈ rs -> exists r, heap st' !! ip_info row = Some r /\ P r.
Proof.
  intros Hmiss.
  induction items as [|item items IH]; intros idx acc st rs st' Hinv Hacc.
  - cbn. intros [= <- <-]. exact Hacc.
  - cbn [process_items]. unfold bind.
    pose proof (report_progress_store q
      ("Procesando IP " +:+ pretty (S idx) +:+ "/" +:+ pretty total)
      (30 + prog_share sys idx total) st) as [Hh1 Hc1].
    destruct (report_progress q _ _ st) as [[] st1]. cbn [snd] in Hh1, Hc1.
    unfold St.emit.
    set (st2 := mkStore (heap st1) (cache st1) (trace st1 ++ [EvSleep])
                  (token_ipinfo_missing_logged st1) (clock_reads st1)).
    assert (Hinv2 : store_inv P st2).
    { apply (store_inv_same _ st); [exact Hh1|exact Hc1|exact Hinv]. }
    pose proof (store_inv_get iplib net P (ip_address item) token st2 Hinv2
                  (fun _ => Hmiss (ip_address item) st2)) as [Hinfo Hinv3].
    pose proof (fun l r =>
      get_ip_info_heap iplib net sys (ip_address item) token st2 l r)
      as Hmono.
    destruct (get_ip_info iplib net (ip_address item) token st2)
      as [info st3]. cbn [fst snd] in Hinfo, Hinv3, Hmono.
    destruct (parse_and_convert_timezone tzl (timestamp_str item) tz)
      as [[orig conv]|e]; [|discriminate].
    apply IH; try assumption.
    intros row [Hrow|Hrow%list_elem_of_singleton]%elem_of_app.
    + destruct (Hacc row Hrow) as (r & Hr & Hok). exists r.
      split; [|exact Hok]. apply Hmono. cbn [heap st2]. rewrite Hh1.
      exact Hr.
    + subst row. exact Hinfo.
Qed.

End RowsOfText.

(** X17.  When the provider answers with strings (or nothing) under the
    keys that [get_ip_info] copies, the report of a run can always be
    prepared for display and export: the preparation returns, with one
    row for each row of the report. *)
Theorem report_export_returns iplib net gen tzl sys py_str path tz key token
    q hash version st rs md st' :
  text_answers net ->
  process_ip_analysis iplib net gen tzl sys path tz key token q hash version
    st = (RunReport rs md, st') ->
  exists flats,
    prepare_export_data py_str (heap st') rs = Returned flats
    /\ length flats = length rs.
Proof.
  intros Hnet Hrun.
  apply run_report_store in Hrun
    as (text & cands & st0 & st1 & Htoken & Hex & Hcache & Hloop & Hheap).
  rewrite Hheap.
  assert (Hrows : forall row, row ∈ rs ->
            exists r, heap st1 !! ip_info row = Some r /\ record_text r).
  { apply (process_items_rows_of iplib net tzl sys record_text q tz
             (default "" token) (length cands) cands
             (fun ip st2 => miss_record_text iplib net ip (default "" token)
                              st2 Hnet)
             0%nat [] st0 rs st1).
    - intros ip l H. rewrite Hcache, lookup_empty in H. discriminate.
    - intros row Hrow. inversion Hrow.
    - exact Hloop. }
  destruct (prepare_rows_text py_str (heap st1) rs 1 Hrows) as [flats Hflats].
  exists flats. split; [exact Hflats|].
  apply (prepare_rows_numbered py_str (heap st1) rs 1%nat flats Hflats).
Qed.

Lemma report_export_returns_witness :
  exists rs md st' flats,
    process_ip_analysis Sample.iplib Sample.net Sample.gen Sample.tzl
      (Sample.sys "log text") "evidence.txt" "UTC" (Some "key")
      (Some "token") true None None St.empty = (RunReport rs md, st')
    /\ prepare_export_data (fun _ => "") (heap st') rs = Returned flats
    /\ length flats = length rs.
Proof.
  destruct (process_ip_analysis Sample.iplib Sample.net Sample.gen Sample.tzl
              (Sample.sys "log text") "evidence.txt" "UTC" (Some "key")
              (Some "token") true None None St.empty) as [r st'] eqn:E.
  assert (H : exists rs md, r = RunReport rs md).
  { vm_compute in E. injection E as <- _. eexists. eexists. reflexivity. }
  destruct H as (rs & md & ->).
  destruct (report_export_returns Sample.iplib Sample.net Sample.gen
              Sample.tzl (Sample.sys "log text") (fun _ => "") "evidence.txt"
              "UTC" (Some "key") (Some "token") true None None St.empty rs md
              st' sample_text_answers E) as (flats & H1 & H2).
  exists rs, md, st', flats. repeat split; assumption.
Defined.

(* ===================================================================== *)
(** ** The lines of the table of the text report *)
(* ===================================================================== *)

Lemma length_spaces n : String.length (PyFmt.spaces n) = n.
Proof. induction n as [|n IH]; [reflexivity|]. cbn. rewrite IH. reflexivity. Qed.

Lemma length_take n : forall s,
  String.length (PyFmt.take n s) = Nat.min n (String.length s).
Proof.
  induction n as [|n IH]; intros [|c s]; try reflexivity.
  cbn. rewrite IH. reflexivity.
Qed.

Lemma length_ljust s width :
  String.length (PyFmt.ljust s width) = Nat.max width (String.length s).
Proof. unfold PyFmt.ljust. rewrite length_append, length_spaces. lia. Qed.

Lemma length_center s width :
  String.length (PyFmt.center s width) = Nat.max width (String.length s).
Proof.
  unfold PyFmt.center. rewrite !length_append, !length_spaces.
  pose proof (Nat.Div0.mul_div_le (width - String.length s) 2). lia.
Qed.

(** What is longer than its column is cut to the column, with the dots. *)
Lemma length_truncated (width : nat) value :
  (3 <= width < String.length value)%nat ->
  String.length (PyFmt.slice_to value (Z.of_nat width - 3) +:+ "...")
  = width.
Proof.
  intros H. unfold PyFmt.slice_to.
  destruct (Z.ltb_spec (Z.of_nat width - 3) 0) as [Hn|Hn]; [lia|].
  rewrite length_append, length_take. cbn [String.length]. lia.
Qed.

Lemma widths_bounds h : (3 <= widths h)%nat.
Proof. destruct h; cbn; lia. Qed.

Lemma report_cell_length h value :
  String.length (report_cell h value) = widths h.
Proof.
  pose proof (widths_bounds h) as Hw. unfold report_cell.
  destruct (Nat.ltb_spec (widths h) (String.length value)) as [Hlt|Hge].
  - pose proof (length_truncated (widths h) value ltac:(lia)) as Ht.
    destruct h; rewrite ?length_center, ?length_ljust, Ht; lia.
  - destruct h; rewrite ?length_center, ?length_ljust; lia.
Qed.

(** X18.  In the table of the text report every cell of a row is exactly
    as wide as its column, whatever the value (a longer value is cut and
    ends in three dots, a shorter one is padded), so every row of the
    table has the same width, the 195 characters of [total_w]. *)
Theorem report_rows_have_one_width py_str :
  (forall h value, String.length (report_cell h value) = widths h)
  /\ (forall row, String.length (row_line py_str row) = total_w)
  /\ total_w = 195%nat.
Proof.
  split; [exact report_cell_length|]. split; [|reflexivity].
  intros row. unfold row_line, header_keys.
  cbn [fmap list_fmap PyFmt.join]. rewrite !length_append.
  rewrite !report_cell_length. reflexivity.
Qed.

(** X19.  The header of the table is padded but never cut: it is as wide
    as the rows exactly when the name of the time zone has at most 16
    characters; a longer name moves the columns of the header to the
    right of those of the rows. *)
Theorem header_line_width final_tz_used :
  String.length (header_line final_tz_used) = total_w
  <-> (String.length final_tz_used <= 16)%nat.
Proof.
  unfold header_line, header_keys.
  cbn [fmap list_fmap PyFmt.join]. rewrite !length_append.
  rewrite !length_ljust. cbn [headers widths]. rewrite !length_append.
  change total_w with 195%nat. cbn [String.length separator]. lia.
Qed.

Lemma header_line_width_witness :
  String.length (header_line "America/Argentina/Buenos_Aires") <> total_w
  /\ String.length (header_line "America/Bogota") = total_w.
Proof.
  split.
  - intros H. apply (header_line_width "America/Argentina/Buenos_Aires") in H.
    cbn in H. lia.
  - apply (header_line_width "America/Bogota"). cbn. lia.
Defined.

(* ===================================================================== *)
(** ** The command line *)
(* ===================================================================== *)

Section CliFacts.

Context (iplib : IpLib) (net : NetLib) (gen : GenLib) (tzl : TzLib)
        (sys : SysLib).

(** The report of a run has a row: the loop is not entered without a
    candidate, and it makes a row of every candidate. *)
Lemma run_report_has_rows path tz key token q hash version st md :
  fst (process_ip_analysis iplib net gen tzl sys path tz key token q hash
         version st) <> RunReport [] md.
Proof.
  unfold process_ip_analysis, bind.
  destruct (St.now (clock sys) st) as [start st1].
  destruct (report_progress q "Inicio" 0 st1) as [[] st2].
  destruct (missing key); [rewrite leave_fst; discriminate|].
  destruct (missing token); [rewrite leave_fst; discriminate|].
  destruct (negb _); [rewrite leave_fst; discriminate|].
  destruct (report_progress q "Lectura" 5 st2) as [[] st3].
  destruct (read_input_file sys path) as [text|];
    [|rewrite leave_fst; discriminate].
  destruct (PyStr.is_empty _); [rewrite leave_fst; discriminate|].
  destruct (report_progress q "Extracción IA" 15 st3) as [[] st4].
  destruct (extract_ip_data_with_gemini iplib gen text (default "" key))
    as [[|c cands]|]; try (rewrite leave_fst; discriminate).
  destruct (report_progress q "Procesando IPs" 30 st4) as [[] st5].
  destruct (St.cache_new st5) as [[] st6].
  pose proof (process_items_spec iplib net tzl sys q tz (default "" token)
                (length (c :: cands)) (c :: cands) 0 [] st6) as Hspec.
  destruct (process_items _ _ _ _ _ _ _ _ _ _ _ _) as [[results|e] st7].
  - destruct (finally sys q (Some results) st7) as [[] st8].
    destruct (St.now (clock sys) st8) as [t st9]. cbn [fst ret].
    intros [= -> _]. destruct Hspec as [Hrows _]. discriminate.
  - destruct (finally sys q None st7) as [[] st8]. cbn. discriminate.
Qed.

(** Without a report there is no choice between message and report. *)
Lemma main_cli_of_run path tz key token st :
  missing key = false -> missing token = false ->
  fst (main_cli iplib net gen tzl sys path tz key token st)
  = match fst (process_ip_analysis iplib net gen tzl sys path tz key token
                 false None None st) with
    | RunRaised e => CliRaised e
    | RunNone => CliExit 1
    | RunList _ => CliAttributeError
    | RunReport [] _ => CliNoValidIps
    | RunReport rs md => CliReported rs md
    end.
Proof.
  intros Hk Ht. unfold main_cli, bind. rewrite Hk, Ht. cbn [orb].
  destruct (process_ip_analysis _ _ _ _ _ _ _ _ _ _ _ _ st)
    as [[|l|[|r rs] md|e] st']; reflexivity.
Qed.

End CliFacts.

(** X20.  The command line never reports that the analysis found no
    valid IP: the branch of [main_cli] for an empty [analysis_results] is
    not reached in any run, because a run that returns its dictionary
    has at least one row. *)
Theorem cli_no_valid_ips_is_unreachable iplib net gen tzl sys path tz key
    token st :
  fst (main_cli iplib net gen tzl sys path tz key token st) <> CliNoValidIps.
Proof.
  destruct (missing key) eqn:Hk;
    [unfold main_cli; rewrite Hk; discriminate|].
  destruct (missing token) eqn:Ht;
    [unfold main_cli; rewrite Hk, Ht; discriminate|].
  rewrite (main_cli_of_run iplib net gen tzl sys path tz key token st Hk Ht).
  pose proof (fun md => run_report_has_rows iplib net gen tzl sys path tz key
                          token false None None st md) as Hrows.
  destruct (fst (process_ip_analysis _ _ _ _ _ _ _ _ _ _ _ _ st))
    as [|l|[|r rs] md|e]; try discriminate.
  destruct (Hrows md eq_refl).
Qed.

(** X21.  With both credentials and a readable file, a file that is blank
    or in which the extraction finds no candidate ends the command line
    with an [AttributeError]: the run returns a list, and [main_cli]
    calls [.get] on it. *)
Theorem cli_fails_without_candidates iplib net gen tzl sys path tz key token
    st text :
  missing key = false -> missing token = false ->
  is_file sys path = true ->
  read_input_file sys path = Some text ->
  PyStr.strip text = ""
  \/ extract_ip_data_with_gemini iplib gen text (default "" key) = Some [] ->
  fst (main_cli iplib net gen tzl sys path tz key token st)
  = CliAttributeError.
Proof.
  intros Hk Ht Hf Hr Hc.
  rewrite (main_cli_of_run iplib net gen tzl sys path tz key token st Hk Ht).
  assert (Hrun : fst (process_ip_analysis iplib net gen tzl sys path tz key
                        token false None None st) = RunList []).
  { destruct (decide (PyStr.strip text = "")) as [Hs|Hs].
    - exact (blank_file_bare_list iplib net gen tzl sys path tz key token
               false None None st text Hk Ht Hf Hr Hs).
    - destruct Hc as [Hc|Hc]; [contradiction|].
      exact (no_candidate_bare_list iplib net gen tzl sys path tz key token
               false None None st text Hk Ht Hf Hr Hs Hc). }
  rewrite Hrun. reflexivity.
Qed.

Lemma cli_fails_without_candidates_witness :
  fst (main_cli Sample.iplib Sample.net Sample.gen_nothing Sample.tzl
         (Sample.sys "no address here") "evidence.txt" "UTC" (Some "key")
         (Some "token") St.empty)
  = CliAttributeError.
Proof.
  apply (cli_fails_without_candidates Sample.iplib Sample.net
           Sample.gen_nothing Sample.tzl (Sample.sys "no address here")
           "evidence.txt" "UTC" (Some "key") (Some "token") St.empty
           "no address here"); try reflexivity.
  right. reflexivity.
Defined.
